(** * NeuralOS backend ([backend/main.py]): a shallow embedding and its properties

  The backend is a FastAPI application whose handlers orchestrate three
  managed services: a record store (Supabase), a vector index (Pinecone)
  and a model provider (OpenAI).  The handlers are embedded as functions
  in a state-and-exception monad over an explicit [World]; the services
  themselves are an interface ([Collaborators]). *)

From Stdlib Require Import ZArith Lia Ascii String.
From stdpp Require Import base option list gmap strings sorting pretty.

Local Open Scope Z_scope.

(** ** Python exceptions and results *)

Inductive exn : Type :=
  | HTTPException (status_code : Z) (detail : string)
  | APIError (message : string)
  | KeyError (key : string)
  | AttributeError (message : string)
  | ValueError (message : string)
  | IndexError.

Inductive result (A : Type) : Type :=
  | Ok (a : A)
  | Raise (e : exn).
Arguments Ok {A} a.
Arguments Raise {A} e.

Definition rbind {A B : Type} (r : result A) (k : A → result B) : result B :=
  match r with
  | Ok a => k a
  | Raise e => Raise e
  end.

(** ** Values found in a row returned by the record store *)

Inductive pyvalue : Type :=
  | PStr (s : string)
  | PBool (b : bool)
  | PInt (z : Z)
  | PList (l : list string)
  | PNone.

(** A [date] is represented by its proleptic Gregorian ordinal
  ([date.toordinal()]): equality, hashing, ordering and subtraction of
  Python dates all agree with the ordinal. *)
Definition date : Type := Z.

Record datetime : Type := mkDatetime {
  dt_date : date;
  dt_microsecond_of_day : Z;
  dt_utcoffset : option Z
}.

(** [(d1 - d2).days] *)
Definition days_between (d1 d2 : date) : Z := d1 - d2.

(** [s.replace('Z', '+00:00')] *)
Fixpoint replace_Z (s : string) : string :=
  match s with
  | EmptyString => EmptyString
  | String c rest =>
      if Ascii.eqb c "Z"%char
      then String.append "+00:00" (replace_Z rest)
      else String c (replace_Z rest)
  end.

(** ** The collaborators

  [fromisoformat] and [isoformat] are the Python standard library;
  the rest is what the handlers rely on from the embedding model, the
  vector index, the chat model and the record store.  The record store
  reads an [or=(...)] filter from its text: what a text means, and
  whether it is a filter at all, is the store's to say. *)

Record Match_ (Score : Type) : Type := mkMatch {
  m_id : string;
  m_score : Score;
  m_metadata : gmap string string
}.
Arguments mkMatch {Score}.
Arguments m_id {Score}.
Arguments m_score {Score}.
Arguments m_metadata {Score}.

Record VectorEntry (Vector : Type) : Type := mkVectorEntry {
  ve_values : Vector;
  ve_metadata : gmap string string
}.
Arguments mkVectorEntry {Vector}.
Arguments ve_values {Vector}.
Arguments ve_metadata {Vector}.

Class Collaborators : Type := {
  (* datetime.fromisoformat: None is ValueError *)
  fromisoformat : string → option datetime;
  (* datetime.isoformat of a naive UTC instant, in microseconds since the epoch *)
  isoformat : Z → string;
  Vector : Type;
  Score : Type;
  (* embeddings.create(model="text-embedding-3-small") *)
  embedding_model : string → Vector;
  (* index.query(vector, top_k, include_metadata=True, filter={user_id}) *)
  index_query :
    Vector → Z → string → gmap string (VectorEntry Vector) → list (Match_ Score);
  (* chat.completions.create(model="gpt-4o-mini"): system prompt, user prompt;
     the answer is what [choices[0].message.content] holds, None when the
     message has no content *)
  chat_model : string → string → option string;
  (* format(score, ".0%") *)
  format_percent : Score → string;
  (* the store's order on timestamp columns: [timestamp_leb a b] is a <= b *)
  timestamp_leb : string → string → bool;
  (* the store's reading of the text of an [or=(...)] filter, as a test on a
     row given by its columns; None when the store cannot parse the text *)
  or_filter : string → option (gmap string pyvalue → bool)
}.

(** ** Streak calculator *)

Section Streak.
Context `{Collaborators}.

(** [datetime.fromisoformat(a['created_at'].replace('Z', '+00:00')).date()] *)
Definition activity_date (a : gmap string pyvalue) : result date :=
  match a !! "created_at" with
  | None => Raise (KeyError "created_at")
  | Some (PStr s) =>
      match fromisoformat (replace_Z s) with
      | Some dt => Ok (dt_date dt)
      | None => Raise (ValueError "Invalid isoformat string")
      end
  | Some _ => Raise (AttributeError "replace")
  end.

(** Does the record's [created_at] parse?  (When not, the [try] body raises.) *)
Definition parses (a : gmap string pyvalue) : bool :=
  match activity_date a with Ok _ => true | Raise _ => false end.

(** The first loop: [try: dates.add(...) except: continue]. *)
Fixpoint collect_dates (activities : list (gmap string pyvalue)) (dates : gset date)
  : gset date :=
  match activities with
  | [] => dates
  | a :: rest =>
      match activity_date a with
      | Ok d => collect_dates rest (dates ∪ {[ d ]})
      | Raise _ => collect_dates rest dates
      end
  end.

(** [sorted(dates, reverse=True)] *)
Definition date_geb (x y : date) : Prop := y ≤ x.

#[global] Instance date_geb_dec : RelDecision date_geb.
Proof. intros x y. unfold date_geb. apply _. Defined.

Definition sorted_reverse (dates : gset date) : list date :=
  merge_sort date_geb (elements dates).

(** [l[i]] for a non-negative index *)
Definition index {A : Type} (l : list A) (i : nat) : result A :=
  match l !! i with
  | Some x => Ok x
  | None => Raise IndexError
  end.

(** The second loop, over [range(1, len(sorted_dates))], with its [break]. *)
Fixpoint streak_loop (sorted_dates : list date) (indices : list nat) (streak : Z)
  : result Z :=
  match indices with
  | [] => Ok streak
  | i :: rest =>
      rbind (index sorted_dates (i - 1)%nat) (λ prev,
      rbind (index sorted_dates i) (λ cur,
        if bool_decide (days_between prev cur = 1)
        then streak_loop sorted_dates rest (streak + 1)
        else Ok streak))
  end.

Definition calculate_streak (activities : list (gmap string pyvalue)) : result Z :=
  match activities with
  | [] => Ok 0
  | _ =>
      let dates := collect_dates activities ∅ in
      if bool_decide (dates = ∅) then Ok 0
      else
        let sorted_dates := sorted_reverse dates in
        streak_loop sorted_dates (seq 1 (length sorted_dates - 1)%nat) 1
  end.

(** The algorithm in the words of the specification: walk consecutive
    pairs of the descending dates, counting while the gap is one day. *)
Fixpoint spec_run (sorted_dates : list date) : Z :=
  match sorted_dates with
  | [] => 0
  | a :: tl =>
      match tl with
      | [] => 1
      | b :: _ => if bool_decide (a - b = 1) then 1 + spec_run tl else 1
      end
  end.

Definition spec_streak (dates : gset date) : Z :=
  if bool_decide (dates = ∅) then 0 else spec_run (sorted_reverse dates).

End Streak.

(** ** Data models *)

Record Note : Type := mkNote {
  n_id : string;
  n_user_id : string;
  n_title : string;
  n_content : string;
  n_tags : list string;
  n_is_favorite : bool;
  n_is_archived : bool;
  n_is_deleted : bool;
  n_created_at : string;
  n_updated_at : string
}.

Record NoteUpdate : Type := mkNoteUpdate {
  u_title : option string;
  u_content : option string;
  u_tags : option (list string);
  u_is_favorite : option bool;
  u_is_archived : option bool;
  u_is_deleted : option bool
}.

Record SearchLog : Type := mkSearchLog {
  sl_user_id : string;
  sl_query : string;
  sl_results_count : Z;
  sl_created_at : string
}.

Record SearchResult (Score : Type) : Type := mkSearchResult {
  sr_id : string;
  sr_title : string;
  sr_text : string;
  sr_score : Score;
  sr_created_at : string
}.
Arguments mkSearchResult {Score}.
Arguments sr_id {Score}.
Arguments sr_title {Score}.
Arguments sr_text {Score}.
Arguments sr_score {Score}.
Arguments sr_created_at {Score}.

Record AIResponse (Score : Type) : Type := mkAIResponse {
  answer : string;
  results : list (SearchResult Score)
}.
Arguments mkAIResponse {Score}.
Arguments answer {Score}.
Arguments results {Score}.

Record UserStats : Type := mkUserStats {
  total_notes : Z;
  favorites_count : Z;
  archived_count : Z;
  searches_this_week : Z;
  ai_insights : Z;
  streak : Z
}.

(** ** The world the handlers run in *)

(** Outbound calls, recorded when they are attempted. *)
Inductive Call : Type :=
  | EmbeddingsCreate (input : string)
  | ChatCompletionsCreate (system_prompt user_prompt : string)
  | PineconeUpsert (vector_id : string)
  | PineconeQuery (top_k : Z) (owner : string)
  | PineconeDelete (ids : list string)
  | SupabaseExecute (table : string).

Definition is_chat_call (c : Call) : bool :=
  match c with ChatCompletionsCreate _ _ => true | _ => false end.

Definition is_embedding_call (c : Call) : bool :=
  match c with EmbeddingsCreate _ => true | _ => false end.

Definition is_upsert_call (c : Call) : bool :=
  match c with PineconeUpsert _ => true | _ => false end.

Section Backend.
Context `{Collaborators}.

Record World : Type := mkWorld {
    notes : list Note;                                (* table "notes" *)
    search_logs : list SearchLog;                     (* table "search_logs" *)
    pinecone_index : gmap string (VectorEntry Vector);(* index "smart-notes" *)
    calls : list Call;          (* outbound calls so far, the latest first *)
    fails : nat → bool;         (* does the n-th outbound call raise? *)
    clock : Z                   (* UTC now, microseconds since the epoch *)
}.

Definition set_notes (ns : list Note) (w : World) : World :=
  mkWorld ns (search_logs w) (pinecone_index w) (calls w) (fails w) (clock w).
Definition set_search_logs (ls : list SearchLog) (w : World) : World :=
  mkWorld (notes w) ls (pinecone_index w) (calls w) (fails w) (clock w).
Definition set_pinecone_index (ix : gmap string (VectorEntry Vector)) (w : World)
  : World :=
  mkWorld (notes w) (search_logs w) ix (calls w) (fails w) (clock w).
Definition set_calls (cs : list Call) (w : World) : World :=
  mkWorld (notes w) (search_logs w) (pinecone_index w) cs (fails w) (clock w).

(** State and exceptions: effects performed before a raise persist. *)
Definition M (A : Type) : Type := World → result A * World.

Definition ret {A : Type} (a : A) : M A := λ w, (Ok a, w).
Definition raise {A : Type} (e : exn) : M A := λ w, (Raise e, w).
Definition bind {A B : Type} (m : M A) (k : A → M B) : M B :=
  λ w, match m w with
       | (Ok a, w') => k a w'
       | (Raise e, w') => (Raise e, w')
       end.
(** [try: body except Exception as e: handler(e)]; also the bare [except:]. *)
Definition try_except {A : Type} (body : M A) (handler : exn → M A) : M A :=
  λ w, match body w with
       | (Ok a, w') => (Ok a, w')
       | (Raise e, w') => handler e w'
       end.
Definition get_world : M World := λ w, (Ok w, w).
Definition modify (f : World → World) : M unit := λ w, (Ok tt, f w).

Notation "'let!' x ':=' m 'in' k" := (bind m (λ x, k))
  (at level 10, x name, m at level 100, k at level 200).

(** [str(e)]; for [HTTPException] the status code and the detail. *)
Definition str (e : exn) : string :=
  match e with
  | HTTPException status_code detail =>
      String.append (pretty status_code) (String.append ": " detail)
  | APIError message => message
  | KeyError key => key
  | AttributeError message => message
  | ValueError message => message
  | IndexError => "list index out of range"
  end.

(** The handlers' outer [except Exception as e: raise HTTPException(500, str(e))].
    [HTTPException] is an [Exception], so one raised in the body lands here too. *)
Definition except_500 {A : Type} (body : M A) : M A :=
  try_except body (λ e, raise (HTTPException 500 (str e))).

(** One outbound call: recorded, and raising when the collaborator fails. *)
Definition upstream_failure : exn := APIError "upstream failure".

Definition outbound (c : Call) : M unit :=
  λ w, let w' := set_calls (c :: calls w) w in
       if fails w (length (calls w))
       then (Raise upstream_failure, w')
       else (Ok tt, w').

(** [datetime.utcnow()] *)
Definition utcnow : M Z := λ w, (Ok (clock w), w).

(** *** Record store *)

Definition eq_id (note_id : string) (n : Note) : bool :=
  bool_decide (n_id n = note_id).
Definition eq_user_id (user_id : string) (n : Note) : bool :=
  bool_decide (n_user_id n = user_id).
Definition eq_is_favorite (b : bool) (n : Note) : bool :=
  bool_decide (n_is_favorite n = b).
Definition eq_is_archived (b : bool) (n : Note) : bool :=
  bool_decide (n_is_archived n = b).
Definition eq_is_deleted (b : bool) (n : Note) : bool :=
  bool_decide (n_is_deleted n = b).

(** [.eq("id", note_id).eq("user_id", user_id)] *)
Definition eq_id_user_id (note_id user_id : string) (n : Note) : bool :=
  eq_id note_id n && eq_user_id user_id n.

(** [order("created_at", desc=True)] *)
Definition created_at_desc (x y : Note) : Prop :=
  Is_true (timestamp_leb (n_created_at y) (n_created_at x)).

#[global] Instance created_at_desc_dec : RelDecision created_at_desc.
Proof. intros x y. unfold created_at_desc. apply _. Defined.

Definition order_created_at_desc (rows : list Note) : list Note :=
  merge_sort created_at_desc rows.

(** [range(first, last)]: the rows at positions first..last; the store
    rejects a negative offset or row count. *)
Definition range_rows {A : Type} (first last : Z) (rows : list A) : result (list A) :=
  if bool_decide (first < 0 ∨ last - first + 1 < 0)
  then Raise (APIError "range not satisfiable")
  else Ok (take (Z.to_nat (last - first + 1)) (drop (Z.to_nat first) rows)).

Definition lift {A : Type} (r : result A) : M A := λ w, (r, w).

(** [table("notes").select(...).<filters>.execute()] *)
Definition notes_select (query : Note → bool) : M (list Note) :=
  let! _ := outbound (SupabaseExecute "notes") in
  let! w := get_world in
  ret (filter (λ n, Is_true (query n)) (notes w)).

(** [.single()]: exactly one row, else the store's error. *)
Definition single (rows : list Note) : M (option Note) :=
  match rows with
  | [row] => ret (Some row)
  | _ => raise (APIError "PGRST116")
  end.

Definition column_str (v : option pyvalue) (old : string) : string :=
  match v with Some (PStr s) => s | _ => old end.
Definition column_bool (v : option pyvalue) (old : bool) : bool :=
  match v with Some (PBool b) => b | _ => old end.
Definition column_list (v : option pyvalue) (old : list string) : list string :=
  match v with Some (PList l) => l | _ => old end.

(** The row after [UPDATE notes SET <data>]. *)
Definition set_columns (data : gmap string pyvalue) (n : Note) : Note :=
  {| n_id := n_id n;
     n_user_id := n_user_id n;
     n_title := column_str (data !! "title") (n_title n);
     n_content := column_str (data !! "content") (n_content n);
     n_tags := column_list (data !! "tags") (n_tags n);
     n_is_favorite := column_bool (data !! "is_favorite") (n_is_favorite n);
     n_is_archived := column_bool (data !! "is_archived") (n_is_archived n);
     n_is_deleted := column_bool (data !! "is_deleted") (n_is_deleted n);
     n_created_at := n_created_at n;
     n_updated_at := column_str (data !! "updated_at") (n_updated_at n) |}.

(** [table("notes").update(data).<filters>.execute()]: the updated rows. *)
Definition notes_update (data : gmap string pyvalue) (query : Note → bool)
  : M (list Note) :=
  let! _ := outbound (SupabaseExecute "notes") in
  let! w := get_world in
  let! _ := modify (set_notes
    ((λ n, if query n then set_columns data n else n) <$> notes w)) in
  ret (set_columns data <$> filter (λ n, Is_true (query n)) (notes w)).

(** [table("notes").delete().<filters>.execute()] *)
Definition notes_delete (query : Note → bool) : M unit :=
  let! _ := outbound (SupabaseExecute "notes") in
  let! w := get_world in
  modify (set_notes (filter (λ n, ¬ Is_true (query n)) (notes w))).

(** [select("id", count="exact")]: the number of rows matched. *)
Definition notes_count (query : Note → bool) : M (option Z) :=
  let! _ := outbound (SupabaseExecute "notes") in
  let! w := get_world in
  ret (Some (Z.of_nat (length (filter (λ n, Is_true (query n)) (notes w))))).

Definition search_logs_count (query : SearchLog → bool) : M (option Z) :=
  let! _ := outbound (SupabaseExecute "search_logs") in
  let! w := get_world in
  ret (Some (Z.of_nat (length (filter (λ l, Is_true (query l)) (search_logs w))))).

Definition search_logs_insert (row : SearchLog) : M unit :=
  let! _ := outbound (SupabaseExecute "search_logs") in
  let! w := get_world in
  modify (set_search_logs (search_logs w ++ [row])).

(** [count or 0] *)
Definition or_0 (count : option Z) : Z :=
  match count with Some c => c | None => 0 end.

(** *** Model provider and vector index *)

Definition generate_embedding (text : string) : M Vector :=
  let! _ := outbound (EmbeddingsCreate text) in
  ret (embedding_model text).

Definition pinecone_upsert (vector_id : string) (entry : VectorEntry Vector) : M unit :=
  let! _ := outbound (PineconeUpsert vector_id) in
  let! w := get_world in
  modify (set_pinecone_index (<[vector_id := entry]> (pinecone_index w))).

Definition pinecone_delete (ids : list string) : M unit :=
  let! _ := outbound (PineconeDelete ids) in
  let! w := get_world in
  modify (set_pinecone_index (foldr delete (pinecone_index w) ids)).

Definition pinecone_query (vector : Vector) (top_k : Z) (user_id : string)
  : M (list (Match_ Score)) :=
  let! _ := outbound (PineconeQuery top_k user_id) in
  let! w := get_world in
  ret (index_query vector top_k user_id (pinecone_index w)).

(** The completion as returned; its text is read later, by the caller. *)
Definition chat_completions_create (system_prompt user_prompt : string)
  : M (option string) :=
  let! _ := outbound (ChatCompletionsCreate system_prompt user_prompt) in
  ret (chat_model system_prompt user_prompt).

(** [AIResponse(answer=ai_response.choices[0].message.content, ...)]: the
    answer has to be a string. *)
Definition message_content (ai_response : option string) : M string :=
  match ai_response with
  | Some content => ret content
  | None => raise (ValueError "1 validation error for AIResponse")
  end.

(** *** Notes endpoints *)

(** [f"title.ilike.%{search}%,content.ilike.%{search}%"]: the search text
    is pasted as it is, twice. *)
Definition or_filter_text (search : string) : string :=
  String.append "title.ilike.%"
    (String.append search
       (String.append "%,content.ilike.%"
          (String.append search "%"))).

(** [if search: query = query.or_(...)]: the or-filter sent with the
    request, none for no text and for the empty text. *)
Definition or_param (search : option string) : option string :=
  match search with
  | Some (String c s) => Some (or_filter_text (String c s))
  | _ => None
  end.

(** A row of the notes table as the store holds it, column by column. *)
Definition note_row (n : Note) : gmap string pyvalue :=
  {[ "id" := PStr (n_id n);
     "user_id" := PStr (n_user_id n);
     "title" := PStr (n_title n);
     "content" := PStr (n_content n);
     "tags" := PList (n_tags n);
     "is_favorite" := PBool (n_is_favorite n);
     "is_archived" := PBool (n_is_archived n);
     "is_deleted" := PBool (n_is_deleted n);
     "created_at" := PStr (n_created_at n);
     "updated_at" := PStr (n_updated_at n) ]}.

(** The rows an or-filter lets through, as the store reads its text; a
    text the store cannot parse is refused. *)
Definition or_group (or_text : option string) : result (Note → bool) :=
  match or_text with
  | None => Ok (λ _, true)
  | Some text =>
      match or_filter text with
      | Some group => Ok (λ n, group (note_row n))
      | None => Raise (APIError "failed to parse logic tree")
      end
  end.

(** [table("notes").select("*").<filters>.or_(text).execute()]: the rows
    that pass the equality filters and the or-filter. *)
Definition notes_select_or (query : Note → bool) (or_text : option string)
  : M (list Note) :=
  let! _ := outbound (SupabaseExecute "notes") in
  let! w := get_world in
  let! group := lift (or_group or_text) in
  ret (filter (λ n, Is_true (query n && group n)) (notes w)).

(** [GET /notes]: the equality filters built before the text search. *)
Definition notes_query (user_id filter_type : string) : Note → bool :=
  let query := eq_user_id user_id in
  (* Apply filters based on type *)
  if bool_decide (filter_type = "all") then
    λ n, query n && eq_is_deleted false n && eq_is_archived false n
  else if bool_decide (filter_type = "favorites") then
    λ n, query n && eq_is_favorite true n && eq_is_deleted false n
  else if bool_decide (filter_type = "archived") then
    λ n, query n && eq_is_archived true n && eq_is_deleted false n
  else if bool_decide (filter_type = "trash") then
    λ n, query n && eq_is_deleted true n
  else query.

(** [GET /notes] *)
Definition get_notes (user_id filter_type : string) (search : option string)
    (limit offset : Z) : M (list Note) :=
  except_500 (
    let query := notes_query user_id filter_type in
    (* Text search if provided *)
    let or_text := or_param search in
    (* Order and paginate *)
    let! rows := notes_select_or query or_text in
    let! page := lift (range_rows offset (offset + limit - 1)
                         (order_created_at_desc rows)) in
    ret page).

(** [PATCH /notes/{note_id}]: the dictionary built under "Build update data". *)
Definition build_update_data (update : NoteUpdate) (now : Z) : gmap string pyvalue :=
  let update_data : gmap string pyvalue := {[ "updated_at" := PStr (isoformat now) ]} in
  let update_data :=
    match u_title update with
    | Some v => <["title" := PStr v]> update_data | None => update_data end in
  let update_data :=
    match u_content update with
    | Some v => <["content" := PStr v]> update_data | None => update_data end in
  let update_data :=
    match u_tags update with
    | Some v => <["tags" := PList v]> update_data | None => update_data end in
  let update_data :=
    match u_is_favorite update with
    | Some v => <["is_favorite" := PBool v]> update_data | None => update_data end in
  let update_data :=
    match u_is_archived update with
    | Some v => <["is_archived" := PBool v]> update_data | None => update_data end in
  let update_data :=
    match u_is_deleted update with
    | Some v => <["is_deleted" := PBool v]> update_data | None => update_data end in
  update_data.

(** [PATCH /notes/{note_id}] *)
Definition update_note (note_id user_id : string) (update : NoteUpdate) : M Note :=
  except_500 (
    (* Build update data *)
    let! now := utcnow in
    let update_data := build_update_data update now in
    (* Update in Supabase *)
    let! data := notes_update update_data (eq_id_user_id note_id user_id) in
    match data with
    | [] => raise (HTTPException 404 "Note not found")
    | note :: _ =>
        (* Update Pinecone if content changed *)
        let! _ :=
          if bool_decide (u_content update ≠ None ∨ u_title update ≠ None) then
            let! embedding :=
              generate_embedding
                (String.append (n_title note) (String.append " " (n_content note))) in
            pinecone_upsert note_id
              {| ve_values := embedding;
                 ve_metadata := {[ "text" := n_content note;
                                   "title" := n_title note;
                                   "user_id" := user_id;
                                   "created_at" := n_created_at note ]} |}
          else ret tt in
        ret note
    end).

(** The text embedded for a note and the entry upserted for it. *)
Definition embedded_text (n : Note) : string :=
  String.append (n_title n) (String.append " " (n_content n)).

Definition vector_entry (user_id : string) (n : Note) : VectorEntry Vector :=
  {| ve_values := embedding_model (embedded_text n);
     ve_metadata := {[ "text" := n_content n; "title" := n_title n;
                       "user_id" := user_id; "created_at" := n_created_at n ]} |}.

(** [DELETE /notes/{note_id}] *)
Definition delete_note (note_id user_id : string) (permanent : bool)
  : M (gmap string pyvalue) :=
  except_500 (
    if permanent then
      (* Permanent delete from both Supabase and Pinecone *)
      let! _ := notes_delete (eq_id_user_id note_id user_id) in
      let! _ := try_except (pinecone_delete [note_id]) (λ _, ret tt) in
      ret {[ "status" := PStr "permanently_deleted"; "note_id" := PStr note_id ]}
    else
      (* Soft delete (move to trash) *)
      let! now := utcnow in
      let! _ := notes_update
                  {[ "is_deleted" := PBool true; "updated_at" := PStr (isoformat now) ]}
                  (eq_id_user_id note_id user_id) in
      ret {[ "status" := PStr "moved_to_trash"; "note_id" := PStr note_id ]}).

(** [POST /notes/{note_id}/restore] *)
Definition restore_note (note_id user_id : string) : M (gmap string pyvalue) :=
  except_500 (
    let! now := utcnow in
    let! data := notes_update
                   {[ "is_deleted" := PBool false; "updated_at" := PStr (isoformat now) ]}
                   (eq_id_user_id note_id user_id) in
    match data with
    | [] => raise (HTTPException 404 "Note not found")
    | _ => ret {[ "status" := PStr "restored"; "note_id" := PStr note_id ]}
    end).

(** [POST /notes/{note_id}/favorite] *)
Definition toggle_favorite (note_id user_id : string) : M (gmap string pyvalue) :=
  except_500 (
    (* Get current status *)
    let! rows := notes_select (eq_id_user_id note_id user_id) in
    let! note := single rows in
    match note with
    | None => raise (HTTPException 404 "Note not found")
    | Some data =>
        (* Toggle *)
        let new_status := negb (n_is_favorite data) in
        let! now := utcnow in
        let! _ := notes_update
                    {[ "is_favorite" := PBool new_status;
                       "updated_at" := PStr (isoformat now) ]}
                    (eq_id_user_id note_id user_id) in
        ret {[ "status" := PStr "success"; "is_favorite" := PBool new_status ]}
    end).

(** *** AI search endpoint *)

Definition newline : string := String (ascii_of_nat 10) EmptyString.
Definition double_quote : string := String (ascii_of_nat 34) EmptyString.

(** [sep.join(parts)] *)
Fixpoint join (sep : string) (parts : list string) : string :=
  match parts with
  | [] => EmptyString
  | [p] => p
  | p :: rest => String.append p (String.append sep (join sep rest))
  end.

Definition concat_all (parts : list string) : string := join EmptyString parts.

Definition no_results_answer : string :=
  "I couldn't find any notes matching your query. Try saving some notes first, or rephrase your question.".

Definition system_prompt : string :=
"You are an intelligent personal knowledge assistant helping users recall and act on their saved notes and ideas.

Your role is to:
1. Analyze the user's saved notes in relation to their query
2. Provide helpful, actionable insights based on what they've recorded
3. Connect ideas and identify patterns across their notes
4. Suggest concrete next steps or actions they could take

Response Format:
- Start with a brief summary of what you found (1-2 sentences)
- Then provide 3-5 bullet points with specific insights, action items, or connections
- Be encouraging and supportive while being specific and actionable
- If notes are loosely related, still extract useful insights and suggest how they might connect to the query

Remember: These are the user's own thoughts and goals. Help them make progress on what matters to them.".

(** [matches[0]['score'] if matches else 0], formatted with [.0%] *)
Definition best_score_percent (matches : list (Match_ Score)) : string :=
  match matches with
  | m :: _ => format_percent (m_score m)
  | [] => "0%"
  end.

Definition user_prompt (context_text query : string) (matches : list (Match_ Score))
  : string :=
  concat_all [
    "User's saved notes:"; newline;
    context_text; newline;
    newline;
    "User's question: "; double_quote; query; double_quote; newline;
    newline;
    "Relevance score of best match: "; best_score_percent matches; newline;
    newline;
    "Provide a helpful analysis with actionable bullet points." ].

(** [GET /search] *)
Definition search_notes (query user_id : string) (limit : Z) : M (AIResponse Score) :=
  except_500 (
    (* Generate query embedding *)
    let! query_embedding := generate_embedding query in
    (* Search Pinecone *)
    let! matches := pinecone_query query_embedding limit user_id in
    match matches with
    | [] => ret {| answer := no_results_answer; results := [] |}
    | _ =>
        (* Prepare context for AI *)
        let context_parts :=
          (λ m, concat_all [ "Title: "; default "Untitled" (m_metadata m !! "title");
                             newline;
                             "Content: "; default EmptyString (m_metadata m !! "text") ])
            <$> matches in
        let context_text :=
          join (concat_all [newline; "---"; newline]) context_parts in
        (* AI Analysis *)
        let! ai_response :=
          chat_completions_create system_prompt
            (user_prompt context_text query matches) in
        (* Format results *)
        let formatted_results :=
          (λ m, {| sr_id := m_id m;
                   sr_title := default "Untitled" (m_metadata m !! "title");
                   sr_text := default EmptyString (m_metadata m !! "text");
                   sr_score := m_score m;
                   sr_created_at := default EmptyString (m_metadata m !! "created_at") |})
            <$> matches in
        (* Log search for analytics *)
        let! _ :=
          try_except
            (let! now := utcnow in
             search_logs_insert
               {| sl_user_id := user_id;
                  sl_query := query;
                  sl_results_count := Z.of_nat (length matches);
                  sl_created_at := isoformat now |})
            (λ _, ret tt) in
        let! content := message_content ai_response in
        ret {| answer := content; results := formatted_results |}
    end).

(** *** User stats *)

Definition microseconds_per_day : Z := 86400 * 1000000.

Definition zero_stats : UserStats :=
  {| total_notes := 0; favorites_count := 0; archived_count := 0;
     searches_this_week := 0; ai_insights := 0; streak := 0 |}.

(** What [get_user_stats] hands to the streak calculator: the [created_at]
    of the 30 most recent notes of the owner. *)
Definition recent_activities (user_id : string) (w : World) : list (gmap string pyvalue) :=
  (λ n, ({[ "created_at" := PStr (n_created_at n) ]} : gmap string pyvalue))
    <$> take 30 (order_created_at_desc
                   (filter (λ n, Is_true (eq_user_id user_id n)) (notes w))).

(** [GET /stats] *)
Definition get_user_stats (user_id : string) : M UserStats :=
  try_except (
    (* Count notes *)
    let! total :=
      notes_count (λ n, eq_user_id user_id n && eq_is_deleted false n) in
    let! favorites :=
      notes_count (λ n, eq_user_id user_id n && eq_is_favorite true n
                        && eq_is_deleted false n) in
    let! archived :=
      notes_count (λ n, eq_user_id user_id n && eq_is_archived true n
                        && eq_is_deleted false n) in
    (* Count searches this week *)
    let! now := utcnow in
    let week_ago := isoformat (now - 7 * microseconds_per_day) in
    let! search_count :=
      try_except
        (let! searches :=
           search_logs_count
             (λ l, bool_decide (sl_user_id l = user_id)
                   && timestamp_leb week_ago (sl_created_at l)) in
         ret (or_0 searches))
        (λ _, ret 0) in
    (* Calculate streak (days with activity) *)
    let! streak_days :=
      try_except
        (let! rows := notes_select (eq_user_id user_id) in
         let activities :=
           (λ n, ({[ "created_at" := PStr (n_created_at n) ]} : gmap string pyvalue))
             <$> take 30 (order_created_at_desc rows) in
         match activities with
         | [] => ret 0
         | _ => lift (calculate_streak activities)
         end)
        (λ _, ret 0) in
    ret {| total_notes := or_0 total;
           favorites_count := or_0 favorites;
           archived_count := or_0 archived;
           searches_this_week := search_count;
           ai_insights := search_count;  (* Each search generates an insight *)
           streak := streak_days |})
    (λ _,
      (* Return defaults on error *)
      ret zero_stats).

(** *** Two readings of the specification, stated on the handlers *)

(** The report with every aggregate computed from the tables. *)
Definition computed_stats (user_id : string) (w : World) : UserStats :=
  let search_count :=
    Z.of_nat (length (filter
      (λ l, sl_user_id l = user_id ∧
            Is_true (timestamp_leb (isoformat (clock w - 7 * microseconds_per_day))
                       (sl_created_at l)))
      (search_logs w))) in
  {| total_notes := Z.of_nat (length (filter
       (λ n, n_user_id n = user_id ∧ n_is_deleted n = false) (notes w)));
     favorites_count := Z.of_nat (length (filter
       (λ n, n_user_id n = user_id ∧ n_is_favorite n = true ∧ n_is_deleted n = false)
       (notes w)));
     archived_count := Z.of_nat (length (filter
       (λ n, n_user_id n = user_id ∧ n_is_archived n = true ∧ n_is_deleted n = false)
       (notes w)));
     searches_this_week := search_count;
     ai_insights := search_count;
     streak := spec_streak (collect_dates (recent_activities user_id w) ∅) |}.

(** The report with the k-th aggregate (total, favorites, archived, weekly
    searches, streak) replaced by zero. *)
Definition zero_field (k : nat) (s : UserStats) : UserStats :=
  match k with
  | 0%nat => mkUserStats 0 (favorites_count s) (archived_count s)
               (searches_this_week s) (ai_insights s) (streak s)
  | 1%nat => mkUserStats (total_notes s) 0 (archived_count s)
               (searches_this_week s) (ai_insights s) (streak s)
  | 2%nat => mkUserStats (total_notes s) (favorites_count s) 0
               (searches_this_week s) (ai_insights s) (streak s)
  | 3%nat => mkUserStats (total_notes s) (favorites_count s) (archived_count s)
               0 0 (streak s)
  | _ => mkUserStats (total_notes s) (favorites_count s) (archived_count s)
               (searches_this_week s) (ai_insights s) 0
  end.

(** "Any individual aggregation failure substitutes zero for that field
    alone; the remaining fields are still computed." *)
Definition isolates_aggregation_failures : Prop :=
  ∀ (w : World) (user_id : string) (k : nat) (s : UserStats) (w' : World),
    (k < 5)%nat →
    (∀ j, fails w (length (calls w) + j) = bool_decide (j = k)) →
    get_user_stats user_id w = (Ok s, w') →
    s = zero_field k (computed_stats user_id w).

(** "For every listing, filter_type=trash returns exactly the owner's notes
    with deleted=true." *)
Definition trash_listing_is_exact : Prop :=
  ∀ (w : World) (user_id : string) (search : option string) (limit offset : Z)
    (l : list Note) (w' : World),
    get_notes user_id "trash" search limit offset w = (Ok l, w') →
    l ≡ₚ filter (λ n, n_user_id n = user_id ∧ n_is_deleted n = true) (notes w).

(** *** The remaining notes endpoints *)

Record NoteCreate : Type := mkNoteCreate {
  c_title : string;
  c_content : string;
  c_user_id : string;
  c_tags : list string
}.

(** [needle in text] *)
Fixpoint str_contains (needle text : string) : bool :=
  String.prefix needle text ||
  match text with
  | EmptyString => false
  | String _ rest => str_contains needle rest
  end.

(** [table("notes").insert(row).execute()] *)
Definition notes_insert (row : Note) : M unit :=
  let! _ := outbound (SupabaseExecute "notes") in
  let! w := get_world in
  modify (set_notes (notes w ++ [row])).

(** [POST /notes]; [fresh_id] is the value drawn by [uuid.uuid4()]. *)
Definition create_note (fresh_id : string) (note : NoteCreate) : M Note :=
  except_500 (
    let note_id := fresh_id in
    let! t := utcnow in
    let now := isoformat t in
    (* Generate embedding for semantic search *)
    let! embedding :=
      generate_embedding
        (String.append (c_title note) (String.append " " (c_content note))) in
    (* Store in Pinecone for vector search *)
    let! _ :=
      pinecone_upsert note_id
        {| ve_values := embedding;
           ve_metadata := {[ "text" := c_content note;
                             "title" := c_title note;
                             "user_id" := c_user_id note;
                             "created_at" := now ]} |} in
    (* Store in Supabase for persistence *)
    let note_data :=
      {| n_id := note_id;
         n_user_id := c_user_id note;
         n_title := c_title note;
         n_content := c_content note;
         n_tags := c_tags note;
         n_is_favorite := false;
         n_is_archived := false;
         n_is_deleted := false;
         n_created_at := now;
         n_updated_at := now |} in
    let! _ := notes_insert note_data in
    ret note_data).

(** The row [create_note] builds in world [w]. *)
Definition created_note (fresh_id : string) (note : NoteCreate) (w : World) : Note :=
  {| n_id := fresh_id; n_user_id := c_user_id note; n_title := c_title note;
     n_content := c_content note; n_tags := c_tags note;
     n_is_favorite := false; n_is_archived := false; n_is_deleted := false;
     n_created_at := isoformat (clock w); n_updated_at := isoformat (clock w) |}.

(** [GET /notes/{note_id}] *)
Definition get_note (note_id user_id : string) : M Note :=
  try_except
    (let! rows := notes_select (eq_id_user_id note_id user_id) in
     let! result := single rows in
     match result with
     | None => raise (HTTPException 404 "Note not found")
     | Some data => ret data
     end)
    (λ e,
      if str_contains "404" (str e)
      then raise (HTTPException 404 "Note not found")
      else raise (HTTPException 500 (str e))).

(** [POST /notes/{note_id}/archive] *)
Definition toggle_archive (note_id user_id : string) : M (gmap string pyvalue) :=
  except_500 (
    (* Get current status *)
    let! rows := notes_select (eq_id_user_id note_id user_id) in
    let! note := single rows in
    match note with
    | None => raise (HTTPException 404 "Note not found")
    | Some data =>
        (* Toggle *)
        let new_status := negb (n_is_archived data) in
        let! now := utcnow in
        let! _ := notes_update
                    {[ "is_archived" := PBool new_status;
                       "updated_at" := PStr (isoformat now) ]}
                    (eq_id_user_id note_id user_id) in
        ret {[ "status" := PStr "success"; "is_archived" := PBool new_status ]}
    end).

(** [.eq("user_id", user_id).eq("is_deleted", True)] *)
Definition in_trash_of (user_id : string) (n : Note) : bool :=
  eq_user_id user_id n && eq_is_deleted true n.

(** [DELETE /notes/trash/empty] *)
Definition empty_trash (user_id : string) : M (gmap string pyvalue) :=
  except_500 (
    (* Get all trashed notes *)
    let! trashed := notes_select (in_trash_of user_id) in
    let! _ :=
      match trashed with
      | [] => ret tt
      | _ =>
          let note_ids := n_id <$> trashed in
          (* Delete from Pinecone *)
          let! _ := try_except (pinecone_delete note_ids) (λ _, ret tt) in
          (* Delete from Supabase *)
          notes_delete (in_trash_of user_id)
      end in
    ret {[ "status" := PStr "success";
           "deleted_count" := PInt (Z.of_nat (length trashed)) ]}).

(** *** Legacy endpoints *)

(** A string field of the request body handed to [NoteCreate]: a value of
    another type is refused by the model validation. *)
Definition str_field (name : string) (v : pyvalue) : result string :=
  match v with
  | PStr s => Ok s
  | _ => Raise (ValueError name)
  end.

Definition list_field (name : string) (v : pyvalue) : result (list string) :=
  match v with
  | PList l => Ok l
  | _ => Raise (ValueError name)
  end.

(** [req[key]] *)
Definition item (req : gmap string pyvalue) (key : string) : result pyvalue :=
  match req !! key with
  | Some v => Ok v
  | None => Raise (KeyError key)
  end.

(** The [NoteCreate(...)] built by [save_note_legacy]: the keyword
    arguments are evaluated in order, then the model is validated. *)
Definition legacy_note (req : gmap string pyvalue) : result NoteCreate :=
  let title := default (PStr "Untitled Note") (req !! "title") in
  rbind (item req "content") (λ content,
  rbind (item req "user_id") (λ user_id,
  let tags := default (PList []) (req !! "tags") in
  rbind (str_field "title" title) (λ title,
  rbind (str_field "content" content) (λ content,
  rbind (str_field "user_id" user_id) (λ user_id,
  rbind (list_field "tags" tags) (λ tags,
  Ok {| c_title := title; c_content := content;
        c_user_id := user_id; c_tags := tags |})))))).

(** [POST /save-note] *)
Definition save_note_legacy (fresh_id : string) (req : gmap string pyvalue)
  : M (gmap string pyvalue) :=
  let! note := lift (legacy_note req) in
  let! result := create_note fresh_id note in
  ret {[ "status" := PStr "success"; "note_id" := PStr (n_id result) ]}.

(** The world when the clock reads [t]: time passing between two requests. *)
Definition at_time (t : Z) (w : World) : World :=
  mkWorld (notes w) (search_logs w) (pinecone_index w) (calls w) (fails w) t.

End Backend.

(** ** Preferences and notifications

    The two remaining tables live beside the [World] of the notes
    handlers; their handlers make their outbound calls through the same
    call log and fault oracle. *)

Record UserPreferences : Type := mkUserPreferences {
  dark_mode : bool;
  sidebar_collapsed : bool;
  email_notifications : bool
}.

Record PreferencesRow : Type := mkPreferencesRow {
  pr_user_id : string;
  pr_dark_mode : bool;
  pr_sidebar_collapsed : bool;
  pr_email_notifications : bool;
  pr_updated_at : string
}.

Record NotificationCreate : Type := mkNotificationCreate {
  nc_user_id : string;
  nc_title : string;
  nc_message : string;
  nc_type : string
}.

Record Notification : Type := mkNotification {
  nt_id : string;
  nt_user_id : string;
  nt_title : string;
  nt_message : string;
  nt_type : string;
  nt_is_read : bool;
  nt_created_at : string
}.

Section Desk.
Context `{Collaborators}.

(** Modelled from the spec: the schema of [user_preferences] is not in the
    repository; the specification gives it a single record per owner with
    upsert semantics, so the table is keyed by [user_id]. *)
Record Desk : Type := mkDesk {
  world : World;
  user_preferences : gmap string PreferencesRow;   (* table "user_preferences" *)
  notifications : list Notification                (* table "notifications" *)
}.

Definition set_world (w : World) (d : Desk) : Desk :=
  mkDesk w (user_preferences d) (notifications d).
Definition set_user_preferences (t : gmap string PreferencesRow) (d : Desk) : Desk :=
  mkDesk (world d) t (notifications d).
Definition set_notifications (t : list Notification) (d : Desk) : Desk :=
  mkDesk (world d) (user_preferences d) t.

Definition D (A : Type) : Type := Desk → result A * Desk.

Definition dret {A : Type} (a : A) : D A := λ d, (Ok a, d).
Definition draise {A : Type} (e : exn) : D A := λ d, (Raise e, d).
Definition dbind {A B : Type} (m : D A) (k : A → D B) : D B :=
  λ d, match m d with
       | (Ok a, d') => k a d'
       | (Raise e, d') => (Raise e, d')
       end.
Definition dtry_except {A : Type} (body : D A) (handler : exn → D A) : D A :=
  λ d, match body d with
       | (Ok a, d') => (Ok a, d')
       | (Raise e, d') => handler e d'
       end.
Definition get_desk : D Desk := λ d, (Ok d, d).
Definition dmodify (f : Desk → Desk) : D unit := λ d, (Ok tt, f d).

(** A computation of the notes world, run on the desk's world. *)
Definition in_world {A : Type} (m : M A) : D A :=
  λ d, let '(r, w') := m (world d) in (r, set_world w' d).

Notation "'let!' x ':=' m 'in' k" := (dbind m (λ x, k))
  (at level 10, x name, m at level 100, k at level 200).

Definition dexcept_500 {A : Type} (body : D A) : D A :=
  dtry_except body (λ e, draise (HTTPException 500 (str e))).

(** The row as the dictionary the client receives. *)
Definition preferences_dict (row : PreferencesRow) : gmap string pyvalue :=
  {[ "user_id" := PStr (pr_user_id row);
     "dark_mode" := PBool (pr_dark_mode row);
     "sidebar_collapsed" := PBool (pr_sidebar_collapsed row);
     "email_notifications" := PBool (pr_email_notifications row);
     "updated_at" := PStr (pr_updated_at row) ]}.

Definition default_preferences : gmap string pyvalue :=
  {[ "dark_mode" := PBool true;
     "sidebar_collapsed" := PBool false;
     "email_notifications" := PBool true ]}.

(** [table("user_preferences").select("*").eq("user_id", user_id).single().execute()] *)
Definition preferences_single (user_id : string) : D (option PreferencesRow) :=
  let! _ := in_world (outbound (SupabaseExecute "user_preferences")) in
  let! d := get_desk in
  match user_preferences d !! user_id with
  | Some row => dret (Some row)
  | None => draise (APIError "PGRST116")
  end.

(** [table("user_preferences").upsert(data).execute()] *)
Definition preferences_upsert (row : PreferencesRow) : D unit :=
  let! _ := in_world (outbound (SupabaseExecute "user_preferences")) in
  let! d := get_desk in
  dmodify (set_user_preferences (<[pr_user_id row := row]> (user_preferences d))).

(** [GET /preferences] *)
Definition get_preferences (user_id : string) : D (gmap string pyvalue) :=
  dtry_except
    (let! result := preferences_single user_id in
     match result with
     | Some data => dret (preferences_dict data)
     | None =>
         (* Return defaults *)
         dret default_preferences
     end)
    (λ _, dret default_preferences).

(** [PUT /preferences]: the status and the row written. *)
Definition update_preferences (user_id : string) (preferences : UserPreferences)
  : D (string * PreferencesRow) :=
  dexcept_500 (
    let! now := in_world utcnow in
    let data :=
      {| pr_user_id := user_id;
         pr_dark_mode := dark_mode preferences;
         pr_sidebar_collapsed := sidebar_collapsed preferences;
         pr_email_notifications := email_notifications preferences;
         pr_updated_at := isoformat now |} in
    (* Upsert (insert or update) *)
    let! _ := preferences_upsert data in
    dret ("success", data)).

(** [order("created_at", desc=True)] on notifications *)
Definition notified_desc (x y : Notification) : Prop :=
  Is_true (timestamp_leb (nt_created_at y) (nt_created_at x)).

#[global] Instance notified_desc_dec : RelDecision notified_desc.
Proof. intros x y. unfold notified_desc. apply _. Defined.

(** [.limit(limit)]: the store rejects a negative row count. *)
Definition limit_rows {A : Type} (limit : Z) (rows : list A) : result (list A) :=
  if bool_decide (limit < 0)
  then Raise (APIError "range not satisfiable")
  else Ok (take (Z.to_nat limit) rows).

(** [table("notifications").select("*").<filters>.order(...).limit(limit).execute()] *)
Definition notifications_select (query : Notification → bool) (limit : Z)
  : D (list Notification) :=
  let! _ := in_world (outbound (SupabaseExecute "notifications")) in
  let! d := get_desk in
  λ d', (limit_rows limit
           (merge_sort notified_desc
              (filter (λ n, Is_true (query n)) (notifications d))), d').

(** [table("notifications").update({"is_read": True}).<filters>.execute()] *)
Definition notifications_mark_read (query : Notification → bool) : D unit :=
  let! _ := in_world (outbound (SupabaseExecute "notifications")) in
  let! d := get_desk in
  dmodify (set_notifications
    ((λ n, if query n
           then mkNotification (nt_id n) (nt_user_id n) (nt_title n) (nt_message n)
                  (nt_type n) true (nt_created_at n)
           else n) <$> notifications d)).

(** A notification with its read flag set. *)
Definition as_read (n : Notification) : Notification :=
  mkNotification (nt_id n) (nt_user_id n) (nt_title n) (nt_message n)
    (nt_type n) true (nt_created_at n).

Definition notifications_insert (row : Notification) : D unit :=
  let! _ := in_world (outbound (SupabaseExecute "notifications")) in
  let! d := get_desk in
  dmodify (set_notifications (notifications d ++ [row])).

(** [GET /notifications] *)
Definition get_notifications (user_id : string) (unread_only : bool) (limit : Z)
  : D (list Notification) :=
  dtry_except
    (let query := λ n, bool_decide (nt_user_id n = user_id) in
     let query :=
       if unread_only
       then λ n, query n && bool_decide (nt_is_read n = false)
       else query in
     let! result := notifications_select query limit in
     dret result)
    (λ _,
      (* Return empty list on error (notifications are non-critical) *)
      dret []).

(** [POST /notifications]; [fresh_id] is the value drawn by [uuid.uuid4()]. *)
Definition create_notification (fresh_id : string) (notification : NotificationCreate)
  : D Notification :=
  dexcept_500 (
    let! now := in_world utcnow in
    let data :=
      {| nt_id := fresh_id;
         nt_user_id := nc_user_id notification;
         nt_title := nc_title notification;
         nt_message := nc_message notification;
         nt_type := nc_type notification;
         nt_is_read := false;
         nt_created_at := isoformat now |} in
    let! _ := notifications_insert data in
    dret data).

(** [PATCH /notifications/{notification_id}/read] *)
Definition mark_notification_read (notification_id user_id : string) : D string :=
  dexcept_500 (
    let! _ := notifications_mark_read
                (λ n, bool_decide (nt_id n = notification_id)
                      && bool_decide (nt_user_id n = user_id)) in
    dret "success").

(** [PATCH /notifications/read-all] *)
Definition mark_all_notifications_read (user_id : string) : D string :=
  dexcept_500 (
    let! _ := notifications_mark_read (λ n, bool_decide (nt_user_id n = user_id)) in
    dret "success").

(** The desk after one more outbound call was recorded. *)
Definition called (c : Call) (d : Desk) : Desk :=
  set_world (set_calls (c :: calls (world d)) (world d)) d.

(** The filter [get_notifications] builds. *)
Definition inbox_query (user_id : string) (unread_only : bool) (n : Notification) : bool :=
  if unread_only
  then bool_decide (nt_user_id n = user_id) && bool_decide (nt_is_read n = false)
  else bool_decide (nt_user_id n = user_id).

End Desk.

(** ** A test double for the collaborators

  Concrete stand-ins used to run the handlers: the calendar arithmetic of
  Python's [datetime] module, a parser for the timestamps that
  [isoformat] writes (with an optional UTC offset), an index that
  scores an entry 100 when its vector equals the query and 0 otherwise,
  a chat model with a fixed answer, and a reader for flat or-filters:
  conditions [column.ilike.pattern] and [column.eq.value] separated by
  commas (no nested groups, no quoted values). *)
Module TestDouble.

Definition is_leap (y : Z) : bool :=
  (y mod 4 =? 0) && (negb (y mod 100 =? 0) || (y mod 400 =? 0)).

Definition days_in_month (y m : Z) : Z :=
  if m =? 2 then (if is_leap y then 29 else 28)
  else if (m =? 4) || (m =? 6) || (m =? 9) || (m =? 11) then 30 else 31.

Definition days_before_year (y : Z) : Z :=
  let p := y - 1 in p * 365 + p / 4 - p / 100 + p / 400.

Definition days_before_month (y m : Z) : Z :=
  foldr Z.add 0 ((λ k, days_in_month y (Z.of_nat k)) <$> seq 1 (Z.to_nat (m - 1))).

Definition ymd2ord (y m d : Z) : Z :=
  days_before_year y + days_before_month y m + d.

(** The ordinal back to (year, month, day). *)
Definition ord2ymd (n : Z) : Z * Z * Z :=
  let n := n - 1 in
  let n400 := n / 146097 in let n := n mod 146097 in
  let n100 := n / 36524 in let n := n mod 36524 in
  let n4 := n / 1461 in let n := n mod 1461 in
  let n1 := n / 365 in let n := n mod 365 in
  let year := n400 * 400 + 1 + n100 * 100 + n4 * 4 + n1 in
  if (n1 =? 4) || (n100 =? 4) then (year - 1, 12, 31)
  else
    let month := (n + 50) / 32 in
    let preceding := days_before_month year month in
    if n <? preceding
    then (year, month - 1, n - (preceding - days_in_month year (month - 1)) + 1)
    else (year, month, n - preceding + 1).

Definition digit (c : ascii) : option Z :=
  let k := Z.of_nat (nat_of_ascii c) in
  if (48 <=? k) && (k <=? 57) then Some (k - 48) else None.

(** Exactly [k] leading digits, as a number, and the rest. *)
Fixpoint digits (k : nat) (acc : Z) (s : string) : option (Z * string) :=
  match k with
  | O => Some (acc, s)
  | S k' =>
      match s with
      | String c rest =>
          match digit c with
          | Some d => digits k' (acc * 10 + d) rest
          | None => None
          end
      | EmptyString => None
      end
  end.

Definition expect (c : ascii) (s : string) : option string :=
  match s with
  | String c' rest => if Ascii.eqb c c' then Some rest else None
  | EmptyString => None
  end.

(** [+HH:MM] or [-HH:MM] at the end of the string, in minutes. *)
Definition parse_offset (s : string) : option (option Z) :=
  match s with
  | EmptyString => Some None
  | String sign rest =>
      '(hh, rest) ← digits 2 0 rest;
      rest ← expect ":" rest;
      '(mm, rest) ← digits 2 0 rest;
      match rest with
      | EmptyString =>
          if Ascii.eqb sign "+" then Some (Some (hh * 60 + mm))
          else if Ascii.eqb sign "-" then Some (Some (- (hh * 60 + mm)))
          else None
      | _ => None
      end
  end.

(** An optional [.ffffff] fraction. *)
Definition parse_fraction (s : string) : option (Z * string) :=
  match s with
  | String "." rest => digits 6 0 rest
  | _ => Some (0, s)
  end.

(** [YYYY-MM-DD], or [YYYY-MM-DD?HH:MM:SS[.ffffff][+HH:MM]]. *)
Definition parse_iso (s : string) : option datetime :=
  '(y, s) ← digits 4 0 s;
  s ← expect "-" s;
  '(m, s) ← digits 2 0 s;
  s ← expect "-" s;
  '(d, s) ← digits 2 0 s;
  if negb ((1 <=? y) && (1 <=? m) && (m <=? 12) && (1 <=? d) && (d <=? days_in_month y m))
  then None
  else
    match s with
    | EmptyString => Some (mkDatetime (ymd2ord y m d) 0 None)
    | String _ s =>
        '(hh, s) ← digits 2 0 s;
        s ← expect ":" s;
        '(mi, s) ← digits 2 0 s;
        s ← expect ":" s;
        '(ss, s) ← digits 2 0 s;
        '(us, s) ← parse_fraction s;
        off ← parse_offset s;
        if (hh <? 24) && (mi <? 60) && (ss <? 60)
        then Some (mkDatetime (ymd2ord y m d)
                     (((hh * 60 + mi) * 60 + ss) * 1000000 + us) off)
        else None
    end.

(** A number in decimal, left-padded with zeros to [width]. *)
Definition zero_pad (width : nat) (z : Z) : string :=
  let digits := pretty z in
  String.append (concat_all (replicate (width - String.length digits)%nat "0")) digits.

Definition epoch_ordinal : Z := 719163.

Definition render_iso (t : Z) : string :=
  let day := t / (86400 * 1000000) in
  let us_of_day := t mod (86400 * 1000000) in
  let '(y, m, d) := ord2ymd (epoch_ordinal + day) in
  let us := us_of_day mod 1000000 in
  let secs := us_of_day / 1000000 in
  concat_all [
    zero_pad 4 y; "-"; zero_pad 2 m; "-"; zero_pad 2 d; "T";
    zero_pad 2 (secs / 3600); ":"; zero_pad 2 (secs / 60 mod 60); ":";
    zero_pad 2 (secs mod 60);
    if us =? 0 then EmptyString else String.append "." (zero_pad 6 us) ].

Definition lower (c : ascii) : ascii :=
  let k := nat_of_ascii c in
  if (65 <=? k)%nat && (k <=? 90)%nat then ascii_of_nat (k + 32) else c.

Fixpoint lowercase (s : string) : string :=
  match s with
  | EmptyString => EmptyString
  | String c rest => String (lower c) (lowercase rest)
  end.

(** [s] cut at the first [sep]: what is before it and what is after it. *)
Fixpoint cut (sep : ascii) (s : string) : option (string * string) :=
  match s with
  | EmptyString => None
  | String c rest =>
      if Ascii.eqb c sep then Some (EmptyString, rest)
      else '(before, after) ← cut sep rest; Some (String c before, after)
  end.

(** [s.split(sep)] *)
Fixpoint split (sep : ascii) (s : string) : list string :=
  match s with
  | EmptyString => [EmptyString]
  | String c rest =>
      if Ascii.eqb c sep then EmptyString :: split sep rest
      else match split sep rest with
           | part :: parts => String c part :: parts
           | [] => [String c EmptyString]
           end
  end.

(** [text LIKE pattern]: [%] (written [*] as well) stands for any run of
    characters and [_] for any one character. *)
Fixpoint like (pattern : string) : string → bool :=
  match pattern with
  | EmptyString => λ text, bool_decide (text = EmptyString)
  | String c pattern' =>
      if Ascii.eqb c "%" || Ascii.eqb c "*" then
        fix skip (text : string) : bool :=
          like pattern' text ||
          match text with
          | EmptyString => false
          | String _ text' => skip text'
          end
      else
        λ text,
          match text with
          | EmptyString => false
          | String d text' => (Ascii.eqb c "_" || Ascii.eqb c d) && like pattern' text'
          end
  end.

Definition text_columns : list string :=
  ["id"; "user_id"; "title"; "content"; "created_at"; "updated_at"].
Definition flag_columns : list string :=
  ["is_favorite"; "is_archived"; "is_deleted"].

Definition text_is (value : string) (v : option pyvalue) : bool :=
  match v with Some (PStr s) => bool_decide (s = value) | _ => false end.
Definition flag_is (value : bool) (v : option pyvalue) : bool :=
  match v with Some (PBool b) => bool_decide (b = value) | _ => false end.

(** One condition [column.operator.value] of a filter. *)
Definition condition (text : string) : option (gmap string pyvalue → bool) :=
  '(column, rest) ← cut "." text;
  '(operator, value) ← cut "." rest;
  if bool_decide (column ∈ text_columns) then
    if bool_decide (operator = "ilike") then
      Some (λ row, match row !! column with
                   | Some (PStr s) => like (lowercase value) (lowercase s)
                   | _ => false
                   end)
    else if bool_decide (operator = "eq") then
      Some (λ row, text_is value (row !! column))
    else None
  else if bool_decide (column ∈ flag_columns) then
    if bool_decide (operator = "eq") then
      if bool_decide (value = "true") then
        Some (λ row, flag_is true (row !! column))
      else if bool_decide (value = "false") then
        Some (λ row, flag_is false (row !! column))
      else None
    else None
  else None.

(** [or=(c1,c2,...)]: a row passes when it meets one of the conditions;
    a text with a part that is no condition is refused. *)
Definition read_or_filter (text : string) : option (gmap string pyvalue → bool) :=
  conditions ← mapM condition (split "," text);
  Some (λ row, existsb (λ c, c row) conditions).

Definition stub_query (vector : list Z) (top_k : Z) (user_id : string)
    (ix : gmap string (VectorEntry (list Z))) : list (Match_ Z) :=
  take (Z.to_nat top_k)
    ((λ kv, {| m_id := kv.1;
               m_score := if bool_decide (ve_values kv.2 = vector) then 100 else 0;
               m_metadata := ve_metadata kv.2 |})
       <$> filter (λ kv, ve_metadata kv.2 !! "user_id" = Some user_id)
             (map_to_list ix)).

#[export] Instance double : Collaborators := {|
    fromisoformat := parse_iso;
    isoformat := render_iso;
    Vector := list Z;
    Score := Z;
    embedding_model := λ text, [Z.of_nat (String.length text)];
    index_query := stub_query;
    chat_model := λ _ _, Some "stub answer";
    format_percent := λ score, String.append (pretty score) "%";
    timestamp_leb := String.leb;
    or_filter := read_or_filter
  |}.

(** The same collaborators with a chat model whose completions carry no
    text. *)
Definition mute : Collaborators := {|
    fromisoformat := parse_iso;
    isoformat := render_iso;
    Vector := list Z;
    Score := Z;
    embedding_model := λ text, [Z.of_nat (String.length text)];
    index_query := stub_query;
    chat_model := λ _ _, None;
    format_percent := λ score, String.append (pretty score) "%";
    timestamp_leb := String.leb;
    or_filter := read_or_filter
  |}.

(** Sample rows and worlds. *)
Definition sample_note : Note :=
  {| n_id := "n1"; n_user_id := "u"; n_title := "Groceries"; n_content := "milk";
     n_tags := ["home"]; n_is_favorite := true; n_is_archived := false;
     n_is_deleted := false;
     n_created_at := "2024-03-10T09:00:00"; n_updated_at := "2024-03-10T09:00:00" |}.

Definition trashed_note (note_id created_at : string) (favorite archived : bool) : Note :=
  {| n_id := note_id; n_user_id := "u"; n_title := "Old"; n_content := "draft";
     n_tags := []; n_is_favorite := favorite; n_is_archived := archived;
     n_is_deleted := true;
     n_created_at := created_at; n_updated_at := created_at |}.

(** 2024-03-11T12:00:00 UTC *)
Definition sample_clock : Z := 1710158400000000.

Definition world_of (rows : list Note) (faulty : nat → bool) : World :=
  {| notes := rows; search_logs := []; pinecone_index := ∅; calls := [];
     fails := faulty; clock := sample_clock |}.

Definition healthy : nat → bool := λ _, false.
Definition outage : nat → bool := λ _, true.
Definition first_call_fails : nat → bool := λ j, bool_decide (j = 0%nat).

Definition tags_only : NoteUpdate :=
  {| u_title := None; u_content := None; u_tags := Some ["urgent"];
     u_is_favorite := None; u_is_archived := None; u_is_deleted := None |}.

Definition activity (created_at : string) : gmap string pyvalue :=
  {[ "created_at" := PStr created_at ]}.

Definition second_call_fails : nat → bool := λ j, bool_decide (j = 1%nat).

Definition title_only : NoteUpdate :=
  {| u_title := Some "Shopping"; u_content := None; u_tags := None;
     u_is_favorite := None; u_is_archived := None; u_is_deleted := None |}.

Definition sample_create : NoteCreate :=
  {| c_title := "Plan"; c_content := "write the report"; c_user_id := "u";
     c_tags := ["work"] |}.

Definition sample_notification (notification_id user_id : string) (is_read : bool)
  : Notification :=
  {| nt_id := notification_id; nt_user_id := user_id; nt_title := "Hello";
     nt_message := "welcome"; nt_type := "info"; nt_is_read := is_read;
     nt_created_at := "2024-03-10T09:00:00" |}.

Definition desk_of (rows : list Notification) (faulty : nat → bool) : Desk :=
  {| world := world_of [] faulty; user_preferences := ∅; notifications := rows |}.

End TestDouble.


(** * Properties *)

(** ** Streak calculator *)

Section StreakProperties.
Context `{Collaborators}.

#[local] Instance date_geb_trans : Transitive date_geb.
Proof. unfold date_geb. intros x y z ? ?. lia. Qed.

#[local] Instance date_geb_total : Total date_geb.
Proof. unfold date_geb. intros x y. lia. Qed.

Lemma elem_of_collect_dates activities dates d :
  d ∈ collect_dates activities dates ↔
  d ∈ dates ∨ ∃ a, a ∈ activities ∧ activity_date a = Ok d.
Proof.
  revert dates. induction activities as [|a rest IH]; intros dates; simpl.
  - split; [auto|]. intros [?|(a & Ha & _)]; [done|]. by apply elem_of_nil in Ha.
  - destruct (activity_date a) as [d'|e] eqn:Ea; rewrite IH.
    + rewrite elem_of_union, elem_of_singleton. split.
      * intros [[?| ->]|(b & Hb & ?)]; eauto.
        -- right. exists a. split; [left|done].
        -- right. exists b. split; [by right|done].
      * intros [?|(b & Hb & Eb)]; [auto|].
        apply elem_of_cons in Hb as [->|Hb]; [|eauto].
        left. right. congruence.
    + split.
      * intros [?|(b & Hb & ?)]; [auto|]. right. exists b. split; [by right|done].
      * intros [?|(b & Hb & Eb)]; [auto|].
        apply elem_of_cons in Hb as [->|Hb]; [congruence|eauto].
Qed.

Lemma sorted_reverse_perm dates : sorted_reverse dates ≡ₚ elements dates.
Proof. apply merge_sort_Permutation. Qed.

Lemma elem_of_sorted_reverse dates d : d ∈ sorted_reverse dates ↔ d ∈ dates.
Proof. by rewrite sorted_reverse_perm, elem_of_elements. Qed.

Lemma sorted_reverse_NoDup dates : NoDup (sorted_reverse dates).
Proof. rewrite sorted_reverse_perm. apply NoDup_elements. Qed.

Lemma sorted_reverse_sorted dates : StronglySorted date_geb (sorted_reverse dates).
Proof. apply StronglySorted_merge_sort; apply _. Qed.

Lemma sorted_reverse_nil dates : sorted_reverse dates = [] → dates = ∅.
Proof.
  intros E. apply set_eq. intros d.
  rewrite <- elem_of_sorted_reverse, E. set_solver.
Qed.

Lemma spec_run_cons a b l :
  spec_run (a :: b :: l) = if bool_decide (a - b = 1) then 1 + spec_run (b :: l) else 1.
Proof. reflexivity. Qed.

(** The indexed loop computes the pairwise walk of the specification. *)
Lemma streak_loop_spec_run rest : ∀ pre a s,
  streak_loop (pre ++ a :: rest) (seq (S (length pre)) (length rest)) s
  = Ok (s + spec_run (a :: rest) - 1).
Proof.
  induction rest as [|b rest IH]; intros pre a s.
  - simpl. f_equal. lia.
  - cbn [length seq streak_loop].
    replace (S (length pre) - 1)%nat with (length pre) by lia.
    unfold index.
    rewrite (list_lookup_middle pre (b :: rest) a (length pre) eq_refl).
    cbn [rbind].
    replace (pre ++ a :: b :: rest) with ((pre ++ [a]) ++ b :: rest)
      by (by rewrite <- app_assoc).
    rewrite (list_lookup_middle (pre ++ [a]) rest b (S (length pre)))
      by (rewrite length_app; simpl; lia).
    cbn [rbind]. unfold days_between.
    replace (S (S (length pre))) with (S (length (pre ++ [a])))
      by (rewrite length_app; simpl; lia).
    rewrite spec_run_cons. case_bool_decide.
    + rewrite IH. f_equal. lia.
    + f_equal. lia.
Qed.

Lemma spec_run_pos a l : 1 ≤ spec_run (a :: l).
Proof.
  revert a. induction l as [|b l IH]; intros a; [simpl; lia|].
  rewrite spec_run_cons. case_bool_decide; [|lia]. specialize (IH b). lia.
Qed.

(** On strictly descending dates the walk measures the run of
    consecutive days that ends at the first date. *)
Lemma spec_run_consecutive l : ∀ a,
  StronglySorted date_geb (a :: l) → NoDup (a :: l) →
  (∀ j, 0 ≤ j < spec_run (a :: l) → a - j ∈ a :: l) ∧
  a - spec_run (a :: l) ∉ a :: l.
Proof.
  induction l as [|b l IH]; intros a Hs Hn.
  - cbn [spec_run]. split.
    + intros j Hj. replace (a - j) with a by lia. left.
    + rewrite list_elem_of_singleton. lia.
  - apply StronglySorted_inv in Hs as [Hs Ha].
    apply NoDup_cons in Hn as [Hna Hn].
    destruct (IH b Hs Hn) as [IH1 IH2].
    pose proof (spec_run_pos b l) as Hpos.
    assert (Hlt : ∀ d, d ∈ b :: l → d < a).
    { intros d Hd. rewrite Forall_forall in Ha. specialize (Ha d Hd).
      unfold date_geb in Ha. assert (d ≠ a) by (intros ->; done). lia. }
    assert (Hle : ∀ d, d ∈ b :: l → d ≤ b).
    { intros d Hd. apply elem_of_cons in Hd as [->|Hd]; [lia|].
      apply StronglySorted_inv in Hs as [_ Hb].
      rewrite Forall_forall in Hb. apply (Hb d Hd). }
    rewrite spec_run_cons. case_bool_decide as Hgap.
    + split.
      * intros j Hj. destruct (decide (j = 0)) as [->|Hj0].
        -- replace (a - 0) with a by lia. left.
        -- right. replace (a - j) with (b - (j - 1)) by lia. apply IH1. lia.
      * intros Hin. apply elem_of_cons in Hin as [Heq|Hin]; [lia|].
        apply IH2. by replace (b - spec_run (b :: l)) with (a - (1 + spec_run (b :: l))) by lia.
    + split.
      * intros j Hj. replace (a - j) with a by lia. left.
      * intros Hin. apply elem_of_cons in Hin as [Heq|Hin]; [lia|].
        pose proof (Hlt b ltac:(left)). pose proof (Hle _ Hin). lia.
Qed.

Lemma calculate_streak_unfold activities :
  calculate_streak activities = Ok (spec_streak (collect_dates activities ∅)).
Proof.
    unfold calculate_streak, spec_streak.
    destruct activities as [|a rest]; [done|].
    set (dates := collect_dates (a :: rest) ∅).
    case_bool_decide as He; [done|].
    destruct (sorted_reverse dates) as [|x l] eqn:El.
    { by apply sorted_reverse_nil in El. }
    cbn [length]. replace (S (length l) - 1)%nat with (length l) by lia.
    pose proof (streak_loop_spec_run l [] x 1) as Hloop. cbn [app length] in Hloop.
  rewrite Hloop. f_equal. lia.
Qed.

Lemma spec_streak_run dates m :
  m ∈ dates → (∀ d, d ∈ dates → d ≤ m) →
  1 ≤ spec_streak dates ∧
  (∀ j, 0 ≤ j < spec_streak dates → m - j ∈ dates) ∧
  m - spec_streak dates ∉ dates.
Proof.
  intros Hm Hmax. unfold spec_streak.
  case_bool_decide as He; [set_solver|].
  pose proof (sorted_reverse_sorted dates) as Hs.
  pose proof (sorted_reverse_NoDup dates) as Hn.
  destruct (sorted_reverse dates) as [|x l] eqn:El.
  { by apply sorted_reverse_nil in El. }
  assert (x = m) as ->.
  { assert (x ∈ dates) as Hx by (apply elem_of_sorted_reverse; rewrite El; left).
    assert (m ∈ x :: l) as Hin by (rewrite <- El; by apply elem_of_sorted_reverse).
    pose proof (Hmax x Hx).
    apply elem_of_cons in Hin as [->|Hin]; [done|].
    apply StronglySorted_inv in Hs as [_ Hb].
    rewrite Forall_forall in Hb. specialize (Hb m Hin). unfold date_geb in Hb. lia. }
  destruct (spec_run_consecutive l m Hs Hn) as [H1 H2].
  split; [apply spec_run_pos|]. split.
  - intros j Hj. apply elem_of_sorted_reverse. rewrite El. by apply H1.
  - intros Hin. apply H2. apply elem_of_sorted_reverse in Hin. by rewrite El in Hin.
Qed.

(** C1: the streak calculator reduces the records to the set of distinct
    dates that parse; on the empty set it returns 0, otherwise it is the
    specification's walk over the descending dates, whose value is the
    length of the run of consecutive days ending at the latest date.  For
    the date set {D, D-1, D-2, D-5} it returns 3, for a single date 1, and
    a record repeating a date already present changes nothing. *)
Theorem calculate_streak_consecutive_run (activities : list (gmap string pyvalue)) :
  let dates := collect_dates activities ∅ in
  (∀ d, d ∈ dates ↔ ∃ a, a ∈ activities ∧ activity_date a = Ok d) ∧
  calculate_streak activities = Ok (spec_streak dates) ∧
  (dates = ∅ → calculate_streak activities = Ok 0) ∧
  (∀ m, m ∈ dates → (∀ d, d ∈ dates → d ≤ m) →
     ∃ k, calculate_streak activities = Ok k ∧ 1 ≤ k ∧
          (∀ j, 0 ≤ j < k → m - j ∈ dates) ∧ m - k ∉ dates) ∧
  (∀ D, dates = {[ D; D - 1; D - 2; D - 5 ]} → calculate_streak activities = Ok 3) ∧
  (∀ D, dates = {[ D ]} → calculate_streak activities = Ok 1) ∧
  (∀ a, a ∈ activities → calculate_streak (a :: activities) = calculate_streak activities).
Proof.
  intros dates.
  assert (Hmem : ∀ d, d ∈ dates ↔ ∃ a, a ∈ activities ∧ activity_date a = Ok d).
  { intros d. unfold dates. rewrite elem_of_collect_dates.
    split; [intros [Hd|Hd]|by right]; [by apply not_elem_of_empty in Hd|done]. }
  assert (Hrun : ∀ m, m ∈ dates → (∀ d, d ∈ dates → d ≤ m) →
     ∃ k, calculate_streak activities = Ok k ∧ 1 ≤ k ∧
          (∀ j, 0 ≤ j < k → m - j ∈ dates) ∧ m - k ∉ dates).
  { intros m Hm Hmax. exists (spec_streak dates).
    split; [apply calculate_streak_unfold|]. by apply spec_streak_run. }
  split; [done|]. split; [apply calculate_streak_unfold|].
  split; [|split; [done|]]; [|split; [|split]].
  - intros He. rewrite calculate_streak_unfold. fold dates. rewrite He.
    unfold spec_streak. by rewrite bool_decide_eq_true_2.
  - intros D HD.
    destruct (Hrun D) as (k & -> & Hk & Hin & Hout).
    { rewrite HD, !elem_of_union, !elem_of_singleton. lia. }
    { intros d. rewrite HD, !elem_of_union, !elem_of_singleton. lia. }
    f_equal. rewrite HD in Hin, Hout.
    assert (¬ 3 < k).
    { intros ?. specialize (Hin 3 ltac:(lia)).
      revert Hin. rewrite !elem_of_union, !elem_of_singleton. lia. }
    revert Hout. rewrite !elem_of_union, !elem_of_singleton. lia.
  - intros D HD.
    destruct (Hrun D) as (k & -> & Hk & Hin & Hout).
    { rewrite HD. by apply elem_of_singleton. }
    { intros d. rewrite HD, elem_of_singleton. lia. }
    f_equal. rewrite HD in Hin.
    assert (¬ 1 < k).
    { intros ?. specialize (Hin 1 ltac:(lia)).
      revert Hin. rewrite elem_of_singleton. lia. }
    lia.
  - intros a Ha. rewrite !calculate_streak_unfold. do 2 f_equal.
    apply set_eq. intros d. rewrite !elem_of_collect_dates.
    split; intros [?|(b & Hb & Eb)]; [by left| |by left|].
    + right. exists b. split; [|done].
      apply elem_of_cons in Hb as [->|Hb]; done.
    + right. exists b. split; [by right|done].
Qed.

(** C10: a record whose [created_at] does not parse is skipped, the
    calculator returns 0 when no record parses, and it never raises. *)
Theorem calculate_streak_skips_unparsable (activities : list (gmap string pyvalue)) :
  calculate_streak activities
    = calculate_streak (filter (λ a, Is_true (parses a)) activities) ∧
  ((∀ a, a ∈ activities → ∃ e, activity_date a = Raise e) →
     calculate_streak activities = Ok 0) ∧
  (∃ n, calculate_streak activities = Ok n).
Proof.
  assert (Hskip : ∀ acts dates,
    collect_dates (filter (λ a, Is_true (parses a)) acts) dates = collect_dates acts dates).
  { induction acts as [|a rest IH]; intros dates; [done|].
    rewrite filter_cons.
    destruct (decide (Is_true (parses a))) as [Hp|Hp]; unfold parses in Hp;
      cbn [collect_dates]; destruct (activity_date a); try done; try apply IH. }
  split; [|split].
  - by rewrite !calculate_streak_unfold, Hskip.
  - intros Hnone. rewrite calculate_streak_unfold.
    assert (collect_dates activities ∅ = ∅) as ->.
    { apply set_eq. intros d. rewrite elem_of_collect_dates.
      split; [|set_solver]. intros [?|(a & Ha & Ea)]; [done|].
      destruct (Hnone a Ha) as [e He]. congruence. }
    unfold spec_streak. by rewrite bool_decide_eq_true_2.
  - eexists. apply calculate_streak_unfold.
Qed.

End StreakProperties.

(** ** Rows selected and rows updated *)

Section Rows.
Context {A : Type} (q : A → bool).

Lemma filter_none_complement (l : list A) :
  filter (λ x, Is_true (q x)) l = [] → filter (λ x, ¬ Is_true (q x)) l = l.
Proof.
  induction l as [|x l IH]; [done|]. intros Hl. destruct (q x) eqn:Hx.
  - by rewrite filter_cons_True in Hl by (rewrite Hx; simpl; tauto).
  - rewrite filter_cons_False in Hl by (rewrite Hx; simpl; tauto).
    rewrite filter_cons_True by (rewrite Hx; simpl; tauto). by rewrite IH.
Qed.

Lemma update_none (f : A → A) (l : list A) :
  filter (λ x, Is_true (q x)) l = [] → (λ x, if q x then f x else x) <$> l = l.
Proof.
  induction l as [|x l IH]; [done|]. intros Hl. rewrite fmap_cons.
  destruct (q x) eqn:Hx.
  - by rewrite filter_cons_True in Hl by (rewrite Hx; simpl; tauto).
  - rewrite filter_cons_False in Hl by (rewrite Hx; simpl; tauto). by rewrite IH.
Qed.

(** Updating the selected rows in place, then selecting again, gives the
    updated rows, provided the update keeps the selection columns. *)
Lemma filter_update (f : A → A) (l : list A) :
  (∀ x, q (f x) = q x) →
  filter (λ x, Is_true (q x)) ((λ x, if q x then f x else x) <$> l)
  = f <$> filter (λ x, Is_true (q x)) l.
Proof.
  intros Hf. induction l as [|x l IH]; [done|].
  rewrite fmap_cons. destruct (q x) eqn:Hx.
  - rewrite !filter_cons_True by (rewrite ?Hf, Hx; simpl; tauto). by rewrite IH, fmap_cons.
  - rewrite !filter_cons_False by (rewrite Hx; simpl; tauto). apply IH.
Qed.

Lemma update_lookup (f : A → A) (l : list A) (i : nat) (x : A) :
  l !! i = Some x →
  ((λ x, if q x then f x else x) <$> l) !! i = Some (if q x then f x else x).
Proof. intros Hx. by rewrite list_lookup_fmap, Hx. Qed.

End Rows.

(** ** Handlers *)

Section BackendProperties.
Context `{Collaborators}.

(** *** One step of each collaborator call *)

Lemma outbound_run c w :
  outbound c w =
  (if fails w (length (calls w)) then Raise upstream_failure else Ok tt,
   set_calls (c :: calls w) w).
Proof. unfold outbound. by destruct (fails w _). Qed.

Lemma notes_select_run query w :
  notes_select query w =
  (if fails w (length (calls w)) then Raise upstream_failure
   else Ok (filter (λ n, Is_true (query n)) (notes w)),
   set_calls (SupabaseExecute "notes" :: calls w) w).
Proof.
  unfold notes_select, bind. rewrite outbound_run. by destruct (fails w _).
Qed.

Lemma notes_count_run query w :
  notes_count query w =
  (if fails w (length (calls w)) then Raise upstream_failure
   else Ok (Some (Z.of_nat (length (filter (λ n, Is_true (query n)) (notes w))))),
   set_calls (SupabaseExecute "notes" :: calls w) w).
Proof.
  unfold notes_count, bind. rewrite outbound_run. by destruct (fails w _).
Qed.

Lemma search_logs_count_run query w :
  search_logs_count query w =
  (if fails w (length (calls w)) then Raise upstream_failure
   else Ok (Some (Z.of_nat (length (filter (λ l, Is_true (query l)) (search_logs w))))),
   set_calls (SupabaseExecute "search_logs" :: calls w) w).
Proof.
  unfold search_logs_count, bind. rewrite outbound_run. by destruct (fails w _).
Qed.

Lemma notes_update_run data query w :
  notes_update data query w =
  if fails w (length (calls w))
  then (Raise upstream_failure, set_calls (SupabaseExecute "notes" :: calls w) w)
  else (Ok (set_columns data <$> filter (λ n, Is_true (query n)) (notes w)),
        set_notes ((λ n, if query n then set_columns data n else n) <$> notes w)
          (set_calls (SupabaseExecute "notes" :: calls w) w)).
Proof.
  unfold notes_update, bind. rewrite outbound_run. by destruct (fails w _).
Qed.

Lemma notes_delete_run query w :
  notes_delete query w =
  if fails w (length (calls w))
  then (Raise upstream_failure, set_calls (SupabaseExecute "notes" :: calls w) w)
  else (Ok tt,
        set_notes (filter (λ n, ¬ Is_true (query n)) (notes w))
          (set_calls (SupabaseExecute "notes" :: calls w) w)).
Proof.
  unfold notes_delete, bind. rewrite outbound_run. by destruct (fails w _).
Qed.

Lemma pinecone_delete_run ids w :
  pinecone_delete ids w =
  if fails w (length (calls w))
  then (Raise upstream_failure, set_calls (PineconeDelete ids :: calls w) w)
  else (Ok tt,
        set_pinecone_index (foldr delete (pinecone_index w) ids)
          (set_calls (PineconeDelete ids :: calls w) w)).
Proof.
  unfold pinecone_delete, bind. rewrite outbound_run. by destruct (fails w _).
Qed.

Lemma pinecone_upsert_run vector_id entry w :
  pinecone_upsert vector_id entry w =
  if fails w (length (calls w))
  then (Raise upstream_failure, set_calls (PineconeUpsert vector_id :: calls w) w)
  else (Ok tt,
        set_pinecone_index (<[vector_id := entry]> (pinecone_index w))
          (set_calls (PineconeUpsert vector_id :: calls w) w)).
Proof.
  unfold pinecone_upsert, bind. rewrite outbound_run. by destruct (fails w _).
Qed.

Lemma generate_embedding_run text w :
  generate_embedding text w =
  (if fails w (length (calls w)) then Raise upstream_failure
   else Ok (embedding_model text),
   set_calls (EmbeddingsCreate text :: calls w) w).
Proof.
  unfold generate_embedding, bind. rewrite outbound_run. by destruct (fails w _).
Qed.

Lemma pinecone_query_run vector top_k user_id w :
  pinecone_query vector top_k user_id w =
  (if fails w (length (calls w)) then Raise upstream_failure
   else Ok (index_query vector top_k user_id (pinecone_index w)),
   set_calls (PineconeQuery top_k user_id :: calls w) w).
Proof.
  unfold pinecone_query, bind. rewrite outbound_run. by destruct (fails w _).
Qed.

Lemma chat_completions_create_run system user w :
  chat_completions_create system user w =
  (if fails w (length (calls w)) then Raise upstream_failure
   else Ok (chat_model system user),
   set_calls (ChatCompletionsCreate system user :: calls w) w).
Proof.
  unfold chat_completions_create, bind. rewrite outbound_run. by destruct (fails w _).
Qed.

Lemma search_logs_insert_run row w :
  search_logs_insert row w =
  if fails w (length (calls w))
  then (Raise upstream_failure, set_calls (SupabaseExecute "search_logs" :: calls w) w)
  else (Ok tt,
        set_search_logs (search_logs w ++ [row])
          (set_calls (SupabaseExecute "search_logs" :: calls w) w)).
Proof.
  unfold search_logs_insert, bind. rewrite outbound_run. by destruct (fails w _).
Qed.

(** The outer handler turns every exception into a 500. *)
Lemma except_500_raises {A : Type} (body : M A) w e w' :
  except_500 body w = (Raise e, w') → ∃ detail, e = HTTPException 500 detail.
Proof.
  unfold except_500, try_except, raise.
  destruct (body w) as [[a|e0] w0]; intros [= <- <-]. eauto.
Qed.

(** C9: deleting never signals NotFound; whenever the record store
    answers, soft and hard delete return their success object, whether or
    not any record matched the id and owner. *)
Theorem delete_note_never_not_found (note_id user_id : string) (permanent : bool)
    (w : World) :
  (∀ r w' detail, delete_note note_id user_id permanent w = (r, w') →
     r ≠ Raise (HTTPException 404 detail)) ∧
  (fails w (length (calls w)) = false →
   ∃ w', delete_note note_id user_id permanent w =
           (Ok {[ "status" := PStr (if permanent then "permanently_deleted"
                                    else "moved_to_trash");
                  "note_id" := PStr note_id ]}, w') ∧
         (filter (λ n, Is_true (eq_id_user_id note_id user_id n)) (notes w) = [] →
          notes w' = notes w)).
Proof.
  split.
  - intros r w' detail Hrun ->.
    apply except_500_raises in Hrun as [d [=]].
  - intros Hok. unfold delete_note, except_500, try_except, bind.
    destruct permanent.
    + rewrite notes_delete_run, Hok, pinecone_delete_run.
      cbn [fails calls set_notes set_calls length].
      destruct (fails w (S (length (calls w)))).
      all: eexists; split; [reflexivity|]; intros Hnone; cbn.
      all: by apply filter_none_complement.
    + unfold utcnow. rewrite notes_update_run, Hok.
      eexists. split; [reflexivity|].
      intros Hnone. cbn. by apply update_none.
Qed.

(** *** Missing notes *)

Lemma set_columns_keeps_selection note_id user_id data n :
  eq_id_user_id note_id user_id (set_columns data n) = eq_id_user_id note_id user_id n.
Proof. reflexivity. Qed.

Lemma update_note_missing note_id user_id update w :
  fails w (length (calls w)) = false →
  filter (λ n, Is_true (eq_id_user_id note_id user_id n)) (notes w) = [] →
  ∃ w', update_note note_id user_id update w
        = (Raise (HTTPException 500 "404: Note not found"), w').
Proof.
  intros Hok Hnone. unfold update_note, except_500, try_except, bind, utcnow.
  rewrite notes_update_run, Hok, Hnone. cbn. eauto.
Qed.

Lemma restore_note_missing note_id user_id w :
  fails w (length (calls w)) = false →
  filter (λ n, Is_true (eq_id_user_id note_id user_id n)) (notes w) = [] →
  ∃ w', restore_note note_id user_id w
        = (Raise (HTTPException 500 "404: Note not found"), w').
Proof.
  intros Hok Hnone. unfold restore_note, except_500, try_except, bind, utcnow.
  rewrite notes_update_run, Hok, Hnone. cbn. eauto.
Qed.

(** *** Toggling the favorite flag *)

Lemma toggle_favorite_run note_id user_id w n :
  fails w (length (calls w)) = false →
  fails w (S (length (calls w))) = false →
  filter (λ x, Is_true (eq_id_user_id note_id user_id x)) (notes w) = [n] →
  toggle_favorite note_id user_id w =
  (Ok {[ "status" := PStr "success"; "is_favorite" := PBool (negb (n_is_favorite n)) ]},
   set_notes
     ((λ x, if eq_id_user_id note_id user_id x
            then set_columns {[ "is_favorite" := PBool (negb (n_is_favorite n));
                                "updated_at" := PStr (isoformat (clock w)) ]} x
            else x) <$> notes w)
     (set_calls (SupabaseExecute "notes" :: SupabaseExecute "notes" :: calls w) w)).
Proof.
  intros Hok1 Hok2 Hsel. unfold toggle_favorite, except_500, try_except, bind, utcnow.
  rewrite notes_select_run, Hok1, Hsel. cbn [single ret].
  rewrite notes_update_run. cbn [fails calls set_calls length]. rewrite Hok2.
  reflexivity.
Qed.

Lemma favorite_column (b : bool) (t : string) (n : Note) :
  n_is_favorite
    (set_columns {[ "is_favorite" := PBool b; "updated_at" := PStr t ]} n) = b.
Proof. reflexivity. Qed.

(** C7: on an existing note, two toggles in sequence put the favorite flag
    of every stored note back to its original value; the first answers the
    negated flag, the second the original one. *)
Theorem toggle_favorite_twice (note_id user_id : string) (w : World) (n : Note) :
  (∀ k, fails w k = false) →
  filter (λ x, Is_true (eq_id_user_id note_id user_id x)) (notes w) = [n] →
  ∃ r1 w1 r2 w2 n1 n2,
    toggle_favorite note_id user_id w = (Ok r1, w1) ∧
    toggle_favorite note_id user_id w1 = (Ok r2, w2) ∧
    r1 !! "is_favorite" = Some (PBool (negb (n_is_favorite n))) ∧
    r2 !! "is_favorite" = Some (PBool (n_is_favorite n)) ∧
    filter (λ x, Is_true (eq_id_user_id note_id user_id x)) (notes w1) = [n1] ∧
    n_is_favorite n1 = negb (n_is_favorite n) ∧
    filter (λ x, Is_true (eq_id_user_id note_id user_id x)) (notes w2) = [n2] ∧
    n_is_favorite n2 = n_is_favorite n ∧
    n_is_favorite <$> notes w2 = n_is_favorite <$> notes w.
Proof.
  intros Hok Hsel.
  set (d1 := ({[ "is_favorite" := PBool (negb (n_is_favorite n));
                 "updated_at" := PStr (isoformat (clock w)) ]} : gmap string pyvalue)).
  set (d2 := ({[ "is_favorite" := PBool (negb (n_is_favorite (set_columns d1 n)));
                 "updated_at" := PStr (isoformat (clock w)) ]} : gmap string pyvalue)).
  pose proof (toggle_favorite_run note_id user_id w n (Hok _) (Hok _) Hsel) as Hrun1.
  fold d1 in Hrun1.
  match type of Hrun1 with _ = (_, ?x) => set (w1 := x) in * end.
  assert (Hsel1 : filter (λ x, Is_true (eq_id_user_id note_id user_id x)) (notes w1)
                  = [set_columns d1 n]).
  { unfold w1. cbn [notes set_notes].
    rewrite (filter_update (eq_id_user_id note_id user_id) (set_columns d1)), Hsel;
      [done|]. intros x. apply set_columns_keeps_selection. }
  pose proof (toggle_favorite_run note_id user_id w1 (set_columns d1 n)
                (Hok _) (Hok _) Hsel1) as Hrun2.
  change (clock w1) with (clock w) in Hrun2. fold d2 in Hrun2.
  match type of Hrun2 with _ = (_, ?x) => set (w2 := x) in * end.
  assert (Hfav1 : n_is_favorite (set_columns d1 n) = negb (n_is_favorite n))
    by apply favorite_column.
  assert (Hfav2 : n_is_favorite (set_columns d2 (set_columns d1 n)) = n_is_favorite n).
  { unfold d2. rewrite favorite_column, Hfav1. apply negb_involutive. }
  eexists _, w1, _, w2, (set_columns d1 n), (set_columns d2 (set_columns d1 n)).
  split; [exact Hrun1|]. split; [exact Hrun2|].
  split; [reflexivity|]. split; [by rewrite Hfav1, negb_involutive|].
  split; [exact Hsel1|]. split; [exact Hfav1|]. split; [|split; [exact Hfav2|]].
  - unfold w2. cbn [notes set_notes].
    rewrite (filter_update (eq_id_user_id note_id user_id) (set_columns d2)), Hsel1;
      [done|]. intros x. apply set_columns_keeps_selection.
  - unfold w2, w1. cbn [notes set_notes]. rewrite <- !list_fmap_compose.
    apply list_fmap_ext. intros i x Hx. cbn.
    destruct (eq_id_user_id note_id user_id x) eqn:Hq; [|by rewrite Hq].
    rewrite set_columns_keeps_selection, Hq.
    assert (x = n) as ->.
    { assert (x ∈ [n]) as Hin.
      { rewrite <- Hsel. apply list_elem_of_filter. split; [by rewrite Hq|].
        by apply list_elem_of_lookup_2 in Hx. }
      by apply list_elem_of_singleton in Hin. }
    exact Hfav2.
Qed.

(** *** Partial update *)

Lemma set_columns_update_data update now n :
  set_columns (build_update_data update now) n =
  {| n_id := n_id n;
     n_user_id := n_user_id n;
     n_title := default (n_title n) (u_title update);
     n_content := default (n_content n) (u_content update);
     n_tags := default (n_tags n) (u_tags update);
     n_is_favorite := default (n_is_favorite n) (u_is_favorite update);
     n_is_archived := default (n_is_archived n) (u_is_archived update);
     n_is_deleted := default (n_is_deleted n) (u_is_deleted update);
     n_created_at := n_created_at n;
     n_updated_at := isoformat now |}.
Proof.
  destruct update as [[t|] [c|] [tg|] [f|] [a|] [d|]]; reflexivity.
Qed.

Lemma update_note_run note_id user_id update w n rest :
  (∀ k, fails w k = false) →
  filter (λ x, Is_true (eq_id_user_id note_id user_id x)) (notes w) = n :: rest →
  let data := build_update_data update (clock w) in
  let n' := set_columns data n in
  let stored :=
    set_notes ((λ x, if eq_id_user_id note_id user_id x then set_columns data x else x)
                 <$> notes w)
      (set_calls (SupabaseExecute "notes" :: calls w) w) in
  update_note note_id user_id update w =
  (Ok n',
   if bool_decide (u_content update ≠ None ∨ u_title update ≠ None)
   then set_pinecone_index (<[note_id := vector_entry user_id n']> (pinecone_index w))
          (set_calls (PineconeUpsert note_id :: EmbeddingsCreate (embedded_text n')
                      :: SupabaseExecute "notes" :: calls w) stored)
   else stored).
Proof.
  intros Hok Hsel data n' stored.
  unfold update_note, except_500, try_except, bind, utcnow.
  rewrite notes_update_run, (Hok _), Hsel, fmap_cons. fold data n' stored.
  case_bool_decide.
  - rewrite generate_embedding_run. unfold stored. cbn [fails set_notes set_calls].
    rewrite (Hok _), pinecone_upsert_run. cbn [fails set_notes set_calls].
    rewrite (Hok _). reflexivity.
  - reflexivity.
Qed.

(** C4: a partial update changes only the supplied fields of the matched
    row, always refreshes [updated_at], leaves every other row as it was,
    and re-embeds and re-upserts the vector exactly when a title or a
    content was supplied (from the merged row); with neither, no call
    beyond the store update is made and the index is untouched. *)
Theorem update_note_partial (note_id user_id : string) (update : NoteUpdate)
    (w : World) (n : Note) (rest : list Note) :
  (∀ k, fails w k = false) →
  filter (λ x, Is_true (eq_id_user_id note_id user_id x)) (notes w) = n :: rest →
  ∃ n' w',
    update_note note_id user_id update w = (Ok n', w') ∧
    n_title n' = default (n_title n) (u_title update) ∧
    n_content n' = default (n_content n) (u_content update) ∧
    n_tags n' = default (n_tags n) (u_tags update) ∧
    n_is_favorite n' = default (n_is_favorite n) (u_is_favorite update) ∧
    n_is_archived n' = default (n_is_archived n) (u_is_archived update) ∧
    n_is_deleted n' = default (n_is_deleted n) (u_is_deleted update) ∧
    n_updated_at n' = isoformat (clock w) ∧
    n_id n' = n_id n ∧ n_user_id n' = n_user_id n ∧ n_created_at n' = n_created_at n ∧
    head (filter (λ x, Is_true (eq_id_user_id note_id user_id x)) (notes w')) = Some n' ∧
    length (notes w') = length (notes w) ∧
    (∀ i x, notes w !! i = Some x → eq_id_user_id note_id user_id x = false →
            notes w' !! i = Some x) ∧
    (u_title update = None ∧ u_content update = None →
       calls w' = SupabaseExecute "notes" :: calls w ∧
       pinecone_index w' = pinecone_index w) ∧
    (u_title update ≠ None ∨ u_content update ≠ None →
       calls w' = PineconeUpsert note_id :: EmbeddingsCreate (embedded_text n')
                  :: SupabaseExecute "notes" :: calls w ∧
       pinecone_index w' !! note_id = Some (vector_entry user_id n')) ∧
    (Exists (λ c, Is_true (is_embedding_call c || is_upsert_call c))
       (take (length (calls w') - length (calls w)) (calls w'))
     ↔ u_title update ≠ None ∨ u_content update ≠ None).
Proof.
  intros Hok Hsel.
  pose proof (update_note_run note_id user_id update w n rest Hok Hsel) as Hrun.
  cbv zeta in Hrun.
  set (data := build_update_data update (clock w)) in *.
  assert (Hn' : set_columns data n = _) by apply set_columns_update_data.
  match type of Hrun with _ = (_, ?x) => set (w' := x) in * end.
  assert (Hnotes : notes w' =
    (λ x, if eq_id_user_id note_id user_id x then set_columns data x else x) <$> notes w).
  { unfold w'. by case_bool_decide. }
  exists (set_columns data n), w'.
  split; [exact Hrun|].
  do 10 (split; [by rewrite Hn'|]).
  split; [|split; [|split; [|split; [|split]]]].
  - rewrite Hnotes, (filter_update (eq_id_user_id note_id user_id) (set_columns data)),
      Hsel; [done|]. intros x. apply set_columns_keeps_selection.
  - by rewrite Hnotes, length_fmap.
  - intros i x Hx Hq. rewrite Hnotes.
    rewrite (update_lookup _ _ _ _ _ Hx). by rewrite Hq.
  - intros [Ht Hc]. unfold w'.
    rewrite bool_decide_eq_false_2 by (rewrite Ht, Hc; tauto). done.
  - intros Hsupplied. unfold w'.
    rewrite bool_decide_eq_true_2 by tauto. cbn.
    split; [done|]. apply lookup_insert_eq.
  - unfold w'. case_bool_decide as Hs.
    + cbn [calls set_calls set_pinecone_index set_notes length].
      replace (S (S (S (length (calls w)))) - length (calls w))%nat with 3%nat by lia.
      cbn [take]. split; [tauto|]. intros _. by left.
    + cbn [calls set_calls set_notes length].
      replace (S (length (calls w)) - length (calls w))%nat with 1%nat by lia.
      cbn [take]. split; [|tauto]. intros Hex.
      apply Exists_cons in Hex as [[]|Hex]. by apply Exists_nil in Hex.
Qed.

(** *** Search *)

(** C3: when the vector query returns no match, the search answers the
    fixed no-results string with an empty result list; the only calls
    made are the embedding and the vector query, none to the completion
    provider, and nothing is logged. *)
Theorem search_notes_no_matches (query user_id : string) (limit : Z) (w : World) :
  fails w (length (calls w)) = false →
  fails w (S (length (calls w))) = false →
  index_query (embedding_model query) limit user_id (pinecone_index w) = [] →
  ∃ w',
    search_notes query user_id limit w
      = (Ok {| answer := no_results_answer; results := [] |}, w') ∧
    calls w' = PineconeQuery limit user_id :: EmbeddingsCreate query :: calls w ∧
    filter (λ c, Is_true (is_chat_call c)) (calls w')
      = filter (λ c, Is_true (is_chat_call c)) (calls w) ∧
    search_logs w' = search_logs w ∧
    notes w' = notes w.
Proof.
  intros Hok1 Hok2 Hnone. unfold search_notes, except_500, try_except, bind.
  rewrite generate_embedding_run, Hok1, pinecone_query_run.
  cbn [fails calls set_calls pinecone_index length]. rewrite Hok2, Hnone.
  eexists. split; [reflexivity|]. by repeat split.
Qed.

(** *** Stats *)

Lemma streak_of_activities_run (activities : list (gmap string pyvalue)) w :
  match activities with
  | [] => ret 0
  | _ => lift (calculate_streak activities)
  end w = (Ok (spec_streak (collect_dates activities ∅)), w).
Proof.
  destruct activities as [|a rest]; [reflexivity|].
  unfold lift. by rewrite calculate_streak_unfold.
Qed.

(** The rows handed to the streak calculator: the [created_at] of the 30
    most recent notes of the owner. *)
Lemma get_user_stats_run user_id w :
  let b := length (calls w) in
  ∃ w',
    get_user_stats user_id w =
    (Ok (if fails w b || fails w (S b) || fails w (S (S b)) then zero_stats
         else
           let search_count :=
             if fails w (S (S (S b))) then 0
             else Z.of_nat (length (filter
                    (λ l, Is_true (bool_decide (sl_user_id l = user_id)
                            && timestamp_leb
                                 (isoformat (clock w - 7 * microseconds_per_day))
                                 (sl_created_at l)))
                    (search_logs w))) in
           {| total_notes := Z.of_nat (length (filter
                (λ n, Is_true (eq_user_id user_id n && eq_is_deleted false n))
                (notes w)));
              favorites_count := Z.of_nat (length (filter
                (λ n, Is_true (eq_user_id user_id n && eq_is_favorite true n
                               && eq_is_deleted false n)) (notes w)));
              archived_count := Z.of_nat (length (filter
                (λ n, Is_true (eq_user_id user_id n && eq_is_archived true n
                               && eq_is_deleted false n)) (notes w)));
              searches_this_week := search_count;
              ai_insights := search_count;
              streak :=
                if fails w (S (S (S (S b)))) then 0
                else spec_streak (collect_dates (recent_activities user_id w) ∅) |}),
     w').
Proof.
  intros b. unfold get_user_stats, try_except, bind, utcnow.
  rewrite notes_count_run. fold b. destruct (fails w b); [by eexists|].
  rewrite notes_count_run. cbn [fails calls set_calls length]. fold b.
  destruct (fails w (S b)); [by eexists|].
  rewrite notes_count_run. cbn [fails calls set_calls length]. fold b.
  destruct (fails w (S (S b))); [by eexists|].
  rewrite search_logs_count_run. cbn [fails calls set_calls length search_logs clock]. fold b.
  destruct (fails w (S (S (S b)))); cbn [ret orb].
  all: rewrite notes_select_run; cbn [fails calls set_calls length notes]; fold b.
  all: destruct (fails w (S (S (S (S b))))); cbn [ret].
  all: rewrite ?streak_of_activities_run; by eexists.
Qed.

Lemma computed_stats_counts user_id w :
  computed_stats user_id w =
  let search_count :=
    Z.of_nat (length (filter
      (λ l, Is_true (bool_decide (sl_user_id l = user_id)
              && timestamp_leb (isoformat (clock w - 7 * microseconds_per_day))
                   (sl_created_at l)))
      (search_logs w))) in
  {| total_notes := Z.of_nat (length (filter
       (λ n, Is_true (eq_user_id user_id n && eq_is_deleted false n)) (notes w)));
     favorites_count := Z.of_nat (length (filter
       (λ n, Is_true (eq_user_id user_id n && eq_is_favorite true n
                      && eq_is_deleted false n)) (notes w)));
     archived_count := Z.of_nat (length (filter
       (λ n, Is_true (eq_user_id user_id n && eq_is_archived true n
                      && eq_is_deleted false n)) (notes w)));
     searches_this_week := search_count;
     ai_insights := search_count;
     streak := spec_streak (collect_dates (recent_activities user_id w) ∅) |}.
Proof.
  unfold computed_stats, eq_user_id, eq_is_deleted, eq_is_favorite, eq_is_archived.
  cbv zeta. f_equal; do 2 f_equal; apply list_filter_iff; intros x;
    rewrite ?andb_True, ?bool_decide_spec; tauto.
Qed.

(** C8: every stats report carries the same number in [ai_insights] and
    in [searches_this_week]; when the queries succeed it is the number of
    the owner's search-log rows of the last seven days. *)
Theorem ai_insights_is_searches_this_week (user_id : string) (w : World) :
  ∃ s w', get_user_stats user_id w = (Ok s, w') ∧
          ai_insights s = searches_this_week s ∧
          ((∀ k, fails w k = false) →
           searches_this_week s =
             Z.of_nat (length (filter
               (λ l, sl_user_id l = user_id ∧
                     Is_true (timestamp_leb
                                (isoformat (clock w - 7 * microseconds_per_day))
                                (sl_created_at l)))
               (search_logs w)))).
Proof.
  destruct (get_user_stats_run user_id w) as [w' Hrun].
  eexists _, w'. split; [exact Hrun|]. split.
  - by destruct (_ || _).
  - intros Hok. rewrite !(Hok _). cbn [orb searches_this_week].
    do 2 f_equal. apply list_filter_iff. intros l.
    rewrite andb_True, bool_decide_spec. tauto.
Qed.

(** C5, as the code has it: the stats operation never signals an error;
    a failure of the weekly search count or of the streak query puts zero
    in that field alone (the search count feeds both [searches_this_week]
    and [ai_insights]) while the other fields are computed; a failure of
    any of the three note counts yields the all-zero report; so does a
    total outage. *)
Theorem get_user_stats_never_fails (user_id : string) (w : World) :
  let b := length (calls w) in
  ∃ s w',
    get_user_stats user_id w = (Ok s, w') ∧
    (fails w b = true ∨ fails w (S b) = true ∨ fails w (S (S b)) = true →
       s = zero_stats) ∧
    (fails w b = false → fails w (S b) = false → fails w (S (S b)) = false →
       total_notes s = total_notes (computed_stats user_id w) ∧
       favorites_count s = favorites_count (computed_stats user_id w) ∧
       archived_count s = archived_count (computed_stats user_id w) ∧
       searches_this_week s =
         (if fails w (S (S (S b))) then 0
          else searches_this_week (computed_stats user_id w)) ∧
       ai_insights s =
         (if fails w (S (S (S b))) then 0
          else ai_insights (computed_stats user_id w)) ∧
       streak s =
         (if fails w (S (S (S (S b)))) then 0
          else streak (computed_stats user_id w))) ∧
    ((∀ k, fails w k = true) → s = zero_stats).
Proof.
  intros b. destruct (get_user_stats_run user_id w) as [w' Hrun]. fold b in Hrun.
  eexists _, w'. split; [exact Hrun|].
  rewrite computed_stats_counts. cbv zeta. split; [|split].
  - intros [-> | [-> | ->]]; rewrite ?orb_true_r; done.
  - intros -> -> ->. cbn [orb total_notes favorites_count archived_count
                          searches_this_week ai_insights streak].
    repeat split; by destruct (fails w _).
  - intros Hall. by rewrite (Hall b).
Qed.

(** *** Listing *)

Lemma notes_select_or_run query or_text w :
  notes_select_or query or_text w =
  let w' := set_calls (SupabaseExecute "notes" :: calls w) w in
  if fails w (length (calls w)) then (Raise upstream_failure, w')
  else match or_group or_text with
       | Ok group => (Ok (filter (λ n, Is_true (query n && group n)) (notes w)), w')
       | Raise e => (Raise e, w')
       end.
Proof.
  unfold notes_select_or, bind, lift. rewrite outbound_run.
  destruct (fails w _); [done|]. cbn. by destruct (or_group or_text).
Qed.

Lemma get_notes_ok user_id filter_type search limit offset w l w' :
  get_notes user_id filter_type search limit offset w = (Ok l, w') →
  ∃ group,
    or_group (or_param search) = Ok group ∧
    l = take (Z.to_nat limit)
          (drop (Z.to_nat offset)
             (order_created_at_desc
                (filter (λ n, Is_true (notes_query user_id filter_type n && group n))
                   (notes w)))).
Proof.
  unfold get_notes, except_500, try_except, bind, lift.
  rewrite notes_select_or_run. destruct (fails w _); [done|].
  destruct (or_group (or_param search)) as [group|e]; [|done].
  unfold range_rows. case_bool_decide; [done|].
  cbn. intros [= <- _]. exists group. split; [done|].
  by replace (offset + limit - 1 - offset + 1) with limit by lia.
Qed.

Lemma or_group_unsearched search :
  search = None ∨ search = Some EmptyString →
  or_group (or_param search) = Ok (λ _, true).
Proof. by intros [-> | ->]. Qed.

Lemma get_notes_run user_id filter_type search limit offset w :
  fails w (length (calls w)) = false → 0 ≤ offset → 0 ≤ limit →
  search = None ∨ search = Some EmptyString →
  ∃ l w', get_notes user_id filter_type search limit offset w = (Ok l, w').
Proof.
  intros Hok Hoff Hlim Hsearch. unfold get_notes, except_500, try_except, bind, lift.
  rewrite notes_select_or_run, Hok, (or_group_unsearched _ Hsearch). unfold range_rows.
  rewrite bool_decide_eq_false_2 by lia. cbn. eauto.
Qed.

Lemma elem_of_page (limit offset : nat) (q : Note → bool) (rows : list Note) (n : Note) :
  n ∈ take limit (drop offset (order_created_at_desc (filter (λ x, Is_true (q x)) rows))) →
  n ∈ rows ∧ q n = true.
Proof.
  intros Hn. apply subseteq_take, subseteq_drop in Hn.
  unfold order_created_at_desc in Hn. rewrite merge_sort_Permutation in Hn.
  apply list_elem_of_filter in Hn as [Hq Hn]. split; [done|].
  by apply Is_true_true.
Qed.

(** Whatever the search text, a listed row is a stored row that passes
    the equality filters. *)
Lemma elem_of_listing user_id filter_type search limit offset w l w' n :
  get_notes user_id filter_type search limit offset w = (Ok l, w') →
  n ∈ l → n ∈ notes w ∧ notes_query user_id filter_type n = true.
Proof.
  intros Hrun Hn. apply get_notes_ok in Hrun as (group & _ & ->).
  apply elem_of_page in Hn as [Hn Hq]. split; [done|].
  by apply andb_prop in Hq as [Hq _].
Qed.

(** A page that starts at 0 and is long enough holds every selected row. *)
Lemma get_notes_full_page user_id filter_type search limit w :
  fails w (length (calls w)) = false →
  search = None ∨ search = Some EmptyString →
  Z.of_nat (length (filter (λ n, Is_true (notes_query user_id filter_type n))
                      (notes w))) ≤ limit →
  ∃ l w', get_notes user_id filter_type search limit 0 w = (Ok l, w') ∧
          l ≡ₚ filter (λ n, Is_true (notes_query user_id filter_type n)) (notes w).
Proof.
  intros Hok Hsearch Hlen.
  destruct (get_notes_run user_id filter_type search limit 0 w Hok) as (l & w' & Hrun);
    [lia|lia|done|].
  exists l, w'. split; [exact Hrun|].
  apply get_notes_ok in Hrun as (group & Hgroup & ->).
  rewrite (or_group_unsearched _ Hsearch) in Hgroup. injection Hgroup as <-.
  assert (Hsame : filter (λ n, Is_true (notes_query user_id filter_type n && true)) (notes w)
                  = filter (λ n, Is_true (notes_query user_id filter_type n)) (notes w)).
  { apply list_filter_iff. intros n. by rewrite andb_true_r. }
  rewrite Hsame. change (Z.to_nat 0) with 0%nat. rewrite drop_0, take_ge.
  - apply merge_sort_Permutation.
  - unfold order_created_at_desc. rewrite merge_sort_Permutation. lia.
Qed.

Lemma notes_query_trash user_id n :
  notes_query user_id "trash" n = eq_user_id user_id n && eq_is_deleted true n.
Proof. reflexivity. Qed.

Lemma notes_query_all user_id n :
  notes_query user_id "all" n
  = eq_user_id user_id n && eq_is_deleted false n && eq_is_archived false n.
Proof. reflexivity. Qed.

(** C6, as the code has it: a trash listing contains only notes of the
    owner with deleted=true, whatever their favorite and archived flags,
    and it is exactly the owner's deleted notes when no search text is
    given and the page starts at 0 and is long enough.  A listing with
    filter "all" contains only notes with deleted=false and
    archived=false. *)
Theorem get_notes_trash_and_all (user_id : string) (search : option string)
    (limit offset : Z) (w : World) :
  (∀ l w', get_notes user_id "trash" search limit offset w = (Ok l, w') →
     ∀ n, n ∈ l → n ∈ notes w ∧ n_user_id n = user_id ∧ n_is_deleted n = true) ∧
  (fails w (length (calls w)) = false →
   search = None ∨ search = Some EmptyString →
   offset = 0 →
   Z.of_nat (length (filter (λ n, n_user_id n = user_id ∧ n_is_deleted n = true)
                       (notes w))) ≤ limit →
   ∃ l w', get_notes user_id "trash" search limit offset w = (Ok l, w') ∧
           l ≡ₚ filter (λ n, n_user_id n = user_id ∧ n_is_deleted n = true) (notes w)) ∧
  (∀ l w', get_notes user_id "all" search limit offset w = (Ok l, w') →
     ∀ n, n ∈ l → n ∈ notes w ∧ n_user_id n = user_id ∧
                  n_is_deleted n = false ∧ n_is_archived n = false).
Proof.
  split; [|split].
  - intros l w' Hrun n Hn.
    destruct (elem_of_listing _ _ _ _ _ _ _ _ _ Hrun Hn) as [Hin Hq].
    rewrite notes_query_trash in Hq. apply andb_prop in Hq as [Hu Hd].
    apply bool_decide_eq_true in Hu, Hd. done.
  - intros Hok Hsearch -> Hlen.
    assert (Hsame : filter (λ n, Is_true (notes_query user_id "trash" n)) (notes w)
                    = filter (λ n, n_user_id n = user_id ∧ n_is_deleted n = true)
                        (notes w)).
    { apply list_filter_iff. intros n. rewrite notes_query_trash.
      unfold eq_user_id, eq_is_deleted. by rewrite andb_True, !bool_decide_spec. }
    destruct (get_notes_full_page user_id "trash" search limit w Hok Hsearch)
      as (l & w' & Hrun & Hperm); [by rewrite Hsame|].
    exists l, w'. split; [exact Hrun|]. by rewrite Hperm, Hsame.
  - intros l w' Hrun n Hn.
    destruct (elem_of_listing _ _ _ _ _ _ _ _ _ Hrun Hn) as [Hin Hq].
    rewrite notes_query_all in Hq.
    apply andb_prop in Hq as [Hq Ha]. apply andb_prop in Hq as [Hu Hd].
    apply bool_decide_eq_true in Hu, Hd, Ha. done.
Qed.

End BackendProperties.

(** * Further properties of the code *)

(** ** Streak calculator: bounds and order of the records *)

Section StreakBounds.
Context `{Collaborators}.

Lemma spec_run_le_length (l : list date) : spec_run l ≤ Z.of_nat (length l).
Proof.
  induction l as [|a [|b l] IH]; [simpl; lia|simpl; lia|].
  rewrite spec_run_cons. cbn [length] in *. case_bool_decide; lia.
Qed.

Lemma size_collect_dates (activities : list (gmap string pyvalue)) (dates : gset date) :
  (size (collect_dates activities dates)
   ≤ size dates + length (filter (λ a, Is_true (parses a)) activities))%nat.
Proof.
  revert dates. induction activities as [|a rest IH]; intros dates; [simpl; lia|].
  rewrite filter_cons. cbn [collect_dates].
  destruct (decide (Is_true (parses a))) as [Hp|Hp]; unfold parses in Hp;
    destruct (activity_date a) as [d|e];
    try (by destruct Hp); try (by exfalso; apply Hp); try apply IH.
  cbn [length].
  - specialize (IH (dates ∪ {[ d ]})).
    assert (size (dates ∪ {[ d ]}) ≤ size dates + 1)%nat.
    { rewrite size_union_alt.
      assert (size (({[ d ]} : gset date) ∖ dates) ≤ size ({[ d ]} : gset date))%nat
        by (apply subseteq_size; intros x Hx; by apply elem_of_difference in Hx as [Hx _]).
      rewrite size_singleton in *. lia. }
    lia.
Qed.

Lemma length_sorted_reverse (dates : gset date) :
  length (sorted_reverse dates) = size dates.
Proof. unfold sorted_reverse. by rewrite merge_sort_Permutation. Qed.

Lemma spec_streak_bounds (activities : list (gmap string pyvalue)) :
  let k := spec_streak (collect_dates activities ∅) in
  0 ≤ k ≤ Z.of_nat (length (filter (λ a, Is_true (parses a)) activities)) ∧
  (k = 0 ↔ ∀ a, a ∈ activities → ¬ Is_true (parses a)).
Proof.
  intros k. unfold k. clear k.
  set (dates := collect_dates activities ∅).
  assert (Hempty : dates = ∅ ↔ ∀ a, a ∈ activities → ¬ Is_true (parses a)).
  { split.
    - intros He a Ha Hp. unfold parses in Hp.
      destruct (activity_date a) as [d|e] eqn:Ea; [|done].
      assert (d ∈ dates) as Hd.
      { apply elem_of_collect_dates. right. eauto. }
      rewrite He in Hd. by apply not_elem_of_empty in Hd.
    - intros Hnone. apply set_eq. intros d. unfold dates.
      rewrite elem_of_collect_dates. split.
      + intros [Hd|(a & Ha & Ea)]; [done|].
        exfalso. apply (Hnone a Ha). unfold parses. by rewrite Ea.
      + intros Hd. by apply not_elem_of_empty in Hd. }
  unfold spec_streak. case_bool_decide as He.
  - split; [lia|]. split; [intros _; by apply Hempty|done].
  - pose proof (spec_run_le_length (sorted_reverse dates)) as Hle.
    pose proof (size_collect_dates activities ∅) as Hsize. fold dates in Hsize.
    rewrite size_empty in Hsize. rewrite length_sorted_reverse in Hle.
    destruct (sorted_reverse dates) as [|x l] eqn:El.
    { by apply sorted_reverse_nil in El. }
    pose proof (spec_run_pos x l) as Hpos.
    split; [lia|]. split; [lia|]. intros Hnone. by apply Hempty in Hnone.
Qed.

(** X1: the streak is at least 0 and at most the number of records whose
    timestamp parses; it is 0 exactly when no record parses. *)
Theorem calculate_streak_bounds (activities : list (gmap string pyvalue)) :
  ∃ k, calculate_streak activities = Ok k ∧
       0 ≤ k ≤ Z.of_nat (length (filter (λ a, Is_true (parses a)) activities)) ∧
       (k = 0 ↔ ∀ a, a ∈ activities → ¬ Is_true (parses a)).
Proof.
  exists (spec_streak (collect_dates activities ∅)).
  split; [apply calculate_streak_unfold|]. apply spec_streak_bounds.
Qed.

(** X2: the order of the activity records does not matter. *)
Theorem calculate_streak_permutation (activities activities' : list (gmap string pyvalue)) :
  activities ≡ₚ activities' →
  calculate_streak activities = calculate_streak activities'.
Proof.
  intros Hperm. rewrite !calculate_streak_unfold. do 2 f_equal.
  apply set_eq. intros d. rewrite !elem_of_collect_dates.
  split; intros [Hd|(a & Ha & Ea)]; [by left| |by left|]; right; exists a.
  - by rewrite <- Hperm.
  - by rewrite Hperm.
Qed.

End StreakBounds.

(** ** Notes handlers: what a request can touch *)

Section Ownership.
Context `{Collaborators}.

Lemma eq_id_user_id_owner note_id user_id n :
  eq_id_user_id note_id user_id n = true → n_id n = note_id ∧ n_user_id n = user_id.
Proof.
  unfold eq_id_user_id, eq_id, eq_user_id. intros Hq.
  apply andb_prop in Hq as [Hi Hu]. by apply bool_decide_eq_true in Hi, Hu.
Qed.

Lemma in_trash_of_owner user_id n :
  in_trash_of user_id n = true → n_user_id n = user_id ∧ n_is_deleted n = true.
Proof.
  unfold in_trash_of, eq_user_id, eq_is_deleted. intros Hq.
  apply andb_prop in Hq as [Hu Hd]. by apply bool_decide_eq_true in Hu, Hd.
Qed.

(** Rows of other owners survive an update or a delete whose filter
    includes the owner. *)
Lemma others_after_update user_id (q : Note → bool) data (rows : list Note) :
  (∀ n, q n = true → n_user_id n = user_id) →
  filter (λ n, n_user_id n ≠ user_id)
    ((λ n, if q n then set_columns data n else n) <$> rows)
  = filter (λ n, n_user_id n ≠ user_id) rows.
Proof.
  intros Hq. induction rows as [|n rows IH]; [done|].
  rewrite fmap_cons. destruct (q n) eqn:Hn.
  - rewrite !filter_cons_False; [done| |]; intros Hne; apply Hne.
    + by apply Hq.
    + change (n_user_id n = user_id). by apply Hq.
  - rewrite !filter_cons. by rewrite IH.
Qed.

Lemma others_after_delete user_id (q : Note → bool) (rows : list Note) :
  (∀ n, q n = true → n_user_id n = user_id) →
  filter (λ n, n_user_id n ≠ user_id) (filter (λ n, ¬ Is_true (q n)) rows)
  = filter (λ n, n_user_id n ≠ user_id) rows.
Proof.
  intros Hq. induction rows as [|n rows IH]; [done|].
  destruct (q n) eqn:Hn.
  - rewrite (filter_cons_False (λ n, ¬ Is_true (q n))) by (rewrite Hn; simpl; tauto).
    rewrite (filter_cons_False (λ n, n_user_id n ≠ user_id)); [done|].
    intros Hne. apply Hne. by apply Hq.
  - rewrite (filter_cons_True (λ n, ¬ Is_true (q n))) by (rewrite Hn; simpl; tauto).
    rewrite !filter_cons. by rewrite IH.
Qed.

Ltac other_rows :=
  cbn [notes set_notes set_calls set_pinecone_index set_search_logs snd];
  first
    [ reflexivity
    | apply others_after_update; intros ? Hq;
      first [ by apply eq_id_user_id_owner in Hq as [_ ?]
            | by apply in_trash_of_owner in Hq as [? _] ]
    | apply others_after_delete; intros ? Hq;
      first [ by apply eq_id_user_id_owner in Hq as [_ ?]
            | by apply in_trash_of_owner in Hq as [? _] ] ].

(** X3: whatever the collaborators do, no request that writes to a note
    (update, soft or hard delete, restore, toggle favorite, toggle
    archive, empty trash) changes or removes a row of another owner. *)
Theorem writes_leave_other_owners_rows (note_id user_id : string) (w : World) :
  let others := λ w' : World, filter (λ n, n_user_id n ≠ user_id) (notes w') in
  (∀ update, others (update_note note_id user_id update w).2 = others w) ∧
  (∀ permanent, others (delete_note note_id user_id permanent w).2 = others w) ∧
  others (restore_note note_id user_id w).2 = others w ∧
  others (toggle_favorite note_id user_id w).2 = others w ∧
  others (toggle_archive note_id user_id w).2 = others w ∧
  others (empty_trash user_id w).2 = others w.
Proof.
  intros others. unfold others. repeat split.
  - intros update. unfold update_note, except_500, try_except, bind, utcnow, raise, ret.
    rewrite notes_update_run. destruct (fails w _); [other_rows|].
    destruct (filter _ (notes w)) as [|n rest]; [other_rows|]. rewrite fmap_cons.
    case_bool_decide; [|other_rows].
    rewrite generate_embedding_run. destruct (fails _ _); [other_rows|].
    rewrite pinecone_upsert_run. destruct (fails _ _); other_rows.
  - intros permanent.
    unfold delete_note, except_500, try_except, bind, utcnow, raise, ret.
    destruct permanent.
    + rewrite notes_delete_run. destruct (fails w _); [other_rows|].
      rewrite pinecone_delete_run. destruct (fails _ _); other_rows.
    + rewrite notes_update_run. destruct (fails w _); other_rows.
  - unfold restore_note, except_500, try_except, bind, utcnow, raise, ret.
    rewrite notes_update_run. destruct (fails w _); [other_rows|].
    destruct (filter _ (notes w)) as [|n rest]; other_rows.
  - unfold toggle_favorite, except_500, try_except, bind, utcnow, raise, ret.
    rewrite notes_select_run. destruct (fails w _); [other_rows|].
    destruct (filter _ (notes w)) as [|n [|n' rest]]; cbn [single raise ret];
      [other_rows| |other_rows].
    rewrite notes_update_run. destruct (fails _ _); other_rows.
  - unfold toggle_archive, except_500, try_except, bind, utcnow, raise, ret.
    rewrite notes_select_run. destruct (fails w _); [other_rows|].
    destruct (filter _ (notes w)) as [|n [|n' rest]]; cbn [single raise ret];
      [other_rows| |other_rows].
    rewrite notes_update_run. destruct (fails _ _); other_rows.
  - unfold empty_trash, except_500, try_except, bind, raise, ret.
    rewrite notes_select_run. destruct (fails w _); [other_rows|].
    destruct (filter _ (notes w)) as [|n rest]; [other_rows|].
    rewrite pinecone_delete_run.
    destruct (fails _ _); rewrite notes_delete_run; destruct (fails _ _); other_rows.
Qed.

End Ownership.

(** ** Notes handlers: life cycle of a note *)

Section Lifecycle.
Context `{Collaborators}.

Lemma notes_insert_run row w :
  notes_insert row w =
  if fails w (length (calls w))
  then (Raise upstream_failure, set_calls (SupabaseExecute "notes" :: calls w) w)
  else (Ok tt,
        set_notes (notes w ++ [row])
          (set_calls (SupabaseExecute "notes" :: calls w) w)).
Proof.
  unfold notes_insert, bind. rewrite outbound_run. by destruct (fails w _).
Qed.

Lemma toggle_archive_run note_id user_id w n :
  fails w (length (calls w)) = false →
  fails w (S (length (calls w))) = false →
  filter (λ x, Is_true (eq_id_user_id note_id user_id x)) (notes w) = [n] →
  toggle_archive note_id user_id w =
  (Ok {[ "status" := PStr "success"; "is_archived" := PBool (negb (n_is_archived n)) ]},
   set_notes
     ((λ x, if eq_id_user_id note_id user_id x
            then set_columns {[ "is_archived" := PBool (negb (n_is_archived n));
                                "updated_at" := PStr (isoformat (clock w)) ]} x
            else x) <$> notes w)
     (set_calls (SupabaseExecute "notes" :: SupabaseExecute "notes" :: calls w) w)).
Proof.
  intros Hok1 Hok2 Hsel. unfold toggle_archive, except_500, try_except, bind, utcnow.
  rewrite notes_select_run, Hok1, Hsel. cbn [single ret].
  rewrite notes_update_run. cbn [fails calls set_calls length]. rewrite Hok2.
  reflexivity.
Qed.

(** Selecting again after an in-place update of the selected rows. *)
Lemma reselect note_id user_id data (rows : list Note) :
  filter (λ x, Is_true (eq_id_user_id note_id user_id x))
    ((λ x, if eq_id_user_id note_id user_id x then set_columns data x else x) <$> rows)
  = set_columns data <$> filter (λ x, Is_true (eq_id_user_id note_id user_id x)) rows.
Proof.
  apply (filter_update (eq_id_user_id note_id user_id) (set_columns data)).
  intros x. apply set_columns_keeps_selection.
Qed.

Lemma unselected_kept (q : Note → bool) (f : Note → Note) (rows : list Note) i x :
  rows !! i = Some x → q x = false →
  ((λ x, if q x then f x else x) <$> rows) !! i = Some x.
Proof. intros Hx Hq. by rewrite (update_lookup q f rows i x Hx), Hq. Qed.

(** X4: toggling the archive flag of an existing note stores the negated
    flag and the current time, and nothing else of the note; a second
    toggle answers the original flag again. *)
Theorem toggle_archive_flips (note_id user_id : string) (w : World) (n : Note) (t : Z) :
  (∀ k, fails w k = false) →
  filter (λ x, Is_true (eq_id_user_id note_id user_id x)) (notes w) = [n] →
  ∃ r1 w1 r2 w2,
    toggle_archive note_id user_id w = (Ok r1, w1) ∧
    r1 !! "is_archived" = Some (PBool (negb (n_is_archived n))) ∧
    filter (λ x, Is_true (eq_id_user_id note_id user_id x)) (notes w1)
      = [mkNote (n_id n) (n_user_id n) (n_title n) (n_content n) (n_tags n)
           (n_is_favorite n) (negb (n_is_archived n)) (n_is_deleted n)
           (n_created_at n) (isoformat (clock w))] ∧
    (∀ i x, notes w !! i = Some x → eq_id_user_id note_id user_id x = false →
            notes w1 !! i = Some x) ∧
    toggle_archive note_id user_id (at_time t w1) = (Ok r2, w2) ∧
    r2 !! "is_archived" = Some (PBool (n_is_archived n)) ∧
    filter (λ x, Is_true (eq_id_user_id note_id user_id x)) (notes w2)
      = [mkNote (n_id n) (n_user_id n) (n_title n) (n_content n) (n_tags n)
           (n_is_favorite n) (n_is_archived n) (n_is_deleted n)
           (n_created_at n) (isoformat t)].
Proof.
  intros Hok Hsel.
  pose proof (toggle_archive_run note_id user_id w n (Hok _) (Hok _) Hsel) as Hrun1.
  match type of Hrun1 with _ = (_, ?x) => set (w1 := x) in * end.
  assert (Hsel1 : filter (λ x, Is_true (eq_id_user_id note_id user_id x)) (notes w1)
      = [mkNote (n_id n) (n_user_id n) (n_title n) (n_content n) (n_tags n)
           (n_is_favorite n) (negb (n_is_archived n)) (n_is_deleted n)
           (n_created_at n) (isoformat (clock w))]).
  { unfold w1. cbn [notes set_notes]. by rewrite reselect, Hsel. }
  pose proof (toggle_archive_run note_id user_id (at_time t w1) _
                (Hok _) (Hok _) Hsel1) as Hrun2.
  match type of Hrun2 with _ = (_, ?x) => set (w2 := x) in * end.
  eexists _, w1, _, w2. split; [exact Hrun1|]. split; [reflexivity|].
  split; [exact Hsel1|]. split; [|split; [exact Hrun2|split]].
  - intros i x Hx Hq. unfold w1. cbn [notes set_notes]. by apply unselected_kept.
  - cbn [n_is_archived]. by rewrite negb_involutive.
  - unfold w2. cbn [notes set_notes at_time]. rewrite reselect, Hsel1.
    cbn. by rewrite negb_involutive.
Qed.

(** X5: a soft delete followed by a restore leaves the note with
    deleted=false and the time of the restore as its last modification;
    every other field, and every other row, is as before the delete. *)
Theorem soft_delete_then_restore (note_id user_id : string) (w : World) (n : Note)
    (t : Z) :
  (∀ k, fails w k = false) →
  filter (λ x, Is_true (eq_id_user_id note_id user_id x)) (notes w) = [n] →
  ∃ r1 w1 r2 w2,
    delete_note note_id user_id false w = (Ok r1, w1) ∧
    filter (λ x, Is_true (eq_id_user_id note_id user_id x)) (notes w1)
      = [mkNote (n_id n) (n_user_id n) (n_title n) (n_content n) (n_tags n)
           (n_is_favorite n) (n_is_archived n) true
           (n_created_at n) (isoformat (clock w))] ∧
    restore_note note_id user_id (at_time t w1) = (Ok r2, w2) ∧
    r2 = {[ "status" := PStr "restored"; "note_id" := PStr note_id ]} ∧
    filter (λ x, Is_true (eq_id_user_id note_id user_id x)) (notes w2)
      = [mkNote (n_id n) (n_user_id n) (n_title n) (n_content n) (n_tags n)
           (n_is_favorite n) (n_is_archived n) false
           (n_created_at n) (isoformat t)] ∧
    (∀ i x, notes w !! i = Some x → eq_id_user_id note_id user_id x = false →
            notes w2 !! i = Some x) ∧
    pinecone_index w2 = pinecone_index w.
Proof.
  intros Hok Hsel.
  assert (Hrun1 : ∃ w1, delete_note note_id user_id false w
       = (Ok {[ "status" := PStr "moved_to_trash"; "note_id" := PStr note_id ]}, w1) ∧
     notes w1 = (λ x, if eq_id_user_id note_id user_id x
                      then set_columns {[ "is_deleted" := PBool true;
                                          "updated_at" := PStr (isoformat (clock w)) ]} x
                      else x) <$> notes w ∧
     (∀ k, fails w1 k = false) ∧ pinecone_index w1 = pinecone_index w).
  { unfold delete_note, except_500, try_except, bind, utcnow.
    rewrite notes_update_run, (Hok _). eexists. split; [reflexivity|]. by repeat split. }
  destruct Hrun1 as (w1 & Hrun1 & Hnotes1 & Hok1 & Hix1).
  assert (Hsel1 : filter (λ x, Is_true (eq_id_user_id note_id user_id x)) (notes w1)
      = [mkNote (n_id n) (n_user_id n) (n_title n) (n_content n) (n_tags n)
           (n_is_favorite n) (n_is_archived n) true
           (n_created_at n) (isoformat (clock w))]).
  { by rewrite Hnotes1, reselect, Hsel. }
  assert (Hrun2 : ∃ w2, restore_note note_id user_id (at_time t w1)
       = (Ok {[ "status" := PStr "restored"; "note_id" := PStr note_id ]}, w2) ∧
     notes w2 = (λ x, if eq_id_user_id note_id user_id x
                      then set_columns {[ "is_deleted" := PBool false;
                                          "updated_at" := PStr (isoformat t) ]} x
                      else x) <$> notes w1 ∧
     pinecone_index w2 = pinecone_index w1).
  { unfold restore_note, except_500, try_except, bind, utcnow.
    rewrite notes_update_run. cbn [fails at_time calls notes clock].
    rewrite (Hok1 _), Hsel1. eexists. split; [reflexivity|]. by split. }
  destruct Hrun2 as (w2 & Hrun2 & Hnotes2 & Hix2).
  eexists _, w1, _, w2. split; [exact Hrun1|]. split; [exact Hsel1|].
  split; [exact Hrun2|]. split; [reflexivity|]. split; [|split].
  - by rewrite Hnotes2, reselect, Hsel1.
  - intros i x Hx Hq. rewrite Hnotes2, Hnotes1.
    apply unselected_kept; [|done]. by apply unselected_kept.
  - by rewrite Hix2, Hix1.
Qed.

End Lifecycle.

(** ** Notes handlers: deleting *)

Section Deleting.
Context `{Collaborators}.

Lemma notes_query_favorites user_id n :
  notes_query user_id "favorites" n
  = eq_user_id user_id n && eq_is_favorite true n && eq_is_deleted false n.
Proof. reflexivity. Qed.

Lemma notes_query_archived user_id n :
  notes_query user_id "archived" n
  = eq_user_id user_id n && eq_is_archived true n && eq_is_deleted false n.
Proof. reflexivity. Qed.

(** X6: after a soft delete the note is on no page of the listings "all",
    "favorites" and "archived", and it is in the trash listing (taken
    from offset 0 with a limit covering the trash). *)
Theorem soft_delete_moves_note_to_trash (note_id user_id : string) (w : World) (n : Note) :
  (∀ k, fails w k = false) →
  filter (λ x, Is_true (eq_id_user_id note_id user_id x)) (notes w) = [n] →
  ∃ r w1,
    delete_note note_id user_id false w = (Ok r, w1) ∧
    (∀ filter_type search limit offset l w2,
       filter_type = "all" ∨ filter_type = "favorites" ∨ filter_type = "archived" →
       get_notes user_id filter_type search limit offset w1 = (Ok l, w2) →
       ∀ x, x ∈ l → n_id x ≠ note_id) ∧
    (∀ limit,
       Z.of_nat (length (filter (λ x, n_user_id x = user_id ∧ n_is_deleted x = true)
                           (notes w1))) ≤ limit →
       ∃ l w2 x, get_notes user_id "trash" None limit 0 w1 = (Ok l, w2) ∧
                 x ∈ l ∧ n_id x = note_id ∧ n_is_deleted x = true ∧
                 n_title x = n_title n ∧ n_content x = n_content n).
Proof.
  intros Hok Hsel.
  set (data := ({[ "is_deleted" := PBool true;
                   "updated_at" := PStr (isoformat (clock w)) ]} : gmap string pyvalue)).
  assert (Hrun : ∃ w1, delete_note note_id user_id false w
       = (Ok {[ "status" := PStr "moved_to_trash"; "note_id" := PStr note_id ]}, w1) ∧
     notes w1 = (λ x, if eq_id_user_id note_id user_id x then set_columns data x else x)
                  <$> notes w ∧
     (∀ k, fails w1 k = false)).
  { unfold delete_note, except_500, try_except, bind, utcnow.
    rewrite notes_update_run, (Hok _). eexists. split; [reflexivity|]. by split. }
  destruct Hrun as (w1 & Hrun & Hnotes1 & Hok1).
  assert (Hsel1 : filter (λ x, Is_true (eq_id_user_id note_id user_id x)) (notes w1)
                  = [set_columns data n]) by (by rewrite Hnotes1, reselect, Hsel).
  assert (Hin1 : set_columns data n ∈ notes w1).
  { assert (set_columns data n
            ∈ filter (λ x, Is_true (eq_id_user_id note_id user_id x)) (notes w1)) as Hin
      by (rewrite Hsel1; left).
    by apply list_elem_of_filter in Hin as [_ Hin]. }
  destruct (eq_id_user_id_owner note_id user_id (set_columns data n)) as [Hid Howner].
  { assert (set_columns data n
            ∈ filter (λ x, Is_true (eq_id_user_id note_id user_id x)) (notes w1)) as Hin
      by (rewrite Hsel1; left).
    apply list_elem_of_filter in Hin as [Hq _]. by apply Is_true_true. }
  eexists _, w1. split; [exact Hrun|]. split.
  - intros filter_type search limit offset l w2 Hft Hlist x Hx Hidx.
    destruct (elem_of_listing _ _ _ _ _ _ _ _ _ Hlist Hx) as [Hin Hq].
    assert (n_user_id x = user_id ∧ n_is_deleted x = false) as [Hu Hd].
    { destruct Hft as [-> | [-> | ->]];
        rewrite ?notes_query_all, ?notes_query_favorites, ?notes_query_archived in Hq;
        repeat (apply andb_prop in Hq as [Hq ?]);
        unfold eq_user_id, eq_is_deleted in *;
        repeat match goal with
               | Hb : bool_decide _ = true |- _ => apply bool_decide_eq_true in Hb
               end; done. }
    assert (x ∈ [set_columns data n]) as Hsame.
    { rewrite <- Hsel1. apply list_elem_of_filter. split; [|done].
      unfold eq_id_user_id, eq_id, eq_user_id.
      by rewrite !bool_decide_eq_true_2. }
    apply list_elem_of_singleton in Hsame as ->. cbn in Hd. discriminate.
  - intros limit Hlen.
    assert (Hsame : filter (λ x, Is_true (notes_query user_id "trash" x)) (notes w1)
                    = filter (λ x, n_user_id x = user_id ∧ n_is_deleted x = true)
                        (notes w1)).
    { apply list_filter_iff. intros x. rewrite notes_query_trash.
      unfold eq_user_id, eq_is_deleted. by rewrite andb_True, !bool_decide_spec. }
    destruct (get_notes_full_page user_id "trash" None limit w1 (Hok1 _))
      as (l & w2 & Hlist & Hperm); [by left|by rewrite Hsame|].
    exists l, w2, (set_columns data n). split; [exact Hlist|].
    split; [|by repeat split].
    rewrite Hperm, Hsame. apply list_elem_of_filter. by repeat split.
Qed.

Lemma delete_note_hard_run note_id user_id w :
  fails w (length (calls w)) = false →
  let kept := filter (λ x, ¬ Is_true (eq_id_user_id note_id user_id x)) (notes w) in
  let stored := set_notes kept (set_calls (SupabaseExecute "notes" :: calls w) w) in
  delete_note note_id user_id true w =
  (Ok {[ "status" := PStr "permanently_deleted"; "note_id" := PStr note_id ]},
   if fails w (S (length (calls w)))
   then set_calls (PineconeDelete [note_id] :: calls stored) stored
   else set_pinecone_index (delete note_id (pinecone_index w))
          (set_calls (PineconeDelete [note_id] :: calls stored) stored)).
Proof.
  intros Hok kept stored. unfold delete_note, except_500, try_except, bind.
  rewrite notes_delete_run, Hok, pinecone_delete_run.
  cbn [fails calls set_notes set_calls length].
  by destruct (fails w (S (length (calls w)))).
Qed.

(** X7: a hard delete removes the matching rows and answers success
    whether the vector delete works or fails; the vector entry goes only
    when that call works. *)
Theorem hard_delete_is_best_effort (note_id user_id : string) (w : World) :
  fails w (length (calls w)) = false →
  ∃ w',
    delete_note note_id user_id true w
      = (Ok {[ "status" := PStr "permanently_deleted"; "note_id" := PStr note_id ]}, w') ∧
    notes w' = filter (λ x, ¬ Is_true (eq_id_user_id note_id user_id x)) (notes w) ∧
    (∀ x, x ∈ notes w' → ¬ (n_id x = note_id ∧ n_user_id x = user_id)) ∧
    (fails w (S (length (calls w))) = false →
       pinecone_index w' = delete note_id (pinecone_index w)) ∧
    (fails w (S (length (calls w))) = true →
       pinecone_index w' = pinecone_index w).
Proof.
  intros Hok. pose proof (delete_note_hard_run note_id user_id w Hok) as Hrun.
  cbv zeta in Hrun. eexists. split; [exact Hrun|].
  destruct (fails w (S (length (calls w)))).
  all: split; [reflexivity|]; split; [|by split].
  all: cbn [notes set_notes set_calls set_pinecone_index]; intros x Hx [Hi Hu].
  all: apply list_elem_of_filter in Hx as [Hq _]; apply Hq.
  all: unfold eq_id_user_id, eq_id, eq_user_id; by rewrite !bool_decide_eq_true_2.
Qed.

(** X8: the vector delete of a hard delete is by id alone: asked with the
    id of a note that belongs to someone else, it leaves that row in the
    store and removes its entry from the index. *)
Theorem hard_delete_drops_vector_of_unowned_note (note_id user_id : string) (w : World)
    (n : Note) :
  fails w (length (calls w)) = false →
  fails w (S (length (calls w))) = false →
  n ∈ notes w → n_id n = note_id → n_user_id n ≠ user_id →
  ∃ r w',
    delete_note note_id user_id true w = (Ok r, w') ∧
    n ∈ notes w' ∧
    pinecone_index w' !! note_id = None.
Proof.
  intros Hok1 Hok2 Hn Hid Howner.
  pose proof (delete_note_hard_run note_id user_id w Hok1) as Hrun.
  cbv zeta in Hrun. rewrite Hok2 in Hrun.
  eexists _, _. split; [exact Hrun|].
  cbn [notes pinecone_index set_notes set_calls set_pinecone_index]. split.
  - apply list_elem_of_filter. split; [|done].
    intros Hq. apply Is_true_true in Hq.
    by apply eq_id_user_id_owner in Hq as [_ Hu].
  - apply lookup_delete_eq.
Qed.

(** X9: emptying the trash answers the number of the owner's deleted
    notes and removes exactly those rows; their vectors go when the vector
    call works; with an empty trash it makes no further call and changes
    nothing; afterwards every trash listing of the owner is empty. *)
Theorem empty_trash_removes_the_owners_trash (user_id : string) (w : World) :
  let trashed := filter (λ x, Is_true (in_trash_of user_id x)) (notes w) in
  fails w (length (calls w)) = false →
  fails w (S (S (length (calls w)))) = false →
  ∃ w',
    empty_trash user_id w
      = (Ok {[ "status" := PStr "success";
               "deleted_count" := PInt (Z.of_nat (length trashed)) ]}, w') ∧
    (∀ x, x ∈ notes w' ↔
          x ∈ notes w ∧ ¬ (n_user_id x = user_id ∧ n_is_deleted x = true)) ∧
    (trashed = [] →
       notes w' = notes w ∧ pinecone_index w' = pinecone_index w ∧
       calls w' = SupabaseExecute "notes" :: calls w) ∧
    (trashed ≠ [] → fails w (S (length (calls w))) = false →
       pinecone_index w' = foldr delete (pinecone_index w) (n_id <$> trashed)) ∧
    (trashed ≠ [] → fails w (S (length (calls w))) = true →
       pinecone_index w' = pinecone_index w) ∧
    (∀ search limit offset l w2,
       get_notes user_id "trash" search limit offset w' = (Ok l, w2) → l = []).
Proof.
  intros trashed Hok1 Hok3.
  assert (Hkept : ∀ x, x ∈ filter (λ x, ¬ Is_true (in_trash_of user_id x)) (notes w) ↔
                       x ∈ notes w ∧ ¬ (n_user_id x = user_id ∧ n_is_deleted x = true)).
  { intros x. rewrite list_elem_of_filter. unfold in_trash_of, eq_user_id, eq_is_deleted.
    rewrite andb_True, !bool_decide_spec. tauto. }
  assert (Hrun : ∃ w',
    empty_trash user_id w
      = (Ok {[ "status" := PStr "success";
               "deleted_count" := PInt (Z.of_nat (length trashed)) ]}, w') ∧
    notes w' = filter (λ x, ¬ Is_true (in_trash_of user_id x)) (notes w) ∧
    (trashed = [] →
       pinecone_index w' = pinecone_index w ∧
       calls w' = SupabaseExecute "notes" :: calls w) ∧
    (trashed ≠ [] → fails w (S (length (calls w))) = false →
       pinecone_index w' = foldr delete (pinecone_index w) (n_id <$> trashed)) ∧
    (trashed ≠ [] → fails w (S (length (calls w))) = true →
       pinecone_index w' = pinecone_index w)).
  { unfold empty_trash, except_500, try_except, bind.
    rewrite notes_select_run, Hok1. fold trashed.
    destruct trashed as [|x rest] eqn:Etr.
    - eexists. split; [reflexivity|]. cbn [ret notes set_calls].
      split; [symmetry; by apply filter_none_complement|]. by repeat split.
    - rewrite pinecone_delete_run. cbn [fails calls set_calls length].
      destruct (fails w (S (length (calls w)))) eqn:Hvec.
      all: cbn [ret]; rewrite notes_delete_run.
      all: cbn [fails calls set_calls set_pinecone_index length]; rewrite Hok3.
      all: eexists; split; [reflexivity|]; split; [reflexivity|]; by repeat split. }
  destruct Hrun as (w' & Hrun & Hnotes & Hnone & Hvec & Hswallow).
  exists w'. split; [exact Hrun|]. split; [|split; [|split; [|split]]].
  - intros x. by rewrite Hnotes.
  - intros He. destruct (Hnone He) as [Hix Hcalls]. split; [|done].
    rewrite Hnotes. by apply filter_none_complement.
  - exact Hvec.
  - exact Hswallow.
  - intros search limit offset l w2 Hlist.
    destruct l as [|x l]; [done|]. exfalso.
    assert (x ∈ x :: l) as Hx by left.
    destruct (elem_of_listing _ _ _ _ _ _ _ _ _ Hlist Hx) as [Hin Hq].
    rewrite notes_query_trash in Hq. apply andb_prop in Hq as [Hu Hd].
    apply bool_decide_eq_true in Hu, Hd.
    rewrite Hnotes in Hin. apply Hkept in Hin as [_ Hin]. by apply Hin.
Qed.

End Deleting.

(** ** Notes handlers: the two stores *)

Section TwoStores.
Context `{Collaborators}.

(** X10: the row is written before the vector.  When a title or content
    is supplied and the embedding or the upsert then fails, the request
    answers 500 although the row is already updated; the index keeps the
    entry of the old text. *)
Theorem update_note_fails_after_the_row_is_written (note_id user_id : string)
    (update : NoteUpdate) (w : World) (n : Note) (rest : list Note) :
  fails w (length (calls w)) = false →
  filter (λ x, Is_true (eq_id_user_id note_id user_id x)) (notes w) = n :: rest →
  u_title update ≠ None ∨ u_content update ≠ None →
  fails w (S (length (calls w))) = true ∨ fails w (S (S (length (calls w)))) = true →
  ∃ w' n',
    update_note note_id user_id update w
      = (Raise (HTTPException 500 "upstream failure"), w') ∧
    head (filter (λ x, Is_true (eq_id_user_id note_id user_id x)) (notes w')) = Some n' ∧
    n_title n' = default (n_title n) (u_title update) ∧
    n_content n' = default (n_content n) (u_content update) ∧
    n_updated_at n' = isoformat (clock w) ∧
    pinecone_index w' = pinecone_index w.
Proof.
  intros Hok Hsel Hsupplied Hfail.
  set (data := build_update_data update (clock w)).
  assert (Hn' : set_columns data n = _) by apply set_columns_update_data.
  assert (Hrun : ∃ w',
    update_note note_id user_id update w
      = (Raise (HTTPException 500 "upstream failure"), w') ∧
    notes w' = (λ x, if eq_id_user_id note_id user_id x then set_columns data x else x)
                 <$> notes w ∧
    pinecone_index w' = pinecone_index w).
  { unfold update_note, except_500, try_except, bind, utcnow.
    rewrite notes_update_run, Hok, Hsel, fmap_cons. fold data.
    rewrite bool_decide_eq_true_2 by tauto.
    rewrite generate_embedding_run. cbn [fails calls set_notes set_calls length].
    destruct (fails w (S (length (calls w)))) eqn:Hembed.
    - eexists. split; [reflexivity|]. by split.
    - destruct Hfail as [Hfail|Hfail]; [done|].
      rewrite pinecone_upsert_run. cbn [fails calls set_notes set_calls length].
      rewrite Hfail. eexists. split; [reflexivity|]. by split. }
  destruct Hrun as (w' & Hrun & Hnotes & Hix).
  exists w', (set_columns data n). split; [exact Hrun|]. split.
  - by rewrite Hnotes, reselect, Hsel.
  - by rewrite Hn'.
Qed.

Lemma create_note_run fresh_id note w :
  let b := length (calls w) in
  let created := created_note fresh_id note w in
  let text := String.append (c_title note) (String.append " " (c_content note)) in
  let indexed :=
    set_pinecone_index
      (<[fresh_id := vector_entry (c_user_id note) created]> (pinecone_index w))
      (set_calls (PineconeUpsert fresh_id :: EmbeddingsCreate text :: calls w) w) in
  create_note fresh_id note w =
  if fails w b
  then (Raise (HTTPException 500 "upstream failure"),
        set_calls (EmbeddingsCreate text :: calls w) w)
  else if fails w (S b)
  then (Raise (HTTPException 500 "upstream failure"),
        set_calls (PineconeUpsert fresh_id :: EmbeddingsCreate text :: calls w) w)
  else if fails w (S (S b))
  then (Raise (HTTPException 500 "upstream failure"),
        set_calls (SupabaseExecute "notes" :: calls indexed) indexed)
  else (Ok created,
        set_notes (notes w ++ [created])
          (set_calls (SupabaseExecute "notes" :: calls indexed) indexed)).
Proof.
  intros b created text indexed.
  unfold create_note, except_500, try_except, bind, utcnow.
  rewrite generate_embedding_run. fold b. destruct (fails w b); [reflexivity|].
  rewrite pinecone_upsert_run. cbn [fails calls set_calls length]. fold b.
  destruct (fails w (S b)); [reflexivity|].
  rewrite notes_insert_run. cbn [fails calls set_calls set_pinecone_index length]. fold b.
  destruct (fails w (S (S b))); reflexivity.
Qed.

Lemma get_note_run note_id user_id w n :
  fails w (length (calls w)) = false →
  filter (λ x, Is_true (eq_id_user_id note_id user_id x)) (notes w) = [n] →
  get_note note_id user_id w = (Ok n, set_calls (SupabaseExecute "notes" :: calls w) w).
Proof.
  intros Hok Hsel. unfold get_note, try_except, bind.
  by rewrite notes_select_run, Hok, Hsel.
Qed.

(** X11: with working collaborators a created note comes back with the
    three flags off and creation and modification time equal to now; it
    is appended to the table and indexed under the same id with its text
    as metadata; and when the id drawn is new, reading that id as the
    owner returns the note. *)
Theorem create_note_stores_and_indexes (fresh_id : string) (note : NoteCreate)
    (w : World) :
  (∀ k, fails w k = false) →
  (∀ x, x ∈ notes w → n_id x ≠ fresh_id) →
  ∃ created w' w'',
    create_note fresh_id note w = (Ok created, w') ∧
    n_id created = fresh_id ∧ n_user_id created = c_user_id note ∧
    n_title created = c_title note ∧ n_content created = c_content note ∧
    n_tags created = c_tags note ∧
    n_is_favorite created = false ∧ n_is_archived created = false ∧
    n_is_deleted created = false ∧
    n_created_at created = isoformat (clock w) ∧
    n_updated_at created = n_created_at created ∧
    notes w' = notes w ++ [created] ∧
    pinecone_index w' !! fresh_id
      = Some {| ve_values := embedding_model
                               (String.append (c_title note)
                                  (String.append " " (c_content note)));
                ve_metadata := {[ "text" := c_content note; "title" := c_title note;
                                  "user_id" := c_user_id note;
                                  "created_at" := isoformat (clock w) ]} |} ∧
    get_note fresh_id (c_user_id note) w' = (Ok created, w'').
Proof.
  intros Hok Hfresh. pose proof (create_note_run fresh_id note w) as Hrun.
  cbv zeta in Hrun. rewrite !(Hok _) in Hrun.
  match type of Hrun with _ = (_, ?x) => set (w' := x) in * end.
  eexists _, w', _. split; [exact Hrun|].
  do 10 (split; [reflexivity|]). split; [reflexivity|]. split.
  - unfold w'. cbn [pinecone_index set_notes set_calls set_pinecone_index].
    apply lookup_insert_eq.
  - apply get_note_run; [apply (Hok _)|].
    unfold w'. cbn [notes set_notes]. rewrite filter_app.
    assert (filter (λ x, Is_true (eq_id_user_id fresh_id (c_user_id note) x)) (notes w)
            = []) as ->.
    { destruct (filter _ (notes w)) as [|y ys] eqn:Hy; [done|]. exfalso.
      assert (y ∈ y :: ys) as Hin by left. rewrite <- Hy in Hin.
      apply list_elem_of_filter in Hin as [Hq Hin].
      apply Is_true_true, eq_id_user_id_owner in Hq as [Hi _].
      by apply (Hfresh y Hin). }
    rewrite filter_cons_True; [done|].
    unfold eq_id_user_id, eq_id, eq_user_id, created_note. cbn.
    by rewrite !bool_decide_eq_true_2.
Qed.

(** X12: a failed create is not undone.  When the embedding or the upsert
    fails nothing is written; when the row insert fails after the upsert
    the request answers 500 and the index holds an entry for a note the
    table does not have. *)
Theorem create_note_can_leave_an_orphan_vector (fresh_id : string) (note : NoteCreate)
    (w : World) :
  let b := length (calls w) in
  (fails w b = true ∨ fails w (S b) = true →
     ∃ w', create_note fresh_id note w
             = (Raise (HTTPException 500 "upstream failure"), w') ∧
           notes w' = notes w ∧ pinecone_index w' = pinecone_index w) ∧
  (fails w b = false → fails w (S b) = false → fails w (S (S b)) = true →
     ∃ w', create_note fresh_id note w
             = (Raise (HTTPException 500 "upstream failure"), w') ∧
           notes w' = notes w ∧
           is_Some (pinecone_index w' !! fresh_id)).
Proof.
  intros b. pose proof (create_note_run fresh_id note w) as Hrun.
  cbv zeta in Hrun. fold b in Hrun. split.
  - intros Hfail. destruct (fails w b) eqn:Hb.
    + eexists. split; [exact Hrun|]. by split.
    + destruct Hfail as [Hfail|Hfail]; [done|]. rewrite Hfail in Hrun.
      eexists. split; [exact Hrun|]. by split.
  - intros Hb1 Hb2 Hb3. rewrite Hb1, Hb2, Hb3 in Hrun.
    eexists. split; [exact Hrun|]. split; [reflexivity|].
    cbn [pinecone_index set_calls set_pinecone_index].
    rewrite lookup_insert_eq. by eexists.
Qed.

(** X13: reading a note never writes, returns only a row of the asked id
    and owner, and signals nothing but a 404 or a 500. *)
Theorem get_note_reads_only_the_owners_note (note_id user_id : string) (w : World) :
  notes (get_note note_id user_id w).2 = notes w ∧
  pinecone_index (get_note note_id user_id w).2 = pinecone_index w ∧
  match (get_note note_id user_id w).1 with
  | Ok n => n ∈ notes w ∧ n_id n = note_id ∧ n_user_id n = user_id
  | Raise e => ∃ detail, e = HTTPException 404 detail ∨ e = HTTPException 500 detail
  end.
Proof.
  unfold get_note, try_except, bind. rewrite notes_select_run.
  destruct (fails w _).
  { destruct (str_contains _ _); cbn; repeat split; eauto. }
  destruct (filter _ (notes w)) as [|n [|n' rest]] eqn:Hsel; cbn [single raise ret].
  - destruct (str_contains _ _); cbn; repeat split; eauto.
  - cbn. repeat split.
    all: assert (n ∈ filter (λ x, Is_true (eq_id_user_id note_id user_id x)) (notes w))
           as Hin by (rewrite Hsel; left).
    all: apply list_elem_of_filter in Hin as [Hq Hin]; [done || idtac..].
    all: apply Is_true_true, eq_id_user_id_owner in Hq as [Hi Hu]; done.
  - destruct (str_contains _ _); cbn; repeat split; eauto.
Qed.

End TwoStores.

(** ** Listing *)

Section Listing.
Context `{Collaborators}.

Lemma notes_query_owner user_id filter_type n :
  notes_query user_id filter_type n = true → n_user_id n = user_id.
Proof.
  unfold notes_query. intros Hq.
  repeat case_bool_decide; repeat (apply andb_prop in Hq as [Hq ?]);
    by apply bool_decide_eq_true in Hq.
Qed.

Lemma notes_query_unfiltered user_id filter_type n :
  filter_type ≠ "all" → filter_type ≠ "favorites" →
  filter_type ≠ "archived" → filter_type ≠ "trash" →
  notes_query user_id filter_type n = eq_user_id user_id n.
Proof. intros. unfold notes_query. by rewrite !bool_decide_eq_false_2 by done. Qed.

(** X14: whatever the filter, the search text and the page, a listing
    changes no table, contains only rows of the asking owner and has at
    most [limit] rows.  A non-empty search text is pasted into the text of
    an or-filter and it is the store that reads that text: the rows listed
    are rows that pass the filter so read, and the request answers 500
    when the store cannot parse it. *)
Theorem get_notes_lists_only_the_owners_rows (user_id filter_type : string)
    (search : option string) (limit offset : Z) (w : World) :
  notes (get_notes user_id filter_type search limit offset w).2 = notes w ∧
  search_logs (get_notes user_id filter_type search limit offset w).2 = search_logs w ∧
  pinecone_index (get_notes user_id filter_type search limit offset w).2
    = pinecone_index w ∧
  (∀ l w', get_notes user_id filter_type search limit offset w = (Ok l, w') →
    (∀ x, x ∈ l → x ∈ notes w ∧ n_user_id x = user_id) ∧
    (length l ≤ Z.to_nat limit)%nat ∧
    (∀ c s, search = Some (String c s) →
       ∃ group,
         or_filter (or_filter_text (String c s)) = Some group ∧
         ∀ x, x ∈ l → group (note_row x) = true)) ∧
  (∀ c s, search = Some (String c s) →
     or_filter (or_filter_text (String c s)) = None →
     ∃ detail w', get_notes user_id filter_type search limit offset w
                  = (Raise (HTTPException 500 detail), w')).
Proof.
  assert (Hframe : ∃ cs, (get_notes user_id filter_type search limit offset w).2
                         = set_calls cs w).
  { unfold get_notes, except_500, try_except, bind, lift, raise, ret.
    rewrite notes_select_or_run. destruct (fails w _); cbn [snd]; [by eexists|].
    destruct (or_group _); cbn [snd]; [|by eexists].
    destruct (range_rows _ _ _); cbn [snd]; by eexists. }
  destruct Hframe as [cs ->]. split; [done|]. split; [done|]. split; [done|]. split.
  - intros l w' Hrun. split; [|split].
    + intros x Hx. destruct (elem_of_listing _ _ _ _ _ _ _ _ _ Hrun Hx) as [Hin Hq].
      split; [done|]. by apply notes_query_owner in Hq.
    + apply get_notes_ok in Hrun as (group & _ & ->). rewrite length_take. lia.
    + intros c s ->. apply get_notes_ok in Hrun as (group & Hgroup & ->).
      cbn [or_param or_group] in Hgroup.
      destruct (or_filter (or_filter_text (String c s))) as [g|]; [|done].
      injection Hgroup as <-. exists g. split; [done|].
      intros x Hx. apply elem_of_page in Hx as [_ Hq].
      by apply andb_prop in Hq as [_ Hq].
  - intros c s -> Hrefused.
    unfold get_notes, except_500, try_except, bind, lift, raise.
    rewrite notes_select_or_run. cbn [or_param or_group]. rewrite Hrefused.
    destruct (fails w _); by eexists _, _.
Qed.

(** X15: the favorites and the archived listing hold only rows with that
    flag set and deleted=false; a filter type other than the four known
    ones filters on nothing but the owner, so it lists deleted rows too;
    an empty search text is no search. *)
Theorem get_notes_other_filters (user_id : string) (search : option string)
    (limit offset : Z) (w : World) :
  (∀ l w', get_notes user_id "favorites" search limit offset w = (Ok l, w') →
     ∀ x, x ∈ l → n_is_favorite x = true ∧ n_is_deleted x = false) ∧
  (∀ l w', get_notes user_id "archived" search limit offset w = (Ok l, w') →
     ∀ x, x ∈ l → n_is_archived x = true ∧ n_is_deleted x = false) ∧
  (∀ filter_type,
     filter_type ≠ "all" → filter_type ≠ "favorites" →
     filter_type ≠ "archived" → filter_type ≠ "trash" →
     fails w (length (calls w)) = false →
     Z.of_nat (length (filter (λ x, n_user_id x = user_id) (notes w))) ≤ limit →
     ∃ l w', get_notes user_id filter_type None limit 0 w = (Ok l, w') ∧
             l ≡ₚ filter (λ x, n_user_id x = user_id) (notes w)) ∧
  (∀ filter_type,
     get_notes user_id filter_type (Some EmptyString) limit offset w
     = get_notes user_id filter_type None limit offset w).
Proof.
  split; [|split; [|split]].
  - intros l w' Hrun x Hx.
    destruct (elem_of_listing _ _ _ _ _ _ _ _ _ Hrun Hx) as [_ Hq].
    rewrite notes_query_favorites in Hq. apply andb_prop in Hq as [Hq Hd].
    apply andb_prop in Hq as [_ Hf]. by apply bool_decide_eq_true in Hf, Hd.
  - intros l w' Hrun x Hx.
    destruct (elem_of_listing _ _ _ _ _ _ _ _ _ Hrun Hx) as [_ Hq].
    rewrite notes_query_archived in Hq. apply andb_prop in Hq as [Hq Hd].
    apply andb_prop in Hq as [_ Ha]. by apply bool_decide_eq_true in Ha, Hd.
  - intros filter_type H1 H2 H3 H4 Hok Hlen.
    assert (Hsame : filter (λ x, Is_true (notes_query user_id filter_type x)) (notes w)
                    = filter (λ x, n_user_id x = user_id) (notes w)).
    { apply list_filter_iff. intros x. rewrite notes_query_unfiltered by done.
      unfold eq_user_id. by rewrite bool_decide_spec. }
    destruct (get_notes_full_page user_id filter_type None limit w Hok)
      as (l & w' & Hrun & Hperm); [by left|by rewrite Hsame|].
    exists l, w'. split; [exact Hrun|]. by rewrite Hperm, Hsame.
  - reflexivity.
Qed.

End Listing.

(** ** Stats *)

Section Stats.
Context `{Collaborators}.

Lemma filter_length_mono {A : Type} (P Q : A → Prop)
    `{∀ x, Decision (P x)} `{∀ x, Decision (Q x)} (l : list A) :
  (∀ x, P x → Q x) → (length (filter P l) ≤ length (filter Q l))%nat.
Proof.
  intros HPQ. induction l as [|x l IH]; [done|]. rewrite !filter_cons.
  destruct (decide (P x)) as [HP|HP].
  - rewrite decide_True by auto. cbn [length]. lia.
  - destruct (decide (Q x)); cbn [length]; lia.
Qed.

Lemma recent_activities_length user_id w :
  (length (recent_activities user_id w) ≤ 30)%nat.
Proof. unfold recent_activities. rewrite length_fmap, length_take. lia. Qed.

(** X16: in every stats report the six numbers are not negative, the
    favorites and the archived count are at most the total, and the
    streak is at most 30; producing the report changes no table and makes
    at most five calls. *)
Theorem get_user_stats_report_is_bounded (user_id : string) (w : World) :
  ∃ s w',
    get_user_stats user_id w = (Ok s, w') ∧
    0 ≤ total_notes s ∧ 0 ≤ favorites_count s ∧ 0 ≤ archived_count s ∧
    0 ≤ searches_this_week s ∧ 0 ≤ ai_insights s ∧ 0 ≤ streak s ∧
    favorites_count s ≤ total_notes s ∧
    archived_count s ≤ total_notes s ∧
    streak s ≤ 30 ∧
    notes w' = notes w ∧ search_logs w' = search_logs w ∧
    pinecone_index w' = pinecone_index w ∧
    (length (calls w') ≤ length (calls w) + 5)%nat.
Proof.
  destruct (get_user_stats_run user_id w) as [w' Hrun].
  assert (Hframe : notes (get_user_stats user_id w).2 = notes w ∧
                   search_logs (get_user_stats user_id w).2 = search_logs w ∧
                   pinecone_index (get_user_stats user_id w).2 = pinecone_index w ∧
                   (length (calls (get_user_stats user_id w).2)
                    ≤ length (calls w) + 5)%nat).
  { clear Hrun. unfold get_user_stats, try_except, bind, utcnow, ret.
    rewrite notes_count_run. destruct (fails w _); [cbn; repeat split; lia|].
    rewrite notes_count_run. destruct (fails _ _); [cbn; repeat split; lia|].
    rewrite notes_count_run. destruct (fails _ _); [cbn; repeat split; lia|].
    rewrite search_logs_count_run.
    destruct (fails _ _); rewrite notes_select_run; destruct (fails _ _);
      rewrite ?streak_of_activities_run; cbn; repeat split; lia. }
  rewrite Hrun in Hframe. cbn [snd] in Hframe.
  destruct Hframe as (Hn & Hl & Hi & Hc).
  eexists _, w'. split; [exact Hrun|].
  pose proof (spec_streak_bounds (recent_activities user_id w)) as [[Hs0 Hs1] _].
  pose proof (recent_activities_length user_id w) as Hlen.
  pose proof (length_filter (λ a, Is_true (parses a)) (recent_activities user_id w))
    as Hfl.
  assert (Hfav : (length (filter (λ n, Is_true (eq_user_id user_id n
                     && eq_is_favorite true n && eq_is_deleted false n)) (notes w))
                  ≤ length (filter (λ n, Is_true (eq_user_id user_id n
                     && eq_is_deleted false n)) (notes w)))%nat).
  { apply filter_length_mono. intros x. rewrite !andb_True. tauto. }
  assert (Harc : (length (filter (λ n, Is_true (eq_user_id user_id n
                     && eq_is_archived true n && eq_is_deleted false n)) (notes w))
                  ≤ length (filter (λ n, Is_true (eq_user_id user_id n
                     && eq_is_deleted false n)) (notes w)))%nat).
  { apply filter_length_mono. intros x. rewrite !andb_True. tauto. }
  destruct (_ || _); cbn; [repeat split; (done || lia)|].
  repeat split; try done; repeat (destruct (fails w _)); lia.
Qed.

(** X17: the streak is taken from every note of the owner, deleted or
    not, while the counts leave deleted notes out: an owner with at most
    30 notes, all of them in the trash and one with a timestamp that
    parses, has a total of 0 and a streak of at least 1. *)
Theorem get_user_stats_streak_counts_trashed_notes (user_id : string) (w : World)
    (n : Note) (dt : datetime) :
  (∀ k, fails w k = false) →
  (∀ x, x ∈ notes w → n_user_id x = user_id → n_is_deleted x = true) →
  (length (filter (λ x, n_user_id x = user_id) (notes w)) ≤ 30)%nat →
  n ∈ notes w → n_user_id n = user_id →
  fromisoformat (replace_Z (n_created_at n)) = Some dt →
  ∃ s w', get_user_stats user_id w = (Ok s, w') ∧
          total_notes s = 0 ∧ favorites_count s = 0 ∧ archived_count s = 0 ∧
          1 ≤ streak s.
Proof.
  intros Hok Hall Hfew Hn Hu Hdt.
  destruct (get_user_stats_run user_id w) as [w' Hrun].
  rewrite !(Hok _) in Hrun. cbn [orb] in Hrun.
  eexists _, w'. split; [exact Hrun|].
  cbn [total_notes favorites_count archived_count streak].
  assert (Hnone : ∀ q : Note → bool,
            (∀ x, q x = true → n_user_id x = user_id ∧ n_is_deleted x = false) →
            filter (λ x, Is_true (q x)) (notes w) = []).
  { intros q Hq.
    destruct (filter (λ x, Is_true (q x)) (notes w)) as [|y ys] eqn:Hy; [done|]. exfalso.
    assert (y ∈ y :: ys) as Hin by left. rewrite <- Hy in Hin.
    apply list_elem_of_filter in Hin as [Hqy Hin].
    apply Is_true_true, Hq in Hqy as [Hyu Hyd].
    rewrite (Hall y Hin Hyu) in Hyd. discriminate. }
  rewrite !Hnone.
  2-4: intros x Hq; unfold eq_user_id, eq_is_deleted in Hq;
       repeat (apply andb_prop in Hq as [Hq ?]);
       repeat match goal with
              | Hb : bool_decide _ = true |- _ => apply bool_decide_eq_true in Hb
              end; done.
  repeat split.
  pose proof (spec_streak_bounds (recent_activities user_id w)) as [[Hs0 _] Hzero].
  destruct (decide (spec_streak (collect_dates (recent_activities user_id w) ∅) = 0))
    as [Hz|Hz]; [|lia].
  exfalso.
  set (a := ({[ "created_at" := PStr (n_created_at n) ]} : gmap string pyvalue)).
  apply (proj1 Hzero Hz a).
  - unfold recent_activities. apply list_elem_of_fmap. exists n. split; [done|].
    rewrite take_ge.
    + unfold order_created_at_desc. rewrite merge_sort_Permutation.
      apply list_elem_of_filter. split; [|done].
      unfold eq_user_id. by rewrite bool_decide_eq_true_2.
    + unfold order_created_at_desc. rewrite merge_sort_Permutation.
      erewrite list_filter_iff; [exact Hfew|].
      intros x. unfold eq_user_id. by rewrite bool_decide_spec.
  - unfold parses, activity_date, a. rewrite lookup_singleton_eq, Hdt. done.
Qed.

End Stats.

(** ** Search and the legacy endpoints *)

Section Searching.
Context `{Collaborators}.

(** X18: when the embedding, the vector query and the completion call
    work, the completion is asked once, with the system prompt, and one
    log row with the number of matches is appended when the log insert
    works, none when it fails.  When the completion carries a text, the
    search answers that text and the results carry the id, score, title
    and text of the matches in the index's order, with "Untitled" and the
    empty text for missing metadata, whether or not the log insert
    worked.  The text is read after the log insert: a completion without
    text gives status 500, the log row being written all the same. *)
Theorem search_notes_results_follow_the_matches (query user_id : string) (limit : Z)
    (w : World) (m : Match_ Score) (ms : list (Match_ Score)) :
  let b := length (calls w) in
  let matches := m :: ms in
  fails w b = false → fails w (S b) = false → fails w (S (S b)) = false →
  index_query (embedding_model query) limit user_id (pinecone_index w) = matches →
  ∃ prompt w',
    (search_notes query user_id limit w).2 = w' ∧
    calls w' = SupabaseExecute "search_logs"
               :: ChatCompletionsCreate system_prompt prompt
               :: PineconeQuery limit user_id :: EmbeddingsCreate query :: calls w ∧
    match chat_model system_prompt prompt with
    | Some content =>
        ∃ r,
          search_notes query user_id limit w = (Ok r, w') ∧
          sr_id <$> results r = m_id <$> matches ∧
          sr_score <$> results r = m_score <$> matches ∧
          sr_title <$> results r
            = (λ m, default "Untitled" (m_metadata m !! "title")) <$> matches ∧
          sr_text <$> results r
            = (λ m, default EmptyString (m_metadata m !! "text")) <$> matches ∧
          answer r = content
    | None =>
        ∃ detail,
          search_notes query user_id limit w = (Raise (HTTPException 500 detail), w')
    end ∧
    (fails w (S (S (S b))) = false →
       search_logs w' = search_logs w ++
         [{| sl_user_id := user_id; sl_query := query;
             sl_results_count := Z.of_nat (length matches);
             sl_created_at := isoformat (clock w) |}]) ∧
    (fails w (S (S (S b))) = true → search_logs w' = search_logs w).
Proof.
  intros b matches Hok1 Hok2 Hok3 Hm.
  unfold search_notes, except_500, try_except, bind, utcnow.
  rewrite generate_embedding_run. fold b. rewrite Hok1, pinecone_query_run.
  cbn [fails calls set_calls pinecone_index length]. fold b. rewrite Hok2, Hm.
  unfold matches. rewrite chat_completions_create_run.
  cbn [fails calls set_calls length]. fold b.
  rewrite Hok3, search_logs_insert_run. cbn [fails calls set_calls length]. fold b.
  match goal with
  | |- context [chat_model system_prompt ?p] => set (prompt := p)
  end.
  exists prompt.
  destruct (fails w (S (S (S b)))), (chat_model system_prompt prompt);
    cbn [message_content ret raise fst snd].
  all: eexists; split; [reflexivity|]; split; [reflexivity|]; split; [|by split].
  all: try (by eexists).
  all: eexists; split; [reflexivity|]; cbn [results answer].
  all: rewrite <- !list_fmap_compose; by repeat split.
Qed.

(** X19: a search never writes to the notes table or the index and
    appends at most one log row, for the asking owner and query, with the
    number of matches; it appends none when there is no match, and none
    when the embedding, the vector query or the completion call fails.
    Every exception is a 500; an answered search returns one result per
    match. *)
Theorem search_notes_logs_at_most_one_row (query user_id : string) (limit : Z)
    (w : World) :
  let b := length (calls w) in
  let matches := index_query (embedding_model query) limit user_id (pinecone_index w) in
  let out := search_notes query user_id limit w in
  notes out.2 = notes w ∧
  pinecone_index out.2 = pinecone_index w ∧
  (search_logs out.2 = search_logs w ∨
   ∃ t, search_logs out.2 = search_logs w ++
          [{| sl_user_id := user_id; sl_query := query;
              sl_results_count := Z.of_nat (length matches);
              sl_created_at := t |}]) ∧
  (matches = [] → search_logs out.2 = search_logs w) ∧
  (fails w b = true ∨ fails w (S b) = true ∨ fails w (S (S b)) = true →
     search_logs out.2 = search_logs w) ∧
  match out.1 with
  | Raise e => ∃ detail, e = HTTPException 500 detail
  | Ok r => length (results r) = length matches
  end.
Proof.
  intros b matches out. unfold out, search_notes, except_500, try_except, bind, utcnow.
  rewrite generate_embedding_run. fold b.
  destruct (fails w b) eqn:Hf1; [cbn; repeat split; by eauto|].
  rewrite pinecone_query_run. cbn [fails calls set_calls pinecone_index length]. fold b.
  destruct (fails w (S b)) eqn:Hf2; [cbn; repeat split; by eauto|]. fold matches.
  destruct matches as [|m ms] eqn:Hm; [cbn; repeat split; by auto|].
  rewrite chat_completions_create_run. cbn [fails calls set_calls length]. fold b.
  destruct (fails w (S (S b))) eqn:Hf3; [cbn; repeat split; by eauto|].
  rewrite search_logs_insert_run. cbn [fails calls set_calls length]. fold b.
  destruct (fails w (S (S (S b)))), (chat_model system_prompt _); cbn.
  all: split; [done|]; split; [done|].
  all: split; [first [by left | right; by eexists]|].
  all: split; [done|]; split; [by intros [?|[?|?]]|].
  all: first [by rewrite length_fmap | by eexists].
Qed.

Lemma save_note_legacy_run fresh_id req note w :
  legacy_note req = Ok note →
  save_note_legacy fresh_id req w =
  match create_note fresh_id note w with
  | (Ok created, w') =>
      (Ok {[ "status" := PStr "success"; "note_id" := PStr (n_id created) ]}, w')
  | (Raise e, w') => (Raise e, w')
  end.
Proof.
  intros Hnote. unfold save_note_legacy, bind, lift. rewrite Hnote.
  by destruct (create_note fresh_id note w) as [[created|e] w'].
Qed.

(** X20: the legacy save reads the body before any call is made: without
    a content or a user_id key it raises KeyError (not an HTTP error) and
    leaves the world as it was; with both as strings and no title and
    tags it stores a note titled "Untitled Note" with no tags, and
    answers the new id. *)
Theorem save_note_legacy_reads_the_body_first (fresh_id : string)
    (req : gmap string pyvalue) (w : World) :
  (req !! "content" = None →
     save_note_legacy fresh_id req w = (Raise (KeyError "content"), w)) ∧
  (is_Some (req !! "content") → req !! "user_id" = None →
     save_note_legacy fresh_id req w = (Raise (KeyError "user_id"), w)) ∧
  (∀ content user_id,
     req !! "content" = Some (PStr content) →
     req !! "user_id" = Some (PStr user_id) →
     req !! "title" = None → req !! "tags" = None →
     (∀ k, fails w k = false) →
     ∃ w', save_note_legacy fresh_id req w
             = (Ok {[ "status" := PStr "success"; "note_id" := PStr fresh_id ]}, w') ∧
           notes w' = notes w ++
             [{| n_id := fresh_id; n_user_id := user_id;
                 n_title := "Untitled Note"; n_content := content; n_tags := [];
                 n_is_favorite := false; n_is_archived := false; n_is_deleted := false;
                 n_created_at := isoformat (clock w);
                 n_updated_at := isoformat (clock w) |}]).
Proof.
  split; [|split].
  - intros Hc. unfold save_note_legacy, bind, lift, legacy_note, item. by rewrite Hc.
  - intros [c Hc] Hu. unfold save_note_legacy, bind, lift, legacy_note, item.
    by rewrite Hc, Hu.
  - intros content user_id Hc Hu Ht Hg Hok.
    rewrite (save_note_legacy_run fresh_id req
               {| c_title := "Untitled Note"; c_content := content;
                  c_user_id := user_id; c_tags := [] |}).
    + rewrite create_note_run. cbv zeta. rewrite !(Hok _).
      eexists. split; reflexivity.
    + unfold legacy_note, item. by rewrite Hc, Hu, Ht, Hg.
Qed.

End Searching.

(** ** Preferences *)

Section PreferencesProperties.
Context `{Collaborators}.

Lemma in_world_outbound_run c d :
  in_world (outbound c) d =
  (if fails (world d) (length (calls (world d))) then Raise upstream_failure else Ok tt,
   set_world (set_calls (c :: calls (world d)) (world d)) d).
Proof. unfold in_world. by rewrite outbound_run. Qed.

Lemma preferences_single_run user_id d :
  preferences_single user_id d =
  (if fails (world d) (length (calls (world d))) then Raise upstream_failure
   else match user_preferences d !! user_id with
        | Some row => Ok (Some row)
        | None => Raise (APIError "PGRST116")
        end,
   set_world (set_calls (SupabaseExecute "user_preferences" :: calls (world d)) (world d))
     d).
Proof.
  unfold preferences_single, dbind. rewrite in_world_outbound_run.
  destruct (fails (world d) _); [done|].
  cbn [get_desk user_preferences set_world]. by destruct (user_preferences d !! user_id).
Qed.

Lemma preferences_upsert_run row d :
  preferences_upsert row d =
  let d1 := set_world
              (set_calls (SupabaseExecute "user_preferences" :: calls (world d)) (world d))
              d in
  if fails (world d) (length (calls (world d)))
  then (Raise upstream_failure, d1)
  else (Ok tt, set_user_preferences (<[pr_user_id row := row]> (user_preferences d)) d1).
Proof.
  unfold preferences_upsert, dbind. rewrite in_world_outbound_run.
  by destruct (fails (world d) _).
Qed.

(** X21: reading the preferences never signals an error and writes
    nothing: it answers the stored flags of the owner, and the defaults
    (dark mode on, sidebar open, e-mail on) when the owner has no record
    or the store fails. *)
Theorem get_preferences_falls_back_to_defaults (user_id : string) (d : Desk) :
  ∃ prefs d',
    get_preferences user_id d = (Ok prefs, d') ∧
    user_preferences d' = user_preferences d ∧
    notifications d' = notifications d ∧
    (fails (world d) (length (calls (world d))) = true ∨
     user_preferences d !! user_id = None →
       prefs = default_preferences) ∧
    (∀ row, fails (world d) (length (calls (world d))) = false →
       user_preferences d !! user_id = Some row →
       prefs !! "dark_mode" = Some (PBool (pr_dark_mode row)) ∧
       prefs !! "sidebar_collapsed" = Some (PBool (pr_sidebar_collapsed row)) ∧
       prefs !! "email_notifications" = Some (PBool (pr_email_notifications row))) ∧
    default_preferences !! "dark_mode" = Some (PBool true) ∧
    default_preferences !! "sidebar_collapsed" = Some (PBool false) ∧
    default_preferences !! "email_notifications" = Some (PBool true).
Proof.
  unfold get_preferences, dtry_except, dbind. rewrite preferences_single_run.
  destruct (fails (world d) _) eqn:Hf.
  - eexists _, _. split; [reflexivity|]. by repeat split.
  - destruct (user_preferences d !! user_id) as [row|] eqn:Hrow.
    + eexists _, _. split; [reflexivity|]. split; [done|]. split; [done|].
      split; [by intros [?|?]|]. split; [|by repeat split].
      intros row' _ [= <-]. by repeat split.
    + eexists _, _. split; [reflexivity|]. by repeat split.
Qed.

Lemma update_preferences_run user_id preferences d :
  let row := {| pr_user_id := user_id;
                pr_dark_mode := dark_mode preferences;
                pr_sidebar_collapsed := sidebar_collapsed preferences;
                pr_email_notifications := email_notifications preferences;
                pr_updated_at := isoformat (clock (world d)) |} in
  ∃ d1,
    update_preferences user_id preferences d =
      (if fails (world d) (length (calls (world d)))
       then Raise (HTTPException 500 "upstream failure")
       else Ok ("success", row), d1) ∧
    world d1 = set_calls (SupabaseExecute "user_preferences" :: calls (world d)) (world d) ∧
    notifications d1 = notifications d ∧
    user_preferences d1 =
      if fails (world d) (length (calls (world d)))
      then user_preferences d
      else <[user_id := row]> (user_preferences d).
Proof.
  intros row.
  unfold update_preferences, dexcept_500, dtry_except, dbind, in_world, utcnow.
  cbn [world set_world]. rewrite preferences_upsert_run. cbv zeta.
  cbn [world set_world user_preferences pr_user_id].
  destruct (fails (world d) _); eexists; (split; [reflexivity|]); by repeat split.
Qed.

(** X22: a preference update that reaches the store is what the next read
    answers, whatever was stored before, and it leaves the records of
    other owners alone; an update that fails answers 500 and stores
    nothing. *)
Theorem update_preferences_round_trip (user_id : string) (preferences : UserPreferences)
    (d : Desk) :
  let b := length (calls (world d)) in
  (fails (world d) b = true →
     ∃ d1, update_preferences user_id preferences d
             = (Raise (HTTPException 500 "upstream failure"), d1) ∧
           user_preferences d1 = user_preferences d) ∧
  (fails (world d) b = false → fails (world d) (S b) = false →
     ∃ r d1 prefs d2,
       update_preferences user_id preferences d = (Ok r, d1) ∧
       r.1 = "success" ∧
       (∀ other, other ≠ user_id →
          user_preferences d1 !! other = user_preferences d !! other) ∧
       get_preferences user_id d1 = (Ok prefs, d2) ∧
       prefs !! "dark_mode" = Some (PBool (dark_mode preferences)) ∧
       prefs !! "sidebar_collapsed" = Some (PBool (sidebar_collapsed preferences)) ∧
       prefs !! "email_notifications"
         = Some (PBool (email_notifications preferences))).
Proof.
  intros b.
  destruct (update_preferences_run user_id preferences d) as (d1 & Hrun & Hw & _ & Hup).
  fold b in Hrun, Hup. split.
  - intros Hf. rewrite Hf in Hrun, Hup. by exists d1.
  - intros Hf1 Hf2. rewrite Hf1 in Hrun, Hup.
    eexists _, d1. 
    assert (Hget : ∃ d2, get_preferences user_id d1
              = (Ok (preferences_dict
                       {| pr_user_id := user_id;
                          pr_dark_mode := dark_mode preferences;
                          pr_sidebar_collapsed := sidebar_collapsed preferences;
                          pr_email_notifications := email_notifications preferences;
                          pr_updated_at := isoformat (clock (world d)) |}), d2)).
    { unfold get_preferences, dtry_except, dbind. rewrite preferences_single_run.
      rewrite Hw. cbn [fails calls set_calls length]. fold b.
      rewrite Hf2, Hup, lookup_insert_eq. by eexists. }
    destruct Hget as [d2 Hget].
    eexists _, d2. split; [exact Hrun|]. split; [reflexivity|]. split.
    + intros other Hne. by rewrite Hup, lookup_insert_ne.
    + split; [exact Hget|]. by repeat split.
Qed.

End PreferencesProperties.

(** ** Notifications *)

Section NotificationsProperties.
Context `{Collaborators}.

Lemma notifications_select_run query limit d :
  notifications_select query limit d =
  (if fails (world d) (length (calls (world d))) then Raise upstream_failure
   else limit_rows limit
          (merge_sort notified_desc
             (filter (λ n, Is_true (query n)) (notifications d))),
   called (SupabaseExecute "notifications") d).
Proof.
  unfold notifications_select, dbind. rewrite in_world_outbound_run.
  by destruct (fails (world d) _).
Qed.

Lemma notifications_mark_read_run query d :
  notifications_mark_read query d =
  if fails (world d) (length (calls (world d)))
  then (Raise upstream_failure, called (SupabaseExecute "notifications") d)
  else (Ok tt,
        set_notifications ((λ n, if query n then as_read n else n) <$> notifications d)
          (called (SupabaseExecute "notifications") d)).
Proof.
  unfold notifications_mark_read, dbind. rewrite in_world_outbound_run.
  by destruct (fails (world d) _).
Qed.

Lemma notifications_insert_run row d :
  notifications_insert row d =
  if fails (world d) (length (calls (world d)))
  then (Raise upstream_failure, called (SupabaseExecute "notifications") d)
  else (Ok tt,
        set_notifications (notifications d ++ [row])
          (called (SupabaseExecute "notifications") d)).
Proof.
  unfold notifications_insert, dbind. rewrite in_world_outbound_run.
  by destruct (fails (world d) _).
Qed.

Lemma get_notifications_run user_id unread_only limit d :
  get_notifications user_id unread_only limit d =
  (Ok (if fails (world d) (length (calls (world d))) then []
       else if bool_decide (limit < 0) then []
       else take (Z.to_nat limit)
              (merge_sort notified_desc
                 (filter (λ n, Is_true (inbox_query user_id unread_only n))
                    (notifications d)))),
   called (SupabaseExecute "notifications") d).
Proof.
  unfold get_notifications, dtry_except, dbind. rewrite notifications_select_run.
  destruct (fails (world d) _); [done|]. unfold limit_rows, inbox_query.
  destruct unread_only; by case_bool_decide.
Qed.

Lemma inbox_query_spec user_id unread_only n :
  inbox_query user_id unread_only n = true ↔
  nt_user_id n = user_id ∧ (unread_only = true → nt_is_read n = false).
Proof.
  unfold inbox_query. destruct unread_only.
  - rewrite andb_true_iff, !bool_decide_eq_true. tauto.
  - rewrite bool_decide_eq_true. split; [by split|by intros [? _]].
Qed.

Lemma elem_of_inbox user_id unread_only limit d l d' x :
  get_notifications user_id unread_only limit d = (Ok l, d') → x ∈ l →
  x ∈ notifications d ∧ nt_user_id x = user_id ∧
  (unread_only = true → nt_is_read x = false).
Proof.
  rewrite get_notifications_run. intros [= <- _] Hx.
  destruct (fails (world d) _); [by apply elem_of_nil in Hx|].
  case_bool_decide; [by apply elem_of_nil in Hx|].
  apply subseteq_take in Hx. rewrite merge_sort_Permutation in Hx.
  apply list_elem_of_filter in Hx as [Hq Hx]. split; [done|].
  by apply Is_true_true, inbox_query_spec in Hq.
Qed.

(** X23: listing notifications never signals an error and writes
    nothing: it answers only notifications of the asking owner, only
    unread ones when asked so, at most [limit] of them, and the empty
    list when the store fails. *)
Theorem get_notifications_never_fails (user_id : string) (unread_only : bool)
    (limit : Z) (d : Desk) :
  ∃ l d',
    get_notifications user_id unread_only limit d = (Ok l, d') ∧
    notifications d' = notifications d ∧
    user_preferences d' = user_preferences d ∧
    (∀ x, x ∈ l → x ∈ notifications d ∧ nt_user_id x = user_id ∧
                  (unread_only = true → nt_is_read x = false)) ∧
    (length l ≤ Z.to_nat limit)%nat ∧
    (fails (world d) (length (calls (world d))) = true → l = []).
Proof.
  destruct (get_notifications user_id unread_only limit d) as [r d'] eqn:Hrun.
  pose proof Hrun as Hrun'. rewrite get_notifications_run in Hrun'.
  injection Hrun' as <- <-.
  eexists _, _. split; [reflexivity|]. split; [done|]. split; [done|].
  split; [|split].
  - intros x Hx. by eapply elem_of_inbox.
  - destruct (fails (world d) _); [simpl; lia|].
    case_bool_decide; [simpl; lia|]. rewrite length_take. lia.
  - by intros ->.
Qed.

Lemma mark_all_notifications_read_run user_id d :
  mark_all_notifications_read user_id d =
  if fails (world d) (length (calls (world d)))
  then (Raise (HTTPException 500 "upstream failure"),
        called (SupabaseExecute "notifications") d)
  else (Ok "success",
        set_notifications
          ((λ n, if bool_decide (nt_user_id n = user_id) then as_read n else n)
             <$> notifications d)
          (called (SupabaseExecute "notifications") d)).
Proof.
  unfold mark_all_notifications_read, dexcept_500, dtry_except, dbind.
  rewrite notifications_mark_read_run. by destruct (fails (world d) _).
Qed.

Lemma mark_notification_read_run notification_id user_id d :
  mark_notification_read notification_id user_id d =
  if fails (world d) (length (calls (world d)))
  then (Raise (HTTPException 500 "upstream failure"),
        called (SupabaseExecute "notifications") d)
  else (Ok "success",
        set_notifications
          ((λ n, if bool_decide (nt_id n = notification_id)
                    && bool_decide (nt_user_id n = user_id)
                 then as_read n else n) <$> notifications d)
          (called (SupabaseExecute "notifications") d)).
Proof.
  unfold mark_notification_read, dexcept_500, dtry_except, dbind.
  rewrite notifications_mark_read_run. by destruct (fails (world d) _).
Qed.

(** X24: after marking all notifications of an owner read, the owner's
    unread listing is empty; the notifications of other owners are as
    they were, and none is removed. *)
Theorem mark_all_notifications_read_clears_the_unread (user_id : string) (d : Desk) :
  fails (world d) (length (calls (world d))) = false →
  ∃ d1,
    mark_all_notifications_read user_id d = (Ok "success", d1) ∧
    (∀ i x, notifications d !! i = Some x →
       notifications d1 !! i
         = Some (if bool_decide (nt_user_id x = user_id) then as_read x else x)) ∧
    length (notifications d1) = length (notifications d) ∧
    (∀ limit l d2, get_notifications user_id true limit d1 = (Ok l, d2) → l = []).
Proof.
  intros Hok. rewrite mark_all_notifications_read_run, Hok.
  eexists. split; [reflexivity|]. cbn [notifications set_notifications called set_world].
  split; [|split].
  - intros i x Hx. by rewrite list_lookup_fmap, Hx.
  - by rewrite length_fmap.
  - intros limit l d2 Hlist. destruct l as [|x l]; [done|]. exfalso.
    destruct (elem_of_inbox _ _ _ _ _ _ x Hlist) as (Hx & Hu & Hunread); [left|].
    cbn [notifications set_notifications called set_world] in Hx.
    apply list_elem_of_fmap in Hx as (y & -> & _).
    specialize (Hunread eq_refl). case_bool_decide as Hy; [done|].
    by apply Hy.
Qed.

(** X25: marking one notification read sets the read flag of the
    notification with that id and owner and touches nothing else; asked
    for an id the owner does not have it still answers success and
    changes nothing; doing it twice is the same as once. *)
Theorem mark_notification_read_marks_one (notification_id user_id : string) (d : Desk) :
  fails (world d) (length (calls (world d))) = false →
  ∃ d1,
    mark_notification_read notification_id user_id d = (Ok "success", d1) ∧
    (∀ i x, notifications d !! i = Some x →
       notifications d1 !! i
         = Some (if bool_decide (nt_id x = notification_id ∧ nt_user_id x = user_id)
                 then as_read x else x)) ∧
    ((∀ x, x ∈ notifications d →
           ¬ (nt_id x = notification_id ∧ nt_user_id x = user_id)) →
       notifications d1 = notifications d) ∧
    (fails (world d) (S (length (calls (world d)))) = false →
       ∃ d2, mark_notification_read notification_id user_id d1 = (Ok "success", d2) ∧
             notifications d2 = notifications d1).
Proof.
  intros Hok. rewrite mark_notification_read_run, Hok.
  eexists. split; [reflexivity|]. cbn [notifications set_notifications called set_world].
  split; [|split].
  - intros i x Hx. by rewrite list_lookup_fmap, Hx, bool_decide_and.
  - intros Hnone. rewrite <- (list_fmap_id (notifications d)) at 2.
    apply list_fmap_ext. intros i x Hx. apply list_elem_of_lookup_2 in Hx.
    destruct (bool_decide (nt_id x = notification_id)
              && bool_decide (nt_user_id x = user_id)) eqn:Hq; [|done].
    apply andb_prop in Hq as [Hi Hu]. apply bool_decide_eq_true in Hi, Hu.
    by destruct (Hnone x Hx).
  - intros Hok2. rewrite mark_notification_read_run.
    cbn [world set_notifications called set_world fails calls set_calls length
         notifications].
    rewrite Hok2. eexists. split; [reflexivity|].
    cbn [notifications set_notifications called set_world].
    rewrite <- list_fmap_compose. apply list_fmap_ext. intros i x Hx. cbn.
    destruct (bool_decide (nt_id x = notification_id)
              && bool_decide (nt_user_id x = user_id)) eqn:Hq; cbn; by rewrite Hq.
Qed.

(** X26: a created notification is appended unread with the current time
    as its creation time, and the owner's unread listing then contains it
    (asked with a limit covering the owner's unread notifications). *)
Theorem create_notification_is_listed_unread (fresh_id : string)
    (notification : NotificationCreate) (d : Desk) :
  let created :=
    {| nt_id := fresh_id; nt_user_id := nc_user_id notification;
       nt_title := nc_title notification; nt_message := nc_message notification;
       nt_type := nc_type notification; nt_is_read := false;
       nt_created_at := isoformat (clock (world d)) |} in
  fails (world d) (length (calls (world d))) = false →
  ∃ d1,
    create_notification fresh_id notification d = (Ok created, d1) ∧
    notifications d1 = notifications d ++ [created] ∧
    (fails (world d) (S (length (calls (world d)))) = false →
     ∀ limit,
       Z.of_nat (length (filter (λ n, nt_user_id n = nc_user_id notification
                                      ∧ nt_is_read n = false) (notifications d1)))
         ≤ limit →
       ∃ l d2, get_notifications (nc_user_id notification) true limit d1 = (Ok l, d2) ∧
               created ∈ l).
Proof.
  intros created Hok.
  assert (Hrun : ∃ d1,
    create_notification fresh_id notification d = (Ok created, d1) ∧
    notifications d1 = notifications d ++ [created] ∧
    world d1 = set_calls (SupabaseExecute "notifications" :: calls (world d)) (world d)).
  { unfold create_notification, dexcept_500, dtry_except, dbind, in_world, utcnow.
    cbn [world set_world]. rewrite notifications_insert_run.
    cbn [world set_world]. rewrite Hok. eexists. split; [reflexivity|]. by split. }
  destruct Hrun as (d1 & Hrun & Hnotes & Hw).
  exists d1. split; [exact Hrun|]. split; [exact Hnotes|].
  intros Hok2 limit Hlen. rewrite get_notifications_run.
  rewrite Hw. cbn [fails calls set_calls length]. rewrite Hok2.
  assert (Hsame : filter (λ n, Is_true (inbox_query (nc_user_id notification) true n))
                    (notifications d1)
                  = filter (λ n, nt_user_id n = nc_user_id notification
                                 ∧ nt_is_read n = false) (notifications d1)).
  { apply list_filter_iff. intros x.
    rewrite Is_true_true, inbox_query_spec.
    split; [intros [? Hr]; split; [done|by apply Hr]|intros [? ?]; by split]. }
  rewrite bool_decide_eq_false_2 by lia.
  eexists _, _. split; [reflexivity|].
  rewrite take_ge.
  - rewrite merge_sort_Permutation, Hsame, Hnotes, filter_app.
    apply elem_of_app. right. rewrite filter_cons_True by done. left.
  - rewrite merge_sort_Permutation, Hsame. lia.
Qed.

(** X27: whatever the collaborators do, no notifications request removes
    or reorders a stored notification or changes anything of it but the
    read flag, and a read notification never becomes unread. *)
Theorem notifications_are_kept (d : Desk) (i : nat) (x : Notification) :
  notifications d !! i = Some x →
  let kept := λ d' : Desk,
    ∃ x', notifications d' !! i = Some x' ∧
          nt_id x' = nt_id x ∧ nt_user_id x' = nt_user_id x ∧
          nt_title x' = nt_title x ∧ nt_message x' = nt_message x ∧
          nt_type x' = nt_type x ∧ nt_created_at x' = nt_created_at x ∧
          (nt_is_read x = true → nt_is_read x' = true) in
  (∀ user_id unread_only limit, kept (get_notifications user_id unread_only limit d).2) ∧
  (∀ fresh_id notification, kept (create_notification fresh_id notification d).2) ∧
  (∀ notification_id user_id, kept (mark_notification_read notification_id user_id d).2) ∧
  (∀ user_id, kept (mark_all_notifications_read user_id d).2).
Proof.
  intros Hx kept.
  assert (Hsame : ∀ d', notifications d' = notifications d → kept d').
  { intros d' Hd. exists x. rewrite Hd. by repeat split. }
  assert (Hmarked : ∀ (q : Notification → bool) d',
            notifications d' = (λ n, if q n then as_read n else n) <$> notifications d →
            kept d').
  { intros q d' Hd. exists (if q x then as_read x else x).
    rewrite Hd, list_lookup_fmap, Hx. split; [done|].
    destruct (q x); by repeat split. }
  split; [|split; [|split]].
  - intros user_id unread_only limit. rewrite get_notifications_run. by apply Hsame.
  - intros fresh_id notification.
    unfold create_notification, dexcept_500, dtry_except, dbind, in_world, utcnow.
    cbn [world set_world]. rewrite notifications_insert_run.
    destruct (fails _ _); cbn [snd]; [by apply Hsame|].
    exists x. split; [|by repeat split].
    cbn [notifications set_notifications called set_world draise dret].
    apply lookup_app_l_Some, Hx.
  - intros notification_id user_id. rewrite mark_notification_read_run.
    destruct (fails _ _); cbn [snd]; [by apply Hsame|]. by eapply Hmarked.
  - intros user_id. rewrite mark_all_notifications_read_run.
    destruct (fails _ _); cbn [snd]; [by apply Hsame|]. by eapply Hmarked.
Qed.

End NotificationsProperties.

(** ** The handlers run on the test double *)

Import TestDouble.

Example streak_runs_on_real_timestamps :
  calculate_streak
    [activity "2024-03-01T08:00:00.250000"; activity "2024-02-29T23:59:59Z";
     activity "2024-02-28"; activity "2024-02-25T10:00:00+02:00"]
  = Ok 3.
Proof. vm_compute. reflexivity. Qed.

Lemma calculate_streak_consecutive_run_witness :
  calculate_streak
    [activity "2024-03-10T08:00:00"; activity "2024-03-09T07:30:00";
     activity "2024-03-10T23:00:00Z"; activity "2024-03-08"; activity "2024-03-05"]
  = Ok 3.
Proof.
  destruct (calculate_streak_consecutive_run
              [activity "2024-03-10T08:00:00"; activity "2024-03-09T07:30:00";
               activity "2024-03-10T23:00:00Z"; activity "2024-03-08";
               activity "2024-03-05"]) as (_ & _ & _ & _ & Hfour & _).
  apply (Hfour (ymd2ord 2024 3 10)). vm_compute. reflexivity.
Defined.

Lemma calculate_streak_skips_unparsable_witness :
  calculate_streak
    [activity "yesterday"; ∅; {[ "created_at" := PNone ]}; activity "2024-13-01"]
  = Ok 0.
Proof.
  destruct (calculate_streak_skips_unparsable
              [activity "yesterday"; ∅; {[ "created_at" := PNone ]};
               activity "2024-13-01"]) as (_ & Hnone & _).
  apply Hnone. intros a Ha.
  repeat (apply elem_of_cons in Ha as [-> | Ha]); [| | | |by apply elem_of_nil in Ha];
    eexists; vm_compute; reflexivity.
Defined.

(** C2: updating or restoring a note that matches no stored record raises
    the 404 inside the handler's [try], where [except Exception] catches
    it: the client receives status 500 with the 404 as its detail text. *)
Theorem missing_note_surfaces_as_500 :
  (update_note "missing" "u" tags_only (world_of [sample_note] healthy)).1
    = Raise (HTTPException 500 "404: Note not found") ∧
  (restore_note "missing" "u" (world_of [sample_note] healthy)).1
    = Raise (HTTPException 500 "404: Note not found").
Proof. split; vm_compute; reflexivity. Qed.

Lemma delete_note_never_not_found_witness :
  ∃ w', delete_note "missing" "u" false (world_of [sample_note] healthy)
        = (Ok {[ "status" := PStr "moved_to_trash"; "note_id" := PStr "missing" ]}, w') ∧
        notes w' = [sample_note].
Proof.
  destruct (delete_note_never_not_found "missing" "u" false
              (world_of [sample_note] healthy)) as [_ Hsuccess].
  destruct Hsuccess as (w' & Hrun & Hframe); [reflexivity|].
  exists w'. split; [exact Hrun|]. apply Hframe. vm_compute. reflexivity.
Defined.

Lemma toggle_favorite_twice_witness :
  ∃ r1 w1 r2 w2,
    toggle_favorite "n1" "u" (world_of [sample_note] healthy) = (Ok r1, w1) ∧
    toggle_favorite "n1" "u" w1 = (Ok r2, w2) ∧
    n_is_favorite <$> notes w2 = [true].
Proof.
  destruct (toggle_favorite_twice "n1" "u" (world_of [sample_note] healthy) sample_note)
    as (r1 & w1 & r2 & w2 & n1 & n2 & Hrun1 & Hrun2 & _ & _ & _ & _ & _ & _ & Hflags).
  - intros k. reflexivity.
  - vm_compute. reflexivity.
  - exists r1, w1, r2, w2. split; [exact Hrun1|]. split; [exact Hrun2|]. exact Hflags.
Defined.

Lemma update_note_partial_witness :
  ∃ n' w',
    update_note "n1" "u" tags_only (world_of [sample_note] healthy) = (Ok n', w') ∧
    n_title n' = "Groceries" ∧ n_content n' = "milk" ∧ n_tags n' = ["urgent"] ∧
    calls w' = [SupabaseExecute "notes"] ∧ pinecone_index w' = ∅.
Proof.
  destruct (update_note_partial "n1" "u" tags_only (world_of [sample_note] healthy)
              sample_note [])
    as (n' & w' & Hrun & Ht & Hc & Htags & _ & _ & _ & _ & _ & _ & _ & _ & _ & _
        & Hquiet & _).
  - intros k. reflexivity.
  - vm_compute. reflexivity.
  - exists n', w'. destruct Hquiet as [Hcalls Hindex]; [by split|].
    by repeat split.
Defined.

Lemma search_notes_no_matches_witness :
  ∃ w',
    search_notes "shopping" "u" 5 (world_of [sample_note] healthy)
      = (Ok {| answer := no_results_answer; results := [] |}, w') ∧
    calls w' = [PineconeQuery 5 "u"; EmbeddingsCreate "shopping"].
Proof.
  destruct (search_notes_no_matches "shopping" "u" 5 (world_of [sample_note] healthy))
    as (w' & Hrun & Hcalls & _); [reflexivity|reflexivity|vm_compute; reflexivity|].
  exists w'. by split.
Defined.

(** With a match in the index the completion provider is called once. *)
Example search_with_a_match_calls_the_chat_model :
  let w := set_pinecone_index {[ "n1" := vector_entry "u" sample_note ]}
             (world_of [sample_note] healthy) in
  filter (λ c, Is_true (is_chat_call c))
    (calls (search_notes "shopping" "u" 5 w).2)
  = [ChatCompletionsCreate system_prompt
       (user_prompt (concat_all ["Title: Groceries"; newline; "Content: milk"])
          "shopping" [mkMatch "n1" 0 (ve_metadata (vector_entry "u" sample_note))])].
Proof. vm_compute. reflexivity. Qed.

(** C5, as stated, fails: when only the first count query fails the whole
    report is zero, although the favorites count of the store is 1. *)
Lemma one_failed_count_zeroes_the_report : ¬ isolates_aggregation_failures.
Proof.
  intros Hclaim.
  destruct (get_user_stats_run "u" (world_of [sample_note] first_call_fails))
    as [w' Hrun].
  specialize (Hclaim (world_of [sample_note] first_call_fails) "u" 0%nat zero_stats w').
  specialize (Hclaim ltac:(lia) (λ j, eq_refl) Hrun).
  apply (f_equal favorites_count) in Hclaim. vm_compute in Hclaim. discriminate.
Qed.

Lemma get_user_stats_never_fails_witness :
  ∃ w', get_user_stats "u" (world_of [sample_note] outage) = (Ok zero_stats, w').
Proof.
  destruct (get_user_stats_never_fails "u" (world_of [sample_note] outage))
    as (s & w' & Hrun & _ & _ & Hzero).
  exists w'. rewrite Hrun. by rewrite Hzero.
Defined.

(** C6, as stated, fails: with two notes in the trash, a page of one row
    is not the whole trash. *)
Lemma trash_page_is_not_the_whole_trash : ¬ trash_listing_is_exact.
Proof.
  intros Hclaim.
  set (w := world_of [trashed_note "t1" "2024-03-01T10:00:00" true false;
                      trashed_note "t2" "2024-03-02T10:00:00" false true] healthy).
  destruct (get_notes "u" "trash" None 1 0 w) as [r w'] eqn:Hrun.
  assert (r = Ok [trashed_note "t2" "2024-03-02T10:00:00" false true]) as ->.
  { apply (f_equal fst) in Hrun. vm_compute in Hrun. by rewrite <- Hrun. }
  apply Hclaim in Hrun. apply Permutation_length in Hrun.
  vm_compute in Hrun. discriminate.
Qed.

Lemma get_notes_trash_and_all_witness :
  ∃ l w',
    get_notes "u" "trash" None 50 0
      (world_of [trashed_note "t1" "2024-03-01T10:00:00" true false; sample_note;
                 trashed_note "t2" "2024-03-02T10:00:00" false true] healthy)
      = (Ok l, w') ∧
    l ≡ₚ [trashed_note "t1" "2024-03-01T10:00:00" true false;
          trashed_note "t2" "2024-03-02T10:00:00" false true].
Proof.
  destruct (get_notes_trash_and_all "u" None 50 0
              (world_of [trashed_note "t1" "2024-03-01T10:00:00" true false; sample_note;
                         trashed_note "t2" "2024-03-02T10:00:00" false true] healthy))
    as (_ & Hexact & _).
  destruct Hexact as (l & w' & Hrun & Hperm).
  - reflexivity.
  - by left.
  - reflexivity.
  - vm_compute. discriminate.
  - exists l, w'. split; [exact Hrun|]. rewrite Hperm. vm_compute. reflexivity.
Defined.

(** ** Further runs on the test double *)

Lemma calculate_streak_permutation_witness :
  calculate_streak [activity "2024-03-09"; activity "2024-03-10"]
  = calculate_streak [activity "2024-03-10"; activity "2024-03-09"].
Proof. apply calculate_streak_permutation. apply perm_swap. Defined.

Lemma toggle_archive_flips_witness :
  ∃ r1 w1, toggle_archive "n1" "u" (world_of [sample_note] healthy) = (Ok r1, w1) ∧
           r1 !! "is_archived" = Some (PBool true).
Proof.
  destruct (toggle_archive_flips "n1" "u" (world_of [sample_note] healthy) sample_note
              (sample_clock + 60000000))
    as (r1 & w1 & _ & _ & Hrun & Hflag & _).
  - intros k. reflexivity.
  - vm_compute. reflexivity.
  - by exists r1, w1.
Defined.

Lemma soft_delete_then_restore_witness :
  ∃ r1 w1 r2 w2,
    delete_note "n1" "u" false (world_of [sample_note] healthy) = (Ok r1, w1) ∧
    restore_note "n1" "u" (at_time (sample_clock + 60000000) w1) = (Ok r2, w2) ∧
    n_is_deleted <$> notes w2 = [false] ∧
    n_updated_at <$> notes w2 = ["2024-03-11T12:01:00"].
Proof.
  destruct (soft_delete_then_restore "n1" "u" (world_of [sample_note] healthy)
              sample_note (sample_clock + 60000000))
    as (r1 & w1 & r2 & w2 & Hrun1 & _ & Hrun2 & _ & _ & _ & _).
  - intros k. reflexivity.
  - vm_compute. reflexivity.
  - exists r1, w1, r2, w2. split; [exact Hrun1|]. split; [exact Hrun2|].
    assert (w1 = (delete_note "n1" "u" false (world_of [sample_note] healthy)).2) as Hw1
      by (by rewrite Hrun1).
    assert (w2 = (restore_note "n1" "u" (at_time (sample_clock + 60000000) w1)).2) as ->
      by (by rewrite Hrun2).
    rewrite Hw1. split; vm_compute; reflexivity.
Defined.

Lemma soft_delete_moves_note_to_trash_witness :
  ∃ r w1 l w2 x,
    delete_note "n1" "u" false (world_of [sample_note] healthy) = (Ok r, w1) ∧
    get_notes "u" "trash" None 50 0 w1 = (Ok l, w2) ∧
    x ∈ l ∧ n_id x = "n1" ∧ n_is_deleted x = true.
Proof.
  destruct (soft_delete_moves_note_to_trash "n1" "u" (world_of [sample_note] healthy)
              sample_note) as (r & w1 & Hrun & _ & Htrash).
  - intros k. reflexivity.
  - vm_compute. reflexivity.
  - destruct (Htrash 50) as (l & w2 & x & Hlist & Hx & Hid & Hdel & _).
    + assert (w1 = (delete_note "n1" "u" false (world_of [sample_note] healthy)).2) as ->
        by (by rewrite Hrun).
      vm_compute. discriminate.
    + by exists r, w1, l, w2, x.
Defined.

Lemma hard_delete_is_best_effort_witness :
  ∃ w', delete_note "n1" "u" true (world_of [sample_note] second_call_fails)
        = (Ok {[ "status" := PStr "permanently_deleted"; "note_id" := PStr "n1" ]}, w') ∧
        notes w' = [].
Proof.
  destruct (hard_delete_is_best_effort "n1" "u" (world_of [sample_note] second_call_fails))
    as (w' & Hrun & Hnotes & _); [reflexivity|].
  exists w'. split; [exact Hrun|]. rewrite Hnotes. vm_compute. reflexivity.
Defined.

Lemma hard_delete_drops_vector_of_unowned_note_witness :
  ∃ r w',
    delete_note "n1" "v" true
      (set_pinecone_index {[ "n1" := vector_entry "u" sample_note ]}
         (world_of [sample_note] healthy)) = (Ok r, w') ∧
    sample_note ∈ notes w' ∧ pinecone_index w' !! "n1" = None.
Proof.
  apply (hard_delete_drops_vector_of_unowned_note "n1" "v"
           (set_pinecone_index {[ "n1" := vector_entry "u" sample_note ]}
              (world_of [sample_note] healthy)) sample_note).
  - reflexivity.
  - reflexivity.
  - left.
  - reflexivity.
  - discriminate.
Defined.

Lemma empty_trash_removes_the_owners_trash_witness :
  ∃ w', empty_trash "u"
          (world_of [trashed_note "t1" "2024-03-01T10:00:00" true false; sample_note;
                     trashed_note "t2" "2024-03-02T10:00:00" false true] healthy)
        = (Ok {[ "status" := PStr "success"; "deleted_count" := PInt 2 ]}, w') ∧
        notes w' = [sample_note].
Proof.
  destruct (empty_trash_removes_the_owners_trash "u"
              (world_of [trashed_note "t1" "2024-03-01T10:00:00" true false; sample_note;
                         trashed_note "t2" "2024-03-02T10:00:00" false true] healthy))
    as (w' & Hrun & _); [reflexivity|reflexivity|].
  exists w'. split; [exact Hrun|].
  apply (f_equal snd) in Hrun. cbn [snd] in Hrun. rewrite <- Hrun.
  vm_compute. reflexivity.
Defined.

Lemma update_note_fails_after_the_row_is_written_witness :
  ∃ w', update_note "n1" "u" title_only (world_of [sample_note] second_call_fails)
        = (Raise (HTTPException 500 "upstream failure"), w') ∧
        n_title <$> notes w' = ["Shopping"] ∧
        pinecone_index w' = ∅.
Proof.
  destruct (update_note_fails_after_the_row_is_written "n1" "u" title_only
              (world_of [sample_note] second_call_fails) sample_note [])
    as (w' & n' & Hrun & _ & _ & _ & _ & Hindex).
  - reflexivity.
  - vm_compute. reflexivity.
  - left. discriminate.
  - left. reflexivity.
  - exists w'. split; [exact Hrun|]. split; [|exact Hindex].
    apply (f_equal snd) in Hrun. cbn [snd] in Hrun. rewrite <- Hrun.
    vm_compute. reflexivity.
Defined.

Lemma create_note_stores_and_indexes_witness :
  ∃ created w' w'',
    create_note "n2" sample_create (world_of [sample_note] healthy) = (Ok created, w') ∧
    n_id <$> notes w' = ["n1"; "n2"] ∧
    get_note "n2" "u" w' = (Ok created, w'').
Proof.
  destruct (create_note_stores_and_indexes "n2" sample_create
              (world_of [sample_note] healthy))
    as (created & w' & w'' & Hrun & _ & _ & _ & _ & _ & _ & _ & _ & _ & _ & Hnotes & _
        & Hget).
  - intros k. reflexivity.
  - intros x Hx. apply list_elem_of_singleton in Hx as ->. discriminate.
  - exists created, w', w''. split; [exact Hrun|]. split; [|exact Hget].
    rewrite Hnotes, fmap_app. cbn. f_equal.
    apply (f_equal fst) in Hrun. cbn [fst] in Hrun.
    vm_compute in Hrun. injection Hrun as <-. reflexivity.
Defined.

Lemma create_note_can_leave_an_orphan_vector_witness :
  ∃ w', create_note "n2" sample_create
          (world_of [sample_note] (λ k, bool_decide (k = 2%nat)))
        = (Raise (HTTPException 500 "upstream failure"), w') ∧
        notes w' = [sample_note] ∧
        is_Some (pinecone_index w' !! "n2").
Proof.
  destruct (create_note_can_leave_an_orphan_vector "n2" sample_create
              (world_of [sample_note] (λ k, bool_decide (k = 2%nat)))) as [_ Horphan].
  apply Horphan; reflexivity.
Defined.

Lemma get_user_stats_streak_counts_trashed_notes_witness :
  ∃ s w',
    get_user_stats "u" (world_of [trashed_note "t1" "2024-03-01T10:00:00" false false]
                          healthy) = (Ok s, w') ∧
    total_notes s = 0 ∧ 1 ≤ streak s.
Proof.
  destruct (get_user_stats_streak_counts_trashed_notes "u"
              (world_of [trashed_note "t1" "2024-03-01T10:00:00" false false] healthy)
              (trashed_note "t1" "2024-03-01T10:00:00" false false)
              (mkDatetime (ymd2ord 2024 3 1) 36000000000 None))
    as (s & w' & Hrun & Htotal & _ & _ & Hstreak).
  - intros k. reflexivity.
  - intros x Hx _. by apply list_elem_of_singleton in Hx as ->.
  - vm_compute. lia.
  - left.
  - reflexivity.
  - vm_compute. reflexivity.
  - by exists s, w'.
Defined.

Lemma search_notes_results_follow_the_matches_witness :
  ∃ r w',
    search_notes "shopping" "u" 5
      (set_pinecone_index {[ "n1" := vector_entry "u" sample_note ]}
         (world_of [sample_note] healthy)) = (Ok r, w') ∧
    sr_id <$> results r = ["n1"] ∧
    sr_title <$> results r = ["Groceries"] ∧
    answer r = "stub answer" ∧
    sl_results_count <$> search_logs w' = [1].
Proof.
  destruct (search_notes_results_follow_the_matches "shopping" "u" 5
              (set_pinecone_index {[ "n1" := vector_entry "u" sample_note ]}
                 (world_of [sample_note] healthy))
              (mkMatch "n1" 0 (ve_metadata (vector_entry "u" sample_note))) [])
    as (prompt & w' & _ & _ & Hanswer & Hlogged & _).
  - reflexivity.
  - reflexivity.
  - reflexivity.
  - vm_compute. reflexivity.
  - destruct Hanswer as (r & Hrun & Hids & _ & Htitles & _ & Hcontent).
    exists r, w'. split; [exact Hrun|]. split; [exact Hids|]. split; [|split].
    + rewrite Htitles. vm_compute. reflexivity.
    + exact Hcontent.
    + rewrite Hlogged by reflexivity. reflexivity.
Defined.

Lemma update_preferences_round_trip_witness :
  ∃ r d1 prefs d2,
    update_preferences "u" (mkUserPreferences false true false) (desk_of [] healthy)
      = (Ok r, d1) ∧
    get_preferences "u" d1 = (Ok prefs, d2) ∧
    prefs !! "dark_mode" = Some (PBool false) ∧
    prefs !! "sidebar_collapsed" = Some (PBool true).
Proof.
  destruct (update_preferences_round_trip "u" (mkUserPreferences false true false)
              (desk_of [] healthy)) as [_ Hround].
  destruct Hround as (r & d1 & prefs & d2 & Hrun & _ & _ & Hget & Hdark & Hside & _);
    [reflexivity|reflexivity|].
  by exists r, d1, prefs, d2.
Defined.

Lemma mark_all_notifications_read_clears_the_unread_witness :
  ∃ d1,
    mark_all_notifications_read "u"
      (desk_of [sample_notification "a" "u" false; sample_notification "b" "v" false]
         healthy) = (Ok "success", d1) ∧
    nt_is_read <$> notifications d1 = [true; false].
Proof.
  destruct (mark_all_notifications_read_clears_the_unread "u"
              (desk_of [sample_notification "a" "u" false;
                        sample_notification "b" "v" false] healthy))
    as (d1 & Hrun & _); [reflexivity|].
  exists d1. split; [exact Hrun|].
  apply (f_equal snd) in Hrun. cbn [snd] in Hrun. rewrite <- Hrun.
  vm_compute. reflexivity.
Defined.

Lemma mark_notification_read_marks_one_witness :
  ∃ d1,
    mark_notification_read "a" "v"
      (desk_of [sample_notification "a" "u" false] healthy) = (Ok "success", d1) ∧
    notifications d1 = [sample_notification "a" "u" false].
Proof.
  destruct (mark_notification_read_marks_one "a" "v"
              (desk_of [sample_notification "a" "u" false] healthy))
    as (d1 & Hrun & _ & Hmissing & _); [reflexivity|].
  exists d1. split; [exact Hrun|]. apply Hmissing.
  intros x Hx [_ Howner]. apply list_elem_of_singleton in Hx as ->. discriminate.
Defined.

Lemma create_notification_is_listed_unread_witness :
  ∃ created d1 l d2,
    create_notification "c" (mkNotificationCreate "u" "Hi" "there" "info")
      (desk_of [sample_notification "a" "u" true] healthy) = (Ok created, d1) ∧
    get_notifications "u" true 20 d1 = (Ok l, d2) ∧
    created ∈ l ∧ nt_is_read created = false.
Proof.
  destruct (create_notification_is_listed_unread "c"
              (mkNotificationCreate "u" "Hi" "there" "info")
              (desk_of [sample_notification "a" "u" true] healthy))
    as (d1 & Hrun & Hnotes & Hlisted); [reflexivity|].
  destruct (Hlisted eq_refl 20) as (l & d2 & Hlist & Hin).
  - rewrite Hnotes. vm_compute. discriminate.
  - eexists _, d1, l, d2. split; [exact Hrun|]. split; [exact Hlist|]. by split.
Defined.

Lemma notifications_are_kept_witness :
  ∃ x', notifications
          (mark_all_notifications_read "u"
             (desk_of [sample_notification "a" "u" true] outage)).2 !! 0%nat = Some x' ∧
        nt_is_read x' = true.
Proof.
  destruct (notifications_are_kept
              (desk_of [sample_notification "a" "u" true] outage) 0
              (sample_notification "a" "u" true) eq_refl) as (_ & _ & _ & Hall).
  destruct (Hall "u") as (x' & Hx' & _ & _ & _ & _ & _ & _ & Hread).
  exists x'. split; [exact Hx'|]. by apply Hread.
Defined.

(** A search text is pasted into the or-filter as it is.  With two trashed
    rows of the same title and content, one of them a favorite, a text
    that closes the title pattern and adds a condition on the favorite
    flag lists the favorite row, although neither its title nor its
    content holds the text. *)
Example search_text_is_read_as_filter_syntax :
  (get_notes "u" "trash" (Some "zzz%,is_favorite.eq.true,title.ilike.%zzz") 50 0
     (world_of [trashed_note "a" "2024-03-01T10:00:00" true false;
                trashed_note "b" "2024-03-02T10:00:00" false false] healthy)).1
  = Ok [trashed_note "a" "2024-03-01T10:00:00" true false].
Proof. vm_compute. reflexivity. Qed.

(** A plain search text selects on title and content, without regard to
    case. *)
Example plain_search_text_selects_on_title_and_content :
  (get_notes "u" "all" (Some "groc") 50 0 (world_of [sample_note] healthy)).1
    = Ok [sample_note] ∧
  (get_notes "u" "all" (Some "MILK") 50 0 (world_of [sample_note] healthy)).1
    = Ok [sample_note] ∧
  (get_notes "u" "all" (Some "eggs") 50 0 (world_of [sample_note] healthy)).1
    = Ok [].
Proof. repeat split; vm_compute; reflexivity. Qed.

Lemma get_notes_lists_only_the_owners_rows_witness :
  ∃ detail w',
    get_notes "u" "all" (Some "milk, eggs") 50 0 (world_of [sample_note] healthy)
    = (Raise (HTTPException 500 detail), w').
Proof.
  destruct (get_notes_lists_only_the_owners_rows "u" "all" (Some "milk, eggs") 50 0
              (world_of [sample_note] healthy)) as (_ & _ & _ & _ & Hrefused).
  apply (Hrefused "m"%char "ilk, eggs"); [reflexivity|vm_compute; reflexivity].
Defined.

(** With a chat model whose completion carries no text, a search that
    found a match answers 500 after its log row has been written. *)
Example search_is_logged_before_the_answer_is_read :
  let w := @mkWorld mute [sample_note] []
             {[ "n1" := @vector_entry mute "u" sample_note ]} [] healthy sample_clock in
  (∃ detail, (@search_notes mute "shopping" "u" 5 w).1
             = Raise (HTTPException 500 detail)) ∧
  sl_results_count <$> @search_logs mute (@search_notes mute "shopping" "u" 5 w).2 = [1].
Proof. split; [eexists|]; vm_compute; reflexivity. Qed.
